(** * blog_v2: list, search and tag handling of the article views

    A shallow embedding of [webapp/forms.py] and
    [webapp/views/article_views.py].  Text is a [string] whose characters are
    read as the code points U+0000..U+00FF; keys and timestamps are [Z];
    exceptions are an explicit error type threaded through a small result
    monad; the database is a record of tables. *)

From Stdlib Require Import ZArith List String Ascii Bool Lia Permutation Sorted.
Import ListNotations.
Open Scope string_scope.
Open Scope Z_scope.

(** ** Exceptions and the result monad *)

Inductive Exc : Type :=
| Http404
| DoesNotExist
| MultipleObjectsReturned
| ValueError
| AttributeError.

Inductive Result (A : Type) : Type :=
| Ok (a : A)
| Raise (e : Exc).
Arguments Ok {A} a.
Arguments Raise {A} e.

Definition bind {A B : Type} (r : Result A) (k : A -> Result B) : Result B :=
  match r with
  | Ok a => k a
  | Raise e => Raise e
  end.

Notation "x <- c ;; k" := (bind c (fun x => k))
  (at level 61, c at next level, right associativity).

(** ** Python built-ins used by the views *)

Module Py.

(** [str.isspace] on one character of the Latin-1 range. *)
Definition is_space (c : ascii) : bool :=
  let n := nat_of_ascii c in
  (((9 <=? n) && (n <=? 13)) || ((28 <=? n) && (n <=? 32))
   || (n =? 133) || (n =? 160))%nat.

Fixpoint lstrip (s : string) : string :=
  match s with
  | EmptyString => EmptyString
  | String c r => if is_space c then lstrip r else s
  end.

(** [rstrip] keeps a character when it is not a space or when something is
    kept after it. *)
Fixpoint rstrip (s : string) : string :=
  match s with
  | EmptyString => EmptyString
  | String c r =>
      match rstrip r with
      | EmptyString => if is_space c then EmptyString else String c EmptyString
      | r' => String c r'
      end
  end.

(** [s.strip()] *)
Definition strip (s : string) : string := rstrip (lstrip s).

(** [s.split(sep)] for a one-character separator: never returns the empty
    list, and keeps empty pieces. *)
Fixpoint split (sep : ascii) (s : string) : list string :=
  match s with
  | EmptyString => [EmptyString]
  | String c r =>
      if Ascii.eqb c sep then EmptyString :: split sep r
      else match split sep r with
           | h :: t => String c h :: t
           | [] => [String c EmptyString]
           end
  end.

(** Truth value of a [str]. *)
Definition truthy (s : string) : bool := negb (String.eqb s "").

(** Truth value of an optional [str] ([None] is false). *)
Definition truthy_opt (o : option string) : bool :=
  match o with
  | Some s => truthy s
  | None => false
  end.

Definition is_digit (c : ascii) : bool :=
  let n := nat_of_ascii c in ((48 <=? n) && (n <=? 57))%nat.

Definition digit_val (c : ascii) : Z := Z.of_nat (nat_of_ascii c) - 48.

(** Digits of a decimal literal, with single underscores allowed between
    digits; [acc] is the value read so far, [after_digit] tells whether the
    previous character was a digit. *)
Fixpoint int_digits (s : string) (acc : Z) (after_digit : bool) : option Z :=
  match s with
  | EmptyString => if after_digit then Some acc else None
  | String c r =>
      if is_digit c then int_digits r (10 * acc + digit_val c) true
      else if Ascii.eqb c "_"%char && after_digit then
        match r with
        | String d _ => if is_digit d then int_digits r acc false else None
        | EmptyString => None
        end
      else None
  end.

(** White space that [int] skips around a literal: the ASCII white space
    U+0009..U+000D and U+0020, and the Latin-1 spaces U+0085 and U+00A0.  The
    separators U+001C..U+001F, which [strip] removes, are not skipped. *)
Definition is_int_space (c : ascii) : bool :=
  let n := nat_of_ascii c in
  (((9 <=? n) && (n <=? 13)) || (n =? 32) || (n =? 133) || (n =? 160))%nat.

Fixpoint int_lstrip (s : string) : string :=
  match s with
  | EmptyString => EmptyString
  | String c r => if is_int_space c then int_lstrip r else s
  end.

Fixpoint int_rstrip (s : string) : string :=
  match s with
  | EmptyString => EmptyString
  | String c r =>
      match int_rstrip r with
      | EmptyString => if is_int_space c then EmptyString else String c EmptyString
      | r' => String c r'
      end
  end.

(** Number of digits in a string. *)
Fixpoint count_digits (s : string) : Z :=
  match s with
  | EmptyString => 0
  | String c r => (if is_digit c then 1 else 0) + count_digits r
  end.

(** The interpreter's default limit on the number of digits of a literal
    ([sys.get_int_max_str_digits()]). *)
Definition int_max_str_digits : Z := 4300.

(** [int(s)] in base ten; [None] stands for [ValueError]. *)
Definition int (s : string) : option Z :=
  let t := int_rstrip (int_lstrip s) in
  if int_max_str_digits <? count_digits t then None
  else
    match t with
    | String "+"%char r => int_digits r 0 false
    | String "-"%char r => option_map Z.opp (int_digits r 0 false)
    | _ => int_digits t 0 false
    end.

(** [len(s)] *)
Definition len (s : string) : Z := Z.of_nat (String.length s).

(** ['\x00' in s] *)
Fixpoint has_null (s : string) : bool :=
  match s with
  | EmptyString => false
  | String c r => Ascii.eqb c zero || has_null r
  end.

(** [s * n] *)
Fixpoint repeat_str (s : string) (n : nat) : string :=
  match n with
  | O => EmptyString
  | S m => s ++ repeat_str s m
  end.

(** [c in chars] *)
Fixpoint mem_char (c : ascii) (chars : string) : bool :=
  match chars with
  | EmptyString => false
  | String d r => Ascii.eqb c d || mem_char c r
  end.

Fixpoint lstrip_chars (chars : string) (s : string) : string :=
  match s with
  | EmptyString => EmptyString
  | String c r => if mem_char c chars then lstrip_chars chars r else s
  end.

Fixpoint rstrip_chars (chars : string) (s : string) : string :=
  match s with
  | EmptyString => EmptyString
  | String c r =>
      match rstrip_chars chars r with
      | EmptyString => if mem_char c chars then EmptyString else String c EmptyString
      | r' => String c r'
      end
  end.

(** [s.strip(chars)]: the characters of [chars] are removed at both ends. *)
Definition strip_chars (chars : string) (s : string) : string :=
  rstrip_chars chars (lstrip_chars chars s).

End Py.

(** ** Data model *)

Module Models.

(** Modelled from the spec: [webapp/models.py] is not among the sources.  An
    Article has a title, a text, an author and the times of its creation and
    of its last update. *)
Record Article : Type := mkArticle {
  article_pk : Z;
  title : string;
  text : string;
  author : string;
  created_at : Z;
  updated_at : Z
}.

(** Modelled from the spec: a Tag has a name, which is its lookup key. *)
Record Tag : Type := mkTag {
  tag_pk : Z;
  tag_name : string
}.

(** Modelled from the spec: a Comment belongs to one Article and has an
    author, a text and a creation time. *)
Record Comment : Type := mkComment {
  comment_pk : Z;
  comment_article : Z;
  comment_author : string;
  comment_text : string;
  comment_created_at : Z
}.

(** The tables of the persistent store.  Articles and Tags are associated
    many-to-many: [article_tags] holds the (article key, tag key) rows. *)
Record Store : Type := mkStore {
  articles : list Article;
  tags : list Tag;
  comments : list Comment;
  article_tags : list (Z * Z)
}.

Definition Article_eq_dec (a b : Article) : {a = b} + {a <> b}.
Proof. decide equality; (apply Z.eq_dec || apply string_dec). Defined.

End Models.

Import Models.

(** ** The object-relational layer

    The framework's query layer, as far as the views use it. *)

Module Orm.

(** Key given to a new row: one more than the largest key in the table. *)
Definition fresh_pk (pks : list Z) : Z := 1 + fold_right Z.max 0 pks.

(** Case folding of the store's case-insensitive operators: the letters A-Z. *)
Definition lower_char (c : ascii) : ascii :=
  let n := nat_of_ascii c in
  if ((65 <=? n) && (n <=? 90))%nat then ascii_of_nat (n + 32) else c.

Fixpoint lower (s : string) : string :=
  match s with
  | EmptyString => EmptyString
  | String c r => String (lower_char c) (lower r)
  end.

(** [needle] occurs in [hay]. *)
Fixpoint contains (hay needle : string) : bool :=
  String.prefix needle hay ||
  match hay with
  | EmptyString => false
  | String _ r => contains r needle
  end.

(** [field__icontains=v] *)
Definition icontains (field v : string) : bool := contains (lower field) (lower v).

(** [field__iexact=v] *)
Definition iexact (field v : string) : bool := String.eqb (lower field) (lower v).

(** The field lookups the views write. *)
Inductive Lookup : Type :=
| title__icontains
| text__icontains
| author__icontains
| author__iexact
| tags__name__iexact
| comments__text__icontains
| comments__author__iexact.

Inductive Connector : Type := AND | OR.

Definition Connector_eqb (c d : Connector) : bool :=
  match c, d with
  | AND, AND | OR, OR => true
  | _, _ => false
  end.

(** A [Q] object is a [Node]: a connector, a negation flag and children; a
    child is a condition [Cond] (a keyword argument) or another node. *)
#[warnings="-register-all"]
Inductive Q : Type :=
| Cond (l : Lookup) (v : string)
| Node (conn : Connector) (negated : bool) (children : list Q).

(** [Q()] *)
Definition Q_empty : Q := Node AND false [].

(** [Q(lookup=v)] *)
Definition Q_kw (l : Lookup) (v : string) : Q := Node AND false [Cond l v].

(** [bool(q)]: a node is true when it has children. *)
Definition Q_bool (q : Q) : bool :=
  match q with
  | Node _ _ [] => false
  | _ => true
  end.

(** [Node.add(data, conn_type)]: children of a node with the same connector,
    or of a one-child node, are spliced in; otherwise [data] becomes a child. *)
Definition Q_add (self data : Q) (conn_type : Connector) : Q :=
  match self with
  | Cond _ _ => self
  | Node c n ch =>
      if Connector_eqb c conn_type then
        match data with
        | Node dc false dch =>
            if Connector_eqb dc conn_type || (List.length dch =? 1)%nat
            then Node c n (ch ++ dch)
            else Node c n (ch ++ [data])
        | _ => Node c n (ch ++ [data])
        end
      else Node conn_type n [Node c n ch; data]
  end.

(** [Q._combine(other, conn)] *)
Definition Q_combine (self other : Q) (conn : Connector) : Q :=
  if negb (Q_bool other) then self
  else if negb (Q_bool self) then other
  else Q_add (Q_add (Node conn false []) self conn) other conn.

Definition Q_and (a b : Q) : Q := Q_combine a b AND.
Definition Q_or (a b : Q) : Q := Q_combine a b OR.

Declare Scope q_scope.
Delimit Scope q_scope with Q.
Infix "&" := Q_and (at level 40, left associativity) : q_scope.
Infix "|'" := Q_or (at level 50, left associativity) : q_scope.

(** One row of the join of an article with the tag and comment tables; [None]
    is the all-NULL row of an outer join. *)
Record Row : Type := mkRow {
  r_article : Article;
  r_tag : option Tag;
  r_comment : option Comment
}.

Definition on_tag (f : Tag -> bool) (r : Row) : bool :=
  match r_tag r with Some t => f t | None => false end.

Definition on_comment (f : Comment -> bool) (r : Row) : bool :=
  match r_comment r with Some c => f c | None => false end.

Definition lookup_holds (l : Lookup) (v : string) (r : Row) : bool :=
  match l with
  | title__icontains => icontains (title (r_article r)) v
  | text__icontains => icontains (text (r_article r)) v
  | author__icontains => icontains (author (r_article r)) v
  | author__iexact => iexact (author (r_article r)) v
  | tags__name__iexact => on_tag (fun t => iexact (tag_name t) v) r
  | comments__text__icontains => on_comment (fun c => icontains (comment_text c) v) r
  | comments__author__iexact => on_comment (fun c => iexact (comment_author c) v) r
  end.

(** The WHERE clause of a node on one row; a node without children
    constrains nothing. *)
Fixpoint eval (q : Q) (r : Row) : bool :=
  match q with
  | Cond l v => lookup_holds l v r
  | Node _ _ [] => true
  | Node AND n ch => xorb n (forallb (fun c => eval c r) ch)
  | Node OR n ch => xorb n (existsb (fun c => eval c r) ch)
  end.

Definition lookup_on_tags (l : Lookup) : bool :=
  match l with tags__name__iexact => true | _ => false end.

Definition lookup_on_comments (l : Lookup) : bool :=
  match l with
  | comments__text__icontains | comments__author__iexact => true
  | _ => false
  end.

(** Whether the node mentions a field across the tag, or the comment,
    relation: only then is that table joined. *)
Fixpoint refers (on : Lookup -> bool) (q : Q) : bool :=
  match q with
  | Cond l _ => on l
  | Node _ _ ch => existsb (refers on) ch
  end.

(** Tags of an article, one per row of the association table. *)
Definition tags_join (s : Store) (a : Article) : list Tag :=
  flat_map (fun at_ : Z * Z =>
              if fst at_ =? article_pk a
              then filter (fun t => tag_pk t =? snd at_) (tags s)
              else [])
           (article_tags s).

Definition comments_join (s : Store) (a : Article) : list Comment :=
  filter (fun c => comment_article c =? article_pk a) (comments s).

Definition null_pad {A : Type} (l : list A) : list (option A) :=
  match l with
  | [] => [None]
  | _ => map Some l
  end.

(** The tag side of the rows that [filter(q)] joins to article [a]. *)
Definition joined_tags (s : Store) (q : Q) (a : Article) : list (option Tag) :=
  if refers lookup_on_tags q then null_pad (tags_join s a) else [None].

(** The comment side of those rows. *)
Definition joined_comments (s : Store) (q : Q) (a : Article) : list (option Comment) :=
  if refers lookup_on_comments q then null_pad (comments_join s a) else [None].

(** Rows that one [filter(q)] call joins to article [a]. *)
Definition rows (s : Store) (q : Q) (a : Article) : list Row :=
  flat_map (fun t => map (fun c => mkRow a t c) (joined_comments s q a))
           (joined_tags s q a).

(** Number of joined rows of [a] that pass [q]. *)
Definition hits (s : Store) (q : Q) (a : Article) : nat :=
  List.length (filter (eval q) (rows s q a)).

Inductive Ordering : Type := created_at_desc.

(** A lazy query set over Article: the [filter] calls made so far, each with
    joins of its own, the ordering and the DISTINCT flag. *)
Record QuerySet : Type := mkQuerySet {
  qs_filters : list Q;
  qs_ordering : option Ordering;
  qs_distinct : bool
}.

(** [Article.objects.all()] *)
Definition all : QuerySet := mkQuerySet [] None false.

(** [qs.order_by('-created_at')] *)
Definition order_by (o : Ordering) (qs : QuerySet) : QuerySet :=
  mkQuerySet (qs_filters qs) (Some o) (qs_distinct qs).

(** [qs.filter(q)] *)
Definition filter_q (q : Q) (qs : QuerySet) : QuerySet :=
  mkQuerySet (qs_filters qs ++ [q]) (qs_ordering qs) (qs_distinct qs).

(** [qs.distinct()] *)
Definition distinct (qs : QuerySet) : QuerySet :=
  mkQuerySet (qs_filters qs) (qs_ordering qs) true.

Fixpoint insert_desc (a : Article) (l : list Article) : list Article :=
  match l with
  | [] => [a]
  | b :: r => if created_at b <? created_at a then a :: l else b :: insert_desc a r
  end.

(** Newest first.  The ordering leaves the order of articles of equal time
    open; this sort keeps them in table order. *)
Definition sort_desc (l : list Article) : list Article :=
  fold_right insert_desc [] l.

(** Rows selected for one article: the product of its hits over the
    [filter] calls. *)
Definition multiplicity (s : Store) (qs : list Q) (a : Article) : nat :=
  fold_right (fun q n => (hits s q a * n)%nat) 1%nat qs.

(** Evaluation of the query set. *)
Definition execute (s : Store) (qs : QuerySet) : list Article :=
  let ordered := match qs_ordering qs with
                 | Some created_at_desc => sort_desc (articles s)
                 | None => articles s
                 end in
  let selected := flat_map (fun a => repeat a (multiplicity s (qs_filters qs) a)) ordered in
  if qs_distinct qs then nodup Article_eq_dec selected else selected.

(** [Tag.objects.get(pk=v)] with [v] a request string. *)
Definition Tag_get_pk (s : Store) (v : string) : Result Tag :=
  match Py.int v with
  | None => Raise ValueError
  | Some k =>
      match filter (fun t => tag_pk t =? k) (tags s) with
      | [] => Raise DoesNotExist
      | [t] => Ok t
      | _ => Raise MultipleObjectsReturned
      end
  end.

(** [Tag.objects.get_or_create(name=n)]: the tag and the store after. *)
Definition Tag_get_or_create (s : Store) (n : string) : Result (Tag * Store) :=
  match filter (fun t => String.eqb (tag_name t) n) (tags s) with
  | [] =>
      let t := mkTag (fresh_pk (map tag_pk (tags s))) n in
      Ok (t, mkStore (articles s) (tags s ++ [t]) (comments s) (article_tags s))
  | [t] => Ok (t, s)
  | _ => Raise MultipleObjectsReturned
  end.

Definition linked (s : Store) (apk tpk : Z) : bool :=
  existsb (fun at_ : Z * Z => (fst at_ =? apk) && (snd at_ =? tpk)) (article_tags s).

(** [article.tags.add(tag)]: a row is inserted unless it is there already. *)
Definition tags_add (s : Store) (apk : Z) (t : Tag) : Store :=
  if linked s apk (tag_pk t) then s
  else mkStore (articles s) (tags s) (comments s) (article_tags s ++ [(apk, tag_pk t)]).

(** [article.tags.clear()] *)
Definition tags_clear (s : Store) (apk : Z) : Store :=
  mkStore (articles s) (tags s) (comments s)
          (filter (fun at_ : Z * Z => negb (fst at_ =? apk)) (article_tags s)).

(** [get_object_or_404(Article, pk=k)] *)
Definition get_article_or_404 (s : Store) (k : Z) : Result Article :=
  match filter (fun a => article_pk a =? k) (articles s) with
  | [] => Raise Http404
  | [a] => Ok a
  | _ => Raise MultipleObjectsReturned
  end.

(** Modelled from the spec: [str(tag)], the text form of the Tag model, is
    not among the sources; the list view filters "to articles having that
    exact tag", so a tag prints as its name. *)
Definition Tag_str (t : Tag) : string := tag_name t.

(** Names of the tags of the article with key [apk], in association order. *)
Definition tag_names (s : Store) (apk : Z) : list string :=
  flat_map (fun at_ : Z * Z =>
              if fst at_ =? apk
              then map tag_name (filter (fun t => tag_pk t =? snd at_) (tags s))
              else [])
           (article_tags s).

Fixpoint insert_comment_desc (c : Comment) (l : list Comment) : list Comment :=
  match l with
  | [] => [c]
  | b :: r =>
      if comment_created_at b <? comment_created_at c then c :: l
      else b :: insert_comment_desc c r
  end.

(** [article.comments.order_by('-created_at')]: the comments of the article,
    newest first. *)
Definition comments_newest_first (s : Store) (a : Article) : list Comment :=
  fold_right insert_comment_desc [] (comments_join s a).

End Orm.

(** ** The paginator of the framework *)

Module Paginator.

Record Page : Type := mkPage {
  object_list : list Article;
  number : Z;
  page_num_pages : Z
}.

(** [Paginator.num_pages] with [allow_empty_first_page=True]:
    [ceil(max(1, count - orphans) / per_page)]. *)
Definition num_pages (count per_page orphans : Z) : Z :=
  let hits := Z.max 1 (count - orphans) in
  (hits + per_page - 1) / per_page.

(** [l[bottom:top]] for [0 <= bottom]. *)
Definition slice {A : Type} (l : list A) (bottom top : Z) : list A :=
  firstn (Z.to_nat (top - bottom)) (skipn (Z.to_nat bottom) l).

(** [Paginator.page(number)] as the list views call it: an invalid page
    number is answered with [Http404]. *)
Definition page (l : list Article) (per_page orphans : Z) (n : Z) : Result Page :=
  let count := Z.of_nat (List.length l) in
  let pages := num_pages count per_page orphans in
  if n <? 1 then Raise Http404
  else if (pages <? n) && negb (n =? 1) then Raise Http404
  else
    let bottom := (n - 1) * per_page in
    let top := bottom + per_page in
    let top := if count <=? top + orphans then count else top in
    Ok (mkPage (slice l bottom top) n pages).

End Paginator.

(** The same paginator over any kind of object, with the lenient page lookup
    that the detail view uses. *)

Module Pages.

Record Page (A : Type) : Type := mkPage {
  object_list : list A;
  number : Z;
  page_num_pages : Z
}.
Arguments mkPage {A} _ _ _.
Arguments object_list {A} _.
Arguments number {A} _.
Arguments page_num_pages {A} _.

Inductive InvalidPage : Type := PageNotAnInteger | EmptyPage.

(** [Paginator.validate_number(number)] with [allow_empty_first_page=True];
    [None] is a page parameter that is not an integer. *)
Definition validate_number (pages : Z) (n : option Z) : InvalidPage + Z :=
  match n with
  | None => inl PageNotAnInteger
  | Some k =>
      if k <? 1 then inl EmptyPage
      else if (pages <? k) && negb (k =? 1) then inl EmptyPage
      else inr k
  end.

(** [Paginator.page(number)] for a valid number. *)
Definition page_at {A : Type} (l : list A) (per_page orphans : Z) (n : Z) : Page A :=
  let count := Z.of_nat (List.length l) in
  let bottom := (n - 1) * per_page in
  let top := bottom + per_page in
  let top := if count <=? top + orphans then count else top in
  mkPage (Paginator.slice l bottom top) n (Paginator.num_pages count per_page orphans).

(** [Paginator.get_page(number)]: a number that is not an integer gives the
    first page, a number out of range the last one. *)
Definition get_page {A : Type} (l : list A) (per_page orphans : Z) (n : option Z)
  : Page A :=
  let pages := Paginator.num_pages (Z.of_nat (List.length l)) per_page orphans in
  let number := match validate_number pages n with
                | inr k => k
                | inl PageNotAnInteger => 1
                | inl EmptyPage => pages
                end in
  page_at l per_page orphans number.

(** [page.has_other_pages()] *)
Definition has_other_pages {A : Type} (p : Page A) : bool :=
  (1 <? number p) || (number p <? page_num_pages p).

End Pages.

(** ** webapp/forms.py *)

Module Forms.

Inductive ErrorCode : Type :=
| text_search_criteria_empty
| author_search_criteria_empty
| author_text_search_criteria_empty.

(** An entry of [form.errors]: the error of a field, or a form-wide error
    raised by [clean] with its code. *)
Inductive FormError : Type :=
| FieldError (field : string)
| NonFieldError (code : ErrorCode).

(** [forms.CharField(max_length=m, required=False).clean(raw)]: the value is
    stripped; a value that is not empty must fit [max_length] and hold no null
    character.  [None] is a field error. *)
Definition CharField_clean (max_length : Z) (raw : option string) : option string :=
  let value := match raw with
               | Some v => Py.strip v
               | None => ""
               end in
  if Py.truthy value && ((max_length <? Py.len value) || Py.has_null value)
  then None
  else Some value.

(** [SimpleSearchForm]: the bound data. *)
Record SimpleSearchForm : Type := mkSimpleSearchForm {
  search : option string
}.

Definition SimpleSearchForm_cleaned_search (f : SimpleSearchForm) : option string :=
  CharField_clean 100 (search f).

Definition SimpleSearchForm_is_valid (f : SimpleSearchForm) : bool :=
  match SimpleSearchForm_cleaned_search f with
  | Some _ => true
  | None => false
  end.

(** [FullSearchForm.cleaned_data]: [text] and [author] are absent when their
    field failed to clean; a checkbox always cleans to a bool. *)
Record CleanedData : Type := mkCleanedData {
  cd_text : option string;
  in_title : bool;
  in_text : bool;
  in_tags : bool;
  in_comment_text : bool;
  cd_author : option string;
  article_author : bool;
  comment_author : bool
}.

Inductive CleanResult : Type :=
| Cleaned (data : CleanedData)
| ValidationError (code : ErrorCode).

(** [FullSearchForm.clean] *)
Definition clean (data : CleanedData) : CleanResult :=
  if Py.truthy_opt (cd_text data)
     && negb (in_title data || in_text data || in_tags data || in_comment_text data)
  then ValidationError text_search_criteria_empty
  else if Py.truthy_opt (cd_author data)
          && negb (article_author data || comment_author data)
  then ValidationError author_search_criteria_empty
  else if negb (Py.truthy_opt (cd_author data)) && negb (Py.truthy_opt (cd_text data))
  then ValidationError author_text_search_criteria_empty
  else Cleaned data.

(** [FullSearchForm]: the bound data, checkboxes as the bools they clean to. *)
Record FullSearchForm : Type := mkFullSearchForm {
  raw_text : option string;
  raw_in_title : bool;
  raw_in_text : bool;
  raw_in_tags : bool;
  raw_in_comment_text : bool;
  raw_author : option string;
  raw_article_author : bool;
  raw_comment_author : bool
}.

(** The field-cleaning pass of [full_clean]. *)
Definition clean_fields (f : FullSearchForm) : CleanedData :=
  mkCleanedData (CharField_clean 100 (raw_text f))
                (raw_in_title f) (raw_in_text f) (raw_in_tags f) (raw_in_comment_text f)
                (CharField_clean 100 (raw_author f))
                (raw_article_author f) (raw_comment_author f).

Definition field_errors (d : CleanedData) : list FormError :=
  ((match cd_text d with None => [FieldError "text"] | Some _ => [] end)
   ++ (match cd_author d with None => [FieldError "author"] | Some _ => [] end))%list.

(** [form.full_clean()]: fields first, then [clean], whose error is recorded
    as a form-wide error; the errors and the cleaned data. *)
Definition full_clean (f : FullSearchForm) : list FormError * CleanedData :=
  let d := clean_fields f in
  match clean d with
  | Cleaned d' => (field_errors d, d')
  | ValidationError code => ((field_errors d ++ [NonFieldError code])%list, d)
  end.

Definition is_valid (f : FullSearchForm) : bool :=
  match fst (full_clean f) with
  | [] => true
  | _ => false
  end.

(** The field [tags] of [ArticleForm]:
    [forms.CharField(max_length=30, required=False)]. *)
Definition ArticleForm_clean_tags (raw : option string) : option string :=
  CharField_clean 30 raw.

End Forms.

(** ** webapp/views/article_views.py *)

Module ArticleViews.

Import Orm.
Import Forms.

(** The request parameters the views read. *)
Record Request : Type := mkRequest {
  GET_search : option string;
  GET_tag : option string;
  GET_page : option string
}.

(** *** IndexView *)

Definition paginate_by : Z := 5.
Definition paginate_orphans : Z := 1.

Definition get_search_form (request : Request) : SimpleSearchForm :=
  mkSimpleSearchForm (GET_search request).

Definition get_search_query (form : SimpleSearchForm) : option string :=
  if SimpleSearchForm_is_valid form then SimpleSearchForm_cleaned_search form else None.

Definition get_tag_query (form : SimpleSearchForm) (request : Request) : option string :=
  if SimpleSearchForm_is_valid form then GET_tag request else None.

(** The filter of the free-text search. *)
Definition search_filter (v : string) : Q :=
  (Q_kw title__icontains v |' Q_kw author__icontains v |' Q_kw tags__name__iexact v)%Q.

(** The filter of the tag parameter, given the tag it names. *)
Definition tag_filter (t : Tag) : Q := Q_kw tags__name__iexact (Tag_str t).

(** [IndexView.get_queryset] *)
Definition get_queryset (s : Store) (search_query tag_query : option string)
  : Result QuerySet :=
  let queryset := order_by created_at_desc all in
  let queryset :=
    match search_query with
    | Some v => if Py.truthy v then filter_q (search_filter v) queryset else queryset
    | None => queryset
    end in
  match tag_query with
  | Some k =>
      if Py.truthy k then
        t <- Tag_get_pk s k ;;
        Ok (filter_q (tag_filter t) queryset)
      else Ok queryset
  | None => Ok queryset
  end.

(** The page asked for: [int(page)], or the last page for ['last']. *)
Definition page_number (request : Request) (pages : Z) : Result Z :=
  match GET_page request with
  | Some p =>
      if Py.truthy p then
        match Py.int p with
        | Some n => Ok n
        | None => if String.eqb p "last" then Ok pages else Raise Http404
        end
      else Ok 1
  | None => Ok 1
  end.

(** [IndexView.get]: the page of articles put in the context. *)
Definition IndexView_get (s : Store) (request : Request) : Result Paginator.Page :=
  let form := get_search_form request in
  let search_query := get_search_query form in
  let tag_query := get_tag_query form request in
  queryset <- get_queryset s search_query tag_query ;;
  let l := execute s queryset in
  let pages := Paginator.num_pages (Z.of_nat (List.length l)) paginate_by paginate_orphans in
  n <- page_number request pages ;;
  Paginator.page l paginate_by paginate_orphans n.

(** *** ArticleCreateView and ArticleUpdateView *)

(** The cleaned model fields of [ArticleForm]. *)
Record ArticleForm : Type := mkArticleForm {
  f_title : string;
  f_text : string;
  f_author : string
}.

(** [form.save()] of a form without instance: a new row. *)
Definition save_new (s : Store) (form : ArticleForm) (now : Z) : Article * Store :=
  let a := mkArticle (fresh_pk (map article_pk (articles s)))
                     (f_title form) (f_text form) (f_author form) now now in
  (a, mkStore (articles s ++ [a]) (tags s) (comments s) (article_tags s)).

(** [form.save()] of a form bound to [a]: the row is rewritten. *)
Definition save_instance (s : Store) (a : Article) (form : ArticleForm) (now : Z)
  : Article * Store :=
  let a' := mkArticle (article_pk a) (f_title form) (f_text form) (f_author form)
                      (created_at a) now in
  (a', mkStore (map (fun b => if article_pk b =? article_pk a then a' else b) (articles s))
               (tags s) (comments s) (article_tags s)).

(** The loop over the pieces of the tag string: get or create the tag of the
    stripped piece, then add it to the article. *)
Fixpoint add_tags (s : Store) (apk : Z) (pieces : list string) : Result Store :=
  match pieces with
  | [] => Ok s
  | tag :: rest =>
      ts <- Tag_get_or_create s (Py.strip tag) ;;
      add_tags (tags_add (snd ts) apk (fst ts)) apk rest
  end.

(** [request.POST.get('tags').split(',')]; a missing parameter is [None],
    which has no [split]. *)
Definition split_tags (post_tags : option string) : Result (list string) :=
  match post_tags with
  | Some tags => Ok (Py.split "," tags)
  | None => Raise AttributeError
  end.

(** [ArticleCreateView.form_valid]: the store after, and the key the
    redirect names. *)
Definition create_form_valid (s : Store) (form : ArticleForm) (post_tags : option string)
  (now : Z) : Result (Store * Z) :=
  let (object, s1) := save_new s form now in
  pieces <- split_tags post_tags ;;
  s2 <- add_tags s1 (article_pk object) pieces ;;
  Ok (s2, article_pk object).

(** [ArticleUpdateView.form_valid] for the article with key [pk]. *)
Definition update_form_valid (s : Store) (pk : Z) (form : ArticleForm)
  (post_tags : option string) (now : Z) : Result (Store * Z) :=
  article <- get_article_or_404 s pk ;;
  let s1 := tags_clear s (article_pk article) in
  let (object, s2) := save_instance s1 article form now in
  pieces <- split_tags post_tags ;;
  s3 <- add_tags s2 (article_pk object) pieces ;;
  Ok (s3, article_pk object).

(** *** ArticleUpdateView.get *)

(** The loop [str_tag += tag['name'] + ', '] over the names. *)
Definition concat_names (names : list string) : string :=
  fold_left (fun str_tag name => (str_tag ++ (name ++ ", "))%string) names "".

(** [ArticleUpdateView.get]: the article, and the initial value of the tags
    field of its form.  [tags] stands for the rows that
    [article.tags.all().values('name')] returns: the names of the article's
    tags, in whatever order the store gives them (the query has no ordering). *)
Definition update_get (s : Store) (pk : Z) (tags : list string)
  : Result (Article * string) :=
  article <- get_article_or_404 s pk ;;
  let str_tag := concat_names tags in
  Ok (article, Py.strip_chars ", " str_tag).

(** *** ArticleView *)

(** What [get_context_data] puts in the context. *)
Record ArticleContext : Type := mkArticleContext {
  ctx_article : Article;
  ctx_page_obj : Pages.Page Comment;
  ctx_comments : list Comment;
  ctx_is_paginated : bool
}.

(** [request.GET.get('page', 1)] as the paginator reads it: the default is
    the integer 1, a string goes through [int]. *)
Definition comment_page_number (raw_page : option string) : option Z :=
  match raw_page with
  | None => Some 1
  | Some p => Py.int p
  end.

(** [ArticleView.paginate_comments_to_context] *)
Definition paginate_comments_to_context (comments : list Comment)
  (raw_page : option string) : Pages.Page Comment * list Comment * bool :=
  let page := Pages.get_page comments 3 0 (comment_page_number raw_page) in
  (page, Pages.object_list page, Pages.has_other_pages page).

(** [ArticleView.get_context_data] for the article with key [pk]; a missing
    article is [Http404]. *)
Definition article_context (s : Store) (pk : Z) (raw_page : option string)
  : Result ArticleContext :=
  article <- get_article_or_404 s pk ;;
  let comments := comments_newest_first s article in
  let '(page, object_list, is_paginated) :=
    paginate_comments_to_context comments raw_page in
  Ok (mkArticleContext article page object_list is_paginated).

(** *** ArticleSearchView *)

Definition get_text_query (data : CleanedData) (text : string) : Q :=
  let query := Q_empty in
  let query := if in_title data then (query |' Q_kw title__icontains text)%Q else query in
  let query := if in_text data then (query |' Q_kw text__icontains text)%Q else query in
  let query := if in_tags data then (query |' Q_kw tags__name__iexact text)%Q else query in
  let query := if in_comment_text data
               then (query |' Q_kw comments__text__icontains text)%Q else query in
  query.

Definition get_author_query (data : CleanedData) (author_name : string) : Q :=
  let query := Q_empty in
  let query := if article_author data
               then (query |' Q_kw author__iexact author_name)%Q else query in
  let query := if comment_author data
               then (query |' Q_kw comments__author__iexact author_name)%Q else query in
  query.

(** The query that [form_valid] builds from the cleaned data. *)
Definition search_query (data : CleanedData) : Q :=
  let query := Q_empty in
  let query := match cd_text data with
               | Some text =>
                   if Py.truthy text then (query & get_text_query data text)%Q else query
               | None => query
               end in
  let query := match cd_author data with
               | Some author =>
                   if Py.truthy author then (query & get_author_query data author)%Q
                   else query
               | None => query
               end in
  query.

(** [ArticleSearchView.form_valid]: the articles put in the context. *)
Definition search_form_valid (s : Store) (data : CleanedData) : list Article :=
  execute s (distinct (filter_q (search_query data) all)).

Inductive Response : Type :=
| SearchResults (articles : list Article)
| FormInvalid (errors : list FormError).

(** [ArticleSearchView.post]: a valid form goes to [form_valid], an invalid
    one is rendered again with its errors. *)
Definition post (s : Store) (form : FullSearchForm) : Response :=
  if is_valid form
  then SearchResults (search_form_valid s (snd (full_clean form)))
  else FormInvalid (fst (full_clean form)).

End ArticleViews.

(** ** Predicates and reference functions of the statements *)

Import Orm Forms ArticleViews.

(** The text-scope rule is broken: a text and none of its four scopes. *)
Definition text_scope_missing (d : CleanedData) : bool :=
  Py.truthy_opt (cd_text d)
  && negb (in_title d) && negb (in_text d) && negb (in_tags d) && negb (in_comment_text d).

(** The author-scope rule is broken: an author and none of its two scopes. *)
Definition author_scope_missing (d : CleanedData) : bool :=
  Py.truthy_opt (cd_author d) && negb (article_author d) && negb (comment_author d).

(** Integrity of the tag tables: tag keys and tag names are unique, and a row
    of the association table names an existing article and an existing tag. *)
Record wf_store (s : Store) : Prop := mk_wf_store {
  wf_tag_pks : NoDup (map tag_pk (tags s));
  wf_tag_names : NoDup (map tag_name (tags s));
  wf_fk : forall a t, In (a, t) (article_tags s) ->
                      In a (map article_pk (articles s)) /\ In t (map tag_pk (tags s))
}.

(** A list of names with [n] added at the end unless it is there. *)
Definition add_name (acc : list string) (n : string) : list string :=
  if existsb (String.eqb n) acc then acc else (acc ++ [n])%list.

(** The names a tag string stands for: its stripped pieces, first
    occurrences only, in order. *)
Definition parsed_tag_names (tags : string) : list string :=
  fold_left add_name (map Py.strip (Py.split "," tags)) [].

(** Newest first. *)
Definition newest_first (l : list Article) : Prop :=
  StronglySorted (fun a b => created_at b <= created_at a) l.

(** Some joined row of article [a] passes [q]. *)
Definition matches (s : Store) (q : Q) (a : Article) : Prop :=
  exists r, In r (rows s q a) /\ eval q r = true.

(** A node without negation and with a child: what [Q(lookup=v)] and the
    combinations of such nodes are. *)
Definition plain (q : Q) : Prop :=
  exists c x ch, q = Node c false (x :: ch).

(** Meaning of the children of a node under its connector. *)
Definition sem (c : Connector) (ch : list Q) (r : Row) : bool :=
  match c with
  | AND => forallb (fun q => eval q r) ch
  | OR => existsb (fun q => eval q r) ch
  end.

(** One step of the query builders: [query | Q(lookup=v)] when the scope is
    selected. *)
Definition step (sel : bool) (l : Lookup) (v : string) (query : Q) : Q :=
  if sel then Q_or query (Q_kw l v) else query.

(** What a query under construction is: plain and meaning [m] once a scope
    was selected ([any]), the empty [Q()] before. *)
Definition empty_or_plain (q : Q) (any : bool) (m : Row -> bool) : Prop :=
  if any then plain q /\ forall r, eval q r = m r
  else q = Q_empty /\ forall r, m r = false.

(** The text predicate on one joined row. *)
Definition text_predicate (d : CleanedData) (t : string) (r : Row) : bool :=
  (in_title d && icontains (title (r_article r)) t)
  || (in_text d && icontains (text (r_article r)) t)
  || (in_tags d && on_tag (fun g => iexact (tag_name g) t) r)
  || (in_comment_text d && on_comment (fun c => icontains (comment_text c) t) r).

(** The author predicate on one joined row. *)
Definition author_predicate (d : CleanedData) (a : string) (r : Row) : bool :=
  (article_author d && iexact (author (r_article r)) a)
  || (comment_author d && on_comment (fun c => iexact (Models.comment_author c) a) r).

(** The text predicate on an article: one of the selected scopes matches. *)
Definition text_matches (s : Store) (d : CleanedData) (t : string) (a : Article) : Prop :=
  (in_title d = true /\ icontains (title a) t = true)
  \/ (in_text d = true /\ icontains (text a) t = true)
  \/ (in_tags d = true
      /\ exists g, In g (tags_join s a) /\ iexact (tag_name g) t = true)
  \/ (in_comment_text d = true
      /\ exists c, In c (comments_join s a) /\ icontains (comment_text c) t = true).

(** The search filter of the list view, when there is a search string. *)
Definition search_part (sq : option string) : list Q :=
  match sq with
  | Some v => if Py.truthy v then [search_filter v] else []
  | None => []
  end.

(** The tag filter of the list view, when there is a tag parameter; the
    lookup of the tag can raise. *)
Definition tag_part (s : Store) (tq : option string) : Result (list Q) :=
  match tq with
  | Some k => if Py.truthy k then t <- Tag_get_pk s k ;; Ok [tag_filter t] else Ok []
  | None => Ok []
  end.

(** The author predicate on an article: one of the selected scopes matches. *)
Definition author_matches (s : Store) (d : CleanedData) (a : string) (x : Article) : Prop :=
  (article_author d = true /\ iexact (author x) a = true)
  \/ (comment_author d = true
      /\ exists c, In c (comments_join s x) /\ iexact (Models.comment_author c) a = true).

(** The free-text search of the list view on an article. *)
Definition search_matches (s : Store) (v : string) (x : Article) : Prop :=
  icontains (title x) v = true
  \/ icontains (author x) v = true
  \/ exists g, In g (tags_join s x) /\ iexact (tag_name g) v = true.

(** What [article.tags.all()] can return for the article with key [apk]:
    its tag names, one per association, in any order. *)
Definition tags_all_names (s : Store) (apk : Z) (names : list string) : Prop :=
  Permutation names (tag_names s apk).

(** A tag name that the tag string of the edit form carries unharmed: not
    empty, without comma, without white space at its ends. *)
Definition plain_name (n : string) : Prop :=
  n <> "" /\ Py.mem_char "," n = false /\ Py.strip n = n.

(** The names separated by a comma and a space. *)
Fixpoint join_names (names : list string) : string :=
  match names with
  | [] => ""
  | [n] => n
  | n :: rest => (n ++ ", " ++ join_names rest)%string
  end.

(** Newest first, for comments. *)
Definition comments_sorted (l : list Comment) : Prop :=
  StronglySorted (fun a b => comment_created_at b <= comment_created_at a) l.

(** The object lists of the pages [1..pages] of a listing. *)
Definition all_pages {A : Type} (l : list A) (per_page orphans : Z) : list (list A) :=
  let pages := Paginator.num_pages (Z.of_nat (List.length l)) per_page orphans in
  map (fun n => Pages.object_list (Pages.page_at l per_page orphans (Z.of_nat n)))
      (seq 1 (Z.to_nat pages)).

(** Each name followed by a comma and a space: what the loop of the edit
    view builds. *)
Fixpoint names_with_commas (names : list string) : string :=
  match names with
  | [] => ""
  | n :: rest => (n ++ ", " ++ names_with_commas rest)%string
  end.

(** The text predicate and the author predicate hold together on one joined
    row of the article: the article with one of its tags, or none, and one of
    its comments, or none. *)
Definition joint_matches (s : Store) (d : CleanedData) (t a : string) (x : Article)
  : Prop :=
  exists (ot : option Tag) (oc : option Comment),
    (forall g, ot = Some g -> In g (tags_join s x))
    /\ (forall c, oc = Some c -> In c (comments_join s x))
    /\ text_predicate d t (mkRow x ot oc) = true
    /\ author_predicate d a (mkRow x ot oc) = true.

(** ** Concrete inputs *)

Definition c3_form : FullSearchForm :=
  mkFullSearchForm (Some "foo") false false false false (Some "bob") true false.

Definition c4_both : CleanedData :=
  mkCleanedData (Some "foo") false false false false (Some "bob") false false.

Definition c4_author_only : CleanedData :=
  mkCleanedData (Some "foo") true false false false (Some "bob") false false.

Definition c5_empty : CleanedData :=
  mkCleanedData (Some "") true true true false None true false.

Definition art (pk : Z) (ttl body who : string) (at_ : Z) : Article :=
  mkArticle pk ttl body who at_ at_.

(** Six articles and no tag. *)
Definition store6 : Store :=
  mkStore [art 1 "one" "" "ann" 10; art 2 "two" "" "bob" 30; art 3 "three" "" "ann" 20;
           art 4 "four" "" "cy" 60; art 5 "five" "" "bob" 50; art 6 "six" "" "ann" 40]
          [] [] [].

Definition no_query : Request := mkRequest None None None.

(** An article matching the search for "x" but without the tag "news", and
    an article with that tag that the search does not match. *)
Definition store_xn : Store :=
  mkStore [art 1 "x-ray" "" "ann" 10; art 2 "other" "" "bob" 20]
          [mkTag 1 "news"] [] [(2, 1)].

(** A search of 101 characters, which the search form rejects, and a tag key. *)
Definition req_long_search : Request :=
  mkRequest (Some (Py.repeat_str "x" 101)) (Some "7") None.

(** A tag parameter that is present and empty. *)
Definition req_empty_tag : Request := mkRequest None (Some "") None.

Definition req_tag7 : Request := mkRequest None (Some "7") None.

(** A request with both a search string and a tag key. *)
Definition req_both : Request := mkRequest (Some "x") (Some "1") None.

Definition store0 : Store := mkStore [] [] [] [].

Definition form0 : ArticleForm := mkArticleForm "title" "text" "ann".

(** One article, tagged "x" and "y". *)
Definition store_xy : Store :=
  mkStore [art 1 "title" "text" "ann" 10] [mkTag 1 "x"; mkTag 2 "y"] []
          [(1, 1); (1, 2)].

(** Article 1 has "foo" in its title only (in capitals); article 2 has it
    in its body, as a tag and in a comment, not in its title; article 3 has
    three comments, two of them with "foo". *)
Definition store_foo : Store :=
  mkStore [art 1 "SeaFOOd" "fish" "ann" 10; art 2 "bar" "a foo b" "bob" 20;
           art 3 "zzz" "yyy" "cy" 30]
          [mkTag 1 "foo"]
          [mkComment 1 2 "dan" "foo!" 21; mkComment 2 3 "al" "foo one" 31;
           mkComment 3 3 "bob" "foo two" 32; mkComment 4 3 "cy" "bar" 33]
          [(2, 1)].

Definition d_title_foo : CleanedData :=
  mkCleanedData (Some "foo") true false false false None true false.

Definition d_comment_foo : CleanedData :=
  mkCleanedData (Some "foo") false false false true None true false.

Definition d_foo_ann : CleanedData :=
  mkCleanedData (Some "foo") true true false false (Some "ANN") true false.

Definition d_bar_bob : CleanedData :=
  mkCleanedData (Some "bar") false false false true (Some "bob") false true.

(** An article with two tags whose title contains "x". *)
Definition store_two_tags : Store :=
  mkStore [art 1 "x-ray" "" "ann" 10; art 2 "other" "" "bob" 20]
          [mkTag 1 "a"; mkTag 2 "b"] [] [(1, 1); (1, 2)].

(** An article with four comments. *)
Definition store_four_comments : Store :=
  mkStore [art 1 "title" "text" "ann" 10] []
          [mkComment 1 1 "al" "first" 11; mkComment 2 1 "bob" "second" 12;
           mkComment 3 1 "cy" "third" 13; mkComment 4 1 "dan" "fourth" 14]
          [].

(** Seven articles and no tag. *)
Definition store7 : Store :=
  mkStore (articles store6 ++ [art 7 "seven" "" "cy" 5]) [] [] [].

Definition req_page2 : Request := mkRequest None None (Some "2").

(** * Properties *)

(** ** Python built-ins on examples *)

Example split_ex : Py.split "," "a, b ,, b" = ["a"; " b "; ""; " b"].
Proof. reflexivity. Qed.

Example strip_ex : map Py.strip (Py.split "," "a, b ,, b") = ["a"; "b"; ""; "b"].
Proof. reflexivity. Qed.

Example int_ex :
  (Py.int " 12_3 ", Py.int "-7", Py.int "abc", Py.int "", Py.int "1__2")
  = (Some 123, Some (-7), None, None, None).
Proof. reflexivity. Qed.

Example parsed_ex : parsed_tag_names "a, b ,, b" = ["a"; "b"; ""].
Proof. reflexivity. Qed.

Lemma truthy_true (s : string) : Py.truthy s = true <-> s <> "".
Proof.
  unfold Py.truthy. rewrite negb_true_iff. split.
  - intros H E. subst s. discriminate.
  - intros H. apply String.eqb_neq. exact H.
Qed.

Lemma truthy_false (s : string) : Py.truthy s = false <-> s = "".
Proof.
  unfold Py.truthy. rewrite negb_false_iff. apply String.eqb_eq.
Qed.

(** ** The advanced search form *)

Lemma clean_cases (d : CleanedData) :
  clean d =
    if text_scope_missing d then ValidationError text_search_criteria_empty
    else if author_scope_missing d then ValidationError author_search_criteria_empty
    else if negb (Py.truthy_opt (cd_author d)) && negb (Py.truthy_opt (cd_text d))
         then ValidationError author_text_search_criteria_empty
         else Cleaned d.
Proof.
  unfold clean, text_scope_missing, author_scope_missing.
  destruct (Py.truthy_opt (cd_text d)), (Py.truthy_opt (cd_author d)),
    (in_title d), (in_text d), (in_tags d), (in_comment_text d),
    (article_author d), (comment_author d); reflexivity.
Qed.

Lemma clean_returns_input (d d' : CleanedData) : clean d = Cleaned d' -> d' = d.
Proof.
  rewrite clean_cases.
  destruct (text_scope_missing d); [discriminate|].
  destruct (author_scope_missing d); [discriminate|].
  destruct (negb _ && negb _); [discriminate|].
  intros H. injection H as H. symmetry. exact H.
Qed.

Lemma post_invalid_of_clean (s : Store) (f : FullSearchForm) (code : ErrorCode) :
  clean (clean_fields f) = ValidationError code ->
  fst (full_clean f) = (field_errors (clean_fields f) ++ [NonFieldError code])%list
  /\ post s f = FormInvalid (field_errors (clean_fields f) ++ [NonFieldError code])%list.
Proof.
  intros H. unfold post, is_valid, full_clean. rewrite H. cbn [fst snd].
  split; [reflexivity|].
  destruct (field_errors (clean_fields f)); reflexivity.
Qed.

(** C3: a non-empty [text] with all four text scopes off makes [clean] raise
    the error coded [text_search_criteria_empty]; the form is then invalid and
    the view answers with the form's errors instead of running the search. *)
Theorem C3_text_scope_error (d : CleanedData) (t : string) :
  cd_text d = Some t -> t <> "" ->
  in_title d = false -> in_text d = false ->
  in_tags d = false -> in_comment_text d = false ->
  clean d = ValidationError text_search_criteria_empty
  /\ forall (s : Store) (f : FullSearchForm),
       clean_fields f = d ->
       is_valid f = false
       /\ post s f = FormInvalid (field_errors d
                                   ++ [NonFieldError text_search_criteria_empty])%list.
Proof.
  intros Ht Hne H1 H2 H3 H4.
  assert (Hc : clean d = ValidationError text_search_criteria_empty).
  { rewrite clean_cases. unfold text_scope_missing.
    rewrite Ht, H1, H2, H3, H4. cbn.
    apply truthy_true in Hne. rewrite Hne. reflexivity. }
  split; [exact Hc|].
  intros s f Hf. subst d.
  destruct (post_invalid_of_clean s f _ Hc) as [He Hp].
  split; [|exact Hp].
  unfold is_valid. rewrite He.
  destruct (field_errors (clean_fields f)); reflexivity.
Qed.

Lemma C3_witness :
  clean (clean_fields c3_form) = ValidationError text_search_criteria_empty
  /\ forall (s : Store) (f : FullSearchForm),
       clean_fields f = clean_fields c3_form ->
       is_valid f = false
       /\ post s f = FormInvalid (field_errors (clean_fields c3_form)
                                   ++ [NonFieldError text_search_criteria_empty])%list.
Proof.
  apply (C3_text_scope_error (clean_fields c3_form) "foo");
    [reflexivity | discriminate | reflexivity | reflexivity | reflexivity | reflexivity].
Defined.

(** C4: a non-empty [author] with both author scopes off makes [clean] raise;
    the rules are checked in order and the first broken one raises, so with
    the text-scope rule broken too the only error recorded is
    [text_search_criteria_empty], and otherwise it is
    [author_search_criteria_empty]. *)
Theorem C4_author_scope_error (d : CleanedData) (a : string) :
  cd_author d = Some a -> a <> "" ->
  article_author d = false -> comment_author d = false ->
  (exists code, clean d = ValidationError code)
  /\ (text_scope_missing d = true ->
      clean d = ValidationError text_search_criteria_empty
      /\ forall f, clean_fields f = d ->
           fst (full_clean f)
           = (field_errors d ++ [NonFieldError text_search_criteria_empty])%list)
  /\ (text_scope_missing d = false ->
      clean d = ValidationError author_search_criteria_empty).
Proof.
  intros Ha Hne H1 H2.
  assert (Hm : author_scope_missing d = true).
  { unfold author_scope_missing. rewrite Ha, H1, H2. cbn.
    apply truthy_true in Hne. rewrite Hne. reflexivity. }
  rewrite clean_cases, Hm.
  split; [|split].
  - destruct (text_scope_missing d); eexists; reflexivity.
  - intros Ht. rewrite Ht. split; [reflexivity|].
    intros f Hf. subst d.
    apply (post_invalid_of_clean (mkStore [] [] [] []) f).
    rewrite clean_cases, Ht. reflexivity.
  - intros Ht. rewrite Ht. reflexivity.
Qed.

Lemma C4_witness :
  clean c4_both = ValidationError text_search_criteria_empty
  /\ clean c4_author_only = ValidationError author_search_criteria_empty.
Proof.
  split.
  - apply (C4_author_scope_error c4_both "bob");
      [reflexivity | discriminate | reflexivity | reflexivity | reflexivity].
  - apply (C4_author_scope_error c4_author_only "bob");
      [reflexivity | discriminate | reflexivity | reflexivity | reflexivity].
Defined.

(** C5: with [text] and [author] both empty (or absent) [clean] raises the
    error coded [author_text_search_criteria_empty]; so [clean] returns only
    when one of the two is non-empty. *)
Theorem C5_both_empty_error (d : CleanedData) :
  (Py.truthy_opt (cd_text d) = false -> Py.truthy_opt (cd_author d) = false ->
   clean d = ValidationError author_text_search_criteria_empty)
  /\ (forall d', clean d = Cleaned d' ->
        Py.truthy_opt (cd_text d) = true \/ Py.truthy_opt (cd_author d) = true).
Proof.
  split.
  - intros Ht Ha. rewrite clean_cases.
    unfold text_scope_missing, author_scope_missing. rewrite Ht, Ha. reflexivity.
  - intros d'. rewrite clean_cases.
    destruct (text_scope_missing d); [discriminate|].
    destruct (author_scope_missing d); [discriminate|].
    destruct (Py.truthy_opt (cd_text d)); [left; reflexivity|].
    destruct (Py.truthy_opt (cd_author d)); [right; reflexivity|].
    discriminate.
Qed.

Lemma C5_witness :
  clean c5_empty = ValidationError author_text_search_criteria_empty.
Proof.
  apply (proj1 (C5_both_empty_error c5_empty)); reflexivity.
Defined.

(** ** Composition of [Q] objects *)

Lemma eval_plain (c : Connector) (x : Q) (ch : list Q) (r : Row) :
  eval (Node c false (x :: ch)) r = sem c (x :: ch) r.
Proof. destruct c; reflexivity. Qed.

Lemma sem_app (c : Connector) (l1 l2 : list Q) (r : Row) :
  sem c (l1 ++ l2) r = match c with
                       | AND => sem c l1 r && sem c l2 r
                       | OR => sem c l1 r || sem c l2 r
                       end.
Proof.
  destruct c; cbn [sem].
  - apply forallb_app.
  - apply existsb_app.
Qed.

Lemma sem_single (c : Connector) (q : Q) (r : Row) : sem c [q] r = eval q r.
Proof.
  destruct c; cbn [sem forallb existsb].
  - apply andb_true_r.
  - apply orb_false_r.
Qed.

(** What [Node.add] appends for a plain node: children that mean the same. *)
Lemma Q_add_plain (conn : Connector) (ch : list Q) (data : Q) :
  plain data ->
  exists l x l', Q_add (Node conn false ch) data conn = Node conn false (ch ++ l)
                 /\ l = x :: l'
                 /\ forall r, sem conn l r = eval data r.
Proof.
  intros (dc & x & dch & ->).
  unfold Q_add.
  replace (Connector_eqb conn conn) with true by (destruct conn; reflexivity).
  destruct (Connector_eqb dc conn || (List.length (x :: dch) =? 1)%nat) eqn:E.
  - exists (x :: dch), x, dch. split; [reflexivity|]. split; [reflexivity|].
    intros r. rewrite eval_plain.
    apply orb_true_iff in E. destruct E as [E | E].
    + destruct dc, conn; try discriminate; reflexivity.
    + destruct dch; [|discriminate].
      rewrite !sem_single. reflexivity.
  - exists [Node dc false (x :: dch)], (Node dc false (x :: dch)), [].
    split; [reflexivity|]. split; [reflexivity|].
    intros r. apply sem_single.
Qed.

Lemma Q_combine_plain (a b : Q) (conn : Connector) :
  plain a -> plain b ->
  plain (Q_combine a b conn)
  /\ forall r, eval (Q_combine a b conn) r
               = match conn with
                 | AND => eval a r && eval b r
                 | OR => eval a r || eval b r
                 end.
Proof.
  intros Ha Hb. unfold Q_combine.
  assert (Ba : Q_bool a = true) by (destruct Ha as (c & x & ch & ->); reflexivity).
  assert (Bb : Q_bool b = true) by (destruct Hb as (c & x & ch & ->); reflexivity).
  rewrite Ba, Bb. cbn [negb].
  destruct (Q_add_plain conn [] a Ha) as (la & xa & la' & Ea & Sa & Ma).
  rewrite Ea. cbn [app].
  destruct (Q_add_plain conn la b Hb) as (lb & xb & lb' & Eb & Sb & Mb).
  rewrite Eb. subst la lb. split.
  - exists conn, xa, (la' ++ xb :: lb')%list. reflexivity.
  - intros r. cbn [app]. rewrite eval_plain.
    change (xa :: (la' ++ xb :: lb'))%list with ((xa :: la') ++ (xb :: lb'))%list.
    rewrite sem_app, Ma, Mb. destruct conn; reflexivity.
Qed.

Lemma Q_combine_empty_l (b : Q) (conn : Connector) :
  plain b -> Q_combine Q_empty b conn = b.
Proof.
  intros (c & x & ch & ->). reflexivity.
Qed.

Lemma Q_kw_plain (l : Lookup) (v : string) : plain (Q_kw l v).
Proof. exists AND, (Cond l v), []. reflexivity. Qed.

Lemma eval_Q_kw (l : Lookup) (v : string) (r : Row) :
  eval (Q_kw l v) r = lookup_holds l v r.
Proof. cbn. apply andb_true_r. Qed.

Lemma step_spec (sel : bool) (l : Lookup) (v : string) (q : Q)
  (any : bool) (m : Row -> bool) :
  empty_or_plain q any m ->
  empty_or_plain (step sel l v q) (any || sel)
                 (fun r => m r || (sel && lookup_holds l v r)).
Proof.
  unfold empty_or_plain, step. intros H.
  destruct any, sel; cbn [orb andb].
  - destruct H as [Hp He].
    destruct (Q_combine_plain q (Q_kw l v) OR Hp (Q_kw_plain l v)) as [Hp' He'].
    split; [exact Hp'|]. intros r. unfold Q_or.
    rewrite He', He, eval_Q_kw. reflexivity.
  - destruct H as [Hp He]. split; [exact Hp|].
    intros r. rewrite He, orb_false_r. reflexivity.
  - destruct H as [-> Hm]. unfold Q_or.
    rewrite Q_combine_empty_l by apply Q_kw_plain.
    split; [apply Q_kw_plain|]. intros r. rewrite Hm. apply eval_Q_kw.
  - destruct H as [Hq Hm]. split; [exact Hq|].
    intros r. rewrite Hm. reflexivity.
Qed.

Lemma get_text_query_steps (d : CleanedData) (t : string) :
  get_text_query d t
  = step (in_comment_text d) comments__text__icontains t
      (step (in_tags d) tags__name__iexact t
         (step (in_text d) text__icontains t
            (step (in_title d) title__icontains t Q_empty))).
Proof. reflexivity. Qed.

Lemma get_author_query_steps (d : CleanedData) (a : string) :
  get_author_query d a
  = step (comment_author d) comments__author__iexact a
      (step (article_author d) author__iexact a Q_empty).
Proof. reflexivity. Qed.

Lemma text_query_spec (d : CleanedData) (t : string) :
  empty_or_plain (get_text_query d t)
                 (in_title d || in_text d || in_tags d || in_comment_text d)
                 (text_predicate d t).
Proof.
  rewrite get_text_query_steps.
  pose proof (step_spec (in_title d) title__icontains t Q_empty false
                        (fun _ => false) (conj eq_refl (fun _ => eq_refl))) as H1.
  pose proof (step_spec (in_text d) text__icontains t _ _ _ H1) as H2.
  pose proof (step_spec (in_tags d) tags__name__iexact t _ _ _ H2) as H3.
  pose proof (step_spec (in_comment_text d) comments__text__icontains t _ _ _ H3) as H4.
  cbn [orb] in H4. unfold empty_or_plain in *.
  destruct (in_title d || in_text d || in_tags d || in_comment_text d).
  - destruct H4 as [Hp He]. split; [exact Hp|].
    intros r. rewrite He. reflexivity.
  - destruct H4 as [Hq Hm]. split; [exact Hq|].
    intros r. rewrite <- (Hm r). reflexivity.
Qed.

Lemma author_query_spec (d : CleanedData) (a : string) :
  empty_or_plain (get_author_query d a)
                 (article_author d || comment_author d)
                 (author_predicate d a).
Proof.
  rewrite get_author_query_steps.
  pose proof (step_spec (article_author d) author__iexact a Q_empty false
                        (fun _ => false) (conj eq_refl (fun _ => eq_refl))) as H1.
  pose proof (step_spec (comment_author d) comments__author__iexact a _ _ _ H1) as H2.
  cbn [orb] in H2. unfold empty_or_plain in *.
  destruct (article_author d || comment_author d).
  - destruct H2 as [Hp He]. split; [exact Hp|].
    intros r. rewrite He. reflexivity.
  - destruct H2 as [Hq Hm]. split; [exact Hq|].
    intros r. rewrite <- (Hm r). reflexivity.
Qed.

(** ** Joined rows *)

Lemma in_null_pad_some {A : Type} (x : A) (l : list A) :
  In (Some x) (null_pad l) <-> In x l.
Proof.
  destruct l as [|y l]; cbn [null_pad].
  - split; [intros [H|[]]; discriminate | intros []].
  - rewrite in_map_iff. split.
    + intros (z & E & H). injection E as ->. exact H.
    + intros H. exists x. split; [reflexivity | exact H].
Qed.

Lemma null_pad_inhabited {A : Type} (l : list A) : exists o, In o (null_pad l).
Proof.
  destruct l as [|y l].
  - exists None. left. reflexivity.
  - exists (Some y). left. reflexivity.
Qed.

Lemma joined_tags_inhabited (s : Store) (q : Q) (a : Article) :
  exists o, In o (joined_tags s q a).
Proof.
  unfold joined_tags. destruct (refers lookup_on_tags q).
  - apply null_pad_inhabited.
  - exists None. left. reflexivity.
Qed.

Lemma joined_comments_inhabited (s : Store) (q : Q) (a : Article) :
  exists o, In o (joined_comments s q a).
Proof.
  unfold joined_comments. destruct (refers lookup_on_comments q).
  - apply null_pad_inhabited.
  - exists None. left. reflexivity.
Qed.

Lemma in_rows (s : Store) (q : Q) (a : Article) (r : Row) :
  In r (rows s q a) <->
  r_article r = a /\ In (r_tag r) (joined_tags s q a)
  /\ In (r_comment r) (joined_comments s q a).
Proof.
  unfold rows. rewrite in_flat_map. split.
  - intros (t & Ht & Hr). apply in_map_iff in Hr.
    destruct Hr as (c & <- & Hc). cbn. auto.
  - intros (Ea & Ht & Hc). exists (r_tag r). split; [exact Ht|].
    apply in_map_iff. exists (r_comment r). split; [|exact Hc].
    destruct r. cbn in *. subst. reflexivity.
Qed.

Lemma text_query_refers_tags (d : CleanedData) (t : string) :
  refers lookup_on_tags (get_text_query d t) = in_tags d.
Proof.
  unfold get_text_query.
  destruct (in_title d), (in_text d), (in_tags d), (in_comment_text d); reflexivity.
Qed.

Lemma text_query_refers_comments (d : CleanedData) (t : string) :
  refers lookup_on_comments (get_text_query d t) = in_comment_text d.
Proof.
  unfold get_text_query.
  destruct (in_title d), (in_text d), (in_tags d), (in_comment_text d); reflexivity.
Qed.

Lemma text_query_matches (s : Store) (d : CleanedData) (t : string) (a : Article) :
  in_title d || in_text d || in_tags d || in_comment_text d = true ->
  matches s (get_text_query d t) a <-> text_matches s d t a.
Proof.
  intros Hsel.
  pose proof (text_query_spec d t) as Hq. unfold empty_or_plain in Hq.
  rewrite Hsel in Hq. destruct Hq as [_ He].
  unfold matches, text_matches. split.
  - intros (r & Hr & Hev). apply in_rows in Hr. destruct Hr as (Ea & Ht & Hc).
    rewrite He in Hev. unfold text_predicate in Hev. rewrite Ea in Hev.
    unfold joined_tags in Ht. rewrite text_query_refers_tags in Ht.
    unfold joined_comments in Hc. rewrite text_query_refers_comments in Hc.
    rewrite !orb_true_iff, !andb_true_iff in Hev.
    destruct Hev as [[[H | H] | [Hs H]] | [Hs H]].
    + left. exact H.
    + right. left. exact H.
    + right. right. left. split; [exact Hs|].
      unfold on_tag in H. destruct (r_tag r) as [g|]; [|discriminate].
      rewrite Hs in Ht. apply (proj1 (in_null_pad_some _ _)) in Ht. exists g. auto.
    + right. right. right. split; [exact Hs|].
      unfold on_comment in H. destruct (r_comment r) as [c|]; [|discriminate].
      rewrite Hs in Hc. apply (proj1 (in_null_pad_some _ _)) in Hc. exists c. auto.
  - intros H.
    destruct (joined_tags_inhabited s (get_text_query d t) a) as [ot Hot].
    destruct (joined_comments_inhabited s (get_text_query d t) a) as [oc Hoc].
    destruct H as [[Hs H] | [[Hs H] | [[Hs (g & Hg & H)] | [Hs (c & Hc & H)]]]].
    + exists (mkRow a ot oc). split; [apply in_rows; cbn; auto|].
      rewrite He. unfold text_predicate. cbn. rewrite Hs, H. reflexivity.
    + exists (mkRow a ot oc). split; [apply in_rows; cbn; auto|].
      rewrite He. unfold text_predicate. cbn. rewrite Hs, H.
      cbn. rewrite orb_true_r. reflexivity.
    + exists (mkRow a (Some g) oc). split.
      * apply in_rows. cbn. split; [reflexivity|]. split; [|exact Hoc].
        unfold joined_tags. rewrite text_query_refers_tags, Hs.
        apply in_null_pad_some. exact Hg.
      * rewrite He. unfold text_predicate, on_tag. cbn. rewrite Hs, H.
        cbn. rewrite orb_true_r. reflexivity.
    + exists (mkRow a ot (Some c)). split.
      * apply in_rows. cbn. split; [reflexivity|]. split; [exact Hot|].
        unfold joined_comments. rewrite text_query_refers_comments, Hs.
        apply in_null_pad_some. exact Hc.
      * rewrite He. unfold text_predicate, on_comment. cbn. rewrite Hs, H.
        cbn. rewrite orb_true_r. reflexivity.
Qed.

(** C7: with a scope selected, the query that [get_text_query] builds holds
    on a joined row exactly when one of the selected scopes matches there:
    the title or the body contains the text, the tag name equals it, the
    comment text contains it, all without regard to case.  So an article
    passes exactly when its title or body does, or one of its tags, or one of
    its comments.  With ["foo"] and only [in_title] selected, the articles
    that pass are those whose title contains ["foo"]. *)
Theorem C7_text_predicate (s : Store) (d : CleanedData) (t : string) :
  in_title d || in_text d || in_tags d || in_comment_text d = true ->
  (forall r, eval (get_text_query d t) r = text_predicate d t r)
  /\ (forall a, matches s (get_text_query d t) a <-> text_matches s d t a)
  /\ (in_title d = true -> in_text d = false -> in_tags d = false ->
      in_comment_text d = false ->
      forall a, matches s (get_text_query d "foo") a
                <-> icontains (title a) "foo" = true).
Proof.
  intros Hsel. split; [|split].
  - pose proof (text_query_spec d t) as Hq. unfold empty_or_plain in Hq.
    rewrite Hsel in Hq. apply Hq.
  - intros a. apply text_query_matches. exact Hsel.
  - intros H1 H2 H3 H4 a. rewrite text_query_matches by exact Hsel.
    unfold text_matches. rewrite H1, H2, H3, H4. split.
    + intros [[_ H] | [[H _] | [[H _] | [H _]]]]; (exact H || discriminate).
    + intros H. left. split; [reflexivity | exact H].
Qed.

(** ** Evaluation of query sets *)

Lemma in_flat_repeat {A : Type} (m : A -> nat) (l : list A) (x : A) :
  In x (flat_map (fun a => repeat a (m a)) l) <-> In x l /\ (0 < m x)%nat.
Proof.
  rewrite in_flat_map. split.
  - intros (a & Ha & Hx). apply repeat_spec in Hx as E. subst a.
    split; [exact Ha|]. destruct (m x); [contradiction | lia].
  - intros [Hl Hm]. exists x. split; [exact Hl|].
    destruct (m x) as [|k]; [lia | left; reflexivity].
Qed.

Lemma filter_length_pos {A : Type} (f : A -> bool) (l : list A) :
  (0 < List.length (filter f l))%nat <-> exists x, In x l /\ f x = true.
Proof.
  split.
  - intros H. destruct (filter f l) as [|x l'] eqn:E; [cbn in H; lia|].
    assert (Hx : In x (filter f l)) by (rewrite E; left; reflexivity).
    apply filter_In in Hx. exists x. exact Hx.
  - intros (x & Hx & Hf).
    assert (H : In x (filter f l)) by (apply filter_In; auto).
    destruct (filter f l); [contradiction | cbn; lia].
Qed.

Lemma hits_pos (s : Store) (q : Q) (a : Article) :
  (0 < hits s q a)%nat <-> matches s q a.
Proof. apply filter_length_pos. Qed.

Lemma search_form_valid_in (s : Store) (d : CleanedData) (x : Article) :
  In x (search_form_valid s d) <-> In x (articles s) /\ matches s (search_query d) x.
Proof.
  unfold search_form_valid, execute. cbn.
  rewrite nodup_In, in_flat_repeat, <- hits_pos.
  rewrite Nat.mul_1_r. reflexivity.
Qed.

Lemma validated_text_scope (d : CleanedData) (t : string) :
  clean d = Cleaned d -> cd_text d = Some t -> t <> "" ->
  in_title d || in_text d || in_tags d || in_comment_text d = true.
Proof.
  rewrite clean_cases. unfold text_scope_missing. intros H Ht Hne.
  apply truthy_true in Hne. rewrite Ht in H. cbn in H. rewrite Hne in H.
  destruct (in_title d), (in_text d), (in_tags d), (in_comment_text d);
    (reflexivity || discriminate).
Qed.

Lemma validated_author_scope (d : CleanedData) (a : string) :
  clean d = Cleaned d -> cd_author d = Some a -> a <> "" ->
  article_author d || comment_author d = true.
Proof.
  rewrite clean_cases. unfold author_scope_missing. intros H Ha Hne.
  apply truthy_true in Hne. rewrite Ha in H. cbn in H. rewrite Hne in H.
  destruct (text_scope_missing d); [discriminate|].
  destruct (article_author d), (comment_author d); (reflexivity || discriminate).
Qed.

Lemma text_query_plain (d : CleanedData) (t : string) :
  in_title d || in_text d || in_tags d || in_comment_text d = true ->
  plain (get_text_query d t) /\ forall r, eval (get_text_query d t) r = text_predicate d t r.
Proof.
  intros H. pose proof (text_query_spec d t) as Hq.
  unfold empty_or_plain in Hq. rewrite H in Hq. exact Hq.
Qed.

Lemma author_query_plain (d : CleanedData) (a : string) :
  article_author d || comment_author d = true ->
  plain (get_author_query d a)
  /\ forall r, eval (get_author_query d a) r = author_predicate d a r.
Proof.
  intros H. pose proof (author_query_spec d a) as Hq.
  unfold empty_or_plain in Hq. rewrite H in Hq. exact Hq.
Qed.

(** ** Ordering *)

Lemma insert_desc_perm (a : Article) (l : list Article) :
  Permutation (insert_desc a l) (a :: l).
Proof.
  induction l as [|b r IH]; cbn [insert_desc].
  - apply Permutation_refl.
  - destruct (created_at b <? created_at a).
    + apply Permutation_refl.
    + apply perm_trans with (b :: a :: r).
      * apply perm_skip. exact IH.
      * apply perm_swap.
Qed.

Lemma sort_desc_perm (l : list Article) : Permutation (sort_desc l) l.
Proof.
  induction l as [|a l IH]; cbn.
  - apply perm_nil.
  - apply perm_trans with (a :: sort_desc l).
    + apply insert_desc_perm.
    + apply perm_skip. exact IH.
Qed.

Lemma insert_desc_sorted (a : Article) (l : list Article) :
  newest_first l -> newest_first (insert_desc a l).
Proof.
  unfold newest_first.
  induction l as [|b r IH]; intros H; cbn [insert_desc].
  - constructor; constructor.
  - inversion H as [|? ? Hr Hb]; subst.
    destruct (created_at b <? created_at a) eqn:E.
    + apply Z.ltb_lt in E. constructor; [exact H|].
      constructor; [lia|].
      rewrite Forall_forall in Hb |- *. intros x Hx.
      specialize (Hb x Hx). cbn in Hb. lia.
    + apply Z.ltb_ge in E. constructor; [apply IH; exact Hr|].
      rewrite Forall_forall in Hb |- *. intros x Hx.
      apply (Permutation_in _ (insert_desc_perm a r)) in Hx.
      destruct Hx as [<- | Hx]; [exact E | apply Hb; exact Hx].
Qed.

Lemma sort_desc_sorted (l : list Article) : newest_first (sort_desc l).
Proof.
  induction l as [|a l IH]; cbn.
  - constructor.
  - apply insert_desc_sorted. exact IH.
Qed.

Lemma flat_repeat_sorted (m : Article -> nat) (l : list Article) :
  newest_first l -> newest_first (flat_map (fun a => repeat a (m a)) l).
Proof.
  unfold newest_first.
  induction l as [|a l IH]; intros H; cbn [flat_map].
  - constructor.
  - inversion H as [|? ? Hl Ha]; subst.
    specialize (IH Hl).
    induction (m a) as [|k IHk]; cbn [repeat app].
    + exact IH.
    + constructor; [exact IHk|].
      rewrite Forall_forall. intros x Hx.
      apply in_app_or in Hx. destruct Hx as [Hx | Hx].
      * apply repeat_spec in Hx. subst x. lia.
      * apply in_flat_repeat in Hx. destruct Hx as [Hx _].
        rewrite Forall_forall in Ha. apply Ha. exact Hx.
Qed.

Lemma flat_repeat_one {A : Type} (l : list A) :
  flat_map (fun a => repeat a 1) l = l.
Proof.
  induction l as [|a l IH]; cbn [flat_map]; [reflexivity | rewrite IH; reflexivity].
Qed.

Lemma get_queryset_shape (s : Store) (sq tq : option string) (qs : QuerySet) :
  get_queryset s sq tq = Ok qs ->
  qs_ordering qs = Some created_at_desc /\ qs_distinct qs = false.
Proof.
  unfold get_queryset. intros H.
  destruct tq as [k|].
  - destruct (Py.truthy k).
    + destruct (Tag_get_pk s k) as [t|e]; cbn in H; [|discriminate].
      injection H as <-. destruct sq as [v|]; [destruct (Py.truthy v)|]; auto.
    + injection H as <-. destruct sq as [v|]; [destruct (Py.truthy v)|]; auto.
  - injection H as <-. destruct sq as [v|]; [destruct (Py.truthy v)|]; auto.
Qed.

Lemma get_queryset_sorted (s : Store) (sq tq : option string) (qs : QuerySet) :
  get_queryset s sq tq = Ok qs -> newest_first (execute s qs).
Proof.
  intros H. apply get_queryset_shape in H. destruct H as [Ho Hd].
  unfold execute. rewrite Ho, Hd.
  apply flat_repeat_sorted, sort_desc_sorted.
Qed.

(** ** Pagination *)

Lemma slice_length {A : Type} (l : list A) (bottom top : Z) :
  0 <= bottom <= top -> top <= Z.of_nat (List.length l) ->
  Z.of_nat (List.length (Paginator.slice l bottom top)) = top - bottom.
Proof.
  intros Hb Ht. unfold Paginator.slice.
  rewrite length_firstn, length_skipn. lia.
Qed.

Lemma num_pages_bounds (count per_page orphans : Z) :
  0 < per_page ->
  let hits := Z.max 1 (count - orphans) in
  let pages := Paginator.num_pages count per_page orphans in
  per_page * (pages - 1) < hits <= per_page * pages.
Proof.
  intros Hp hits pages. subst pages. unfold Paginator.num_pages. fold hits.
  pose proof (Z.div_mod (hits + per_page - 1) per_page ltac:(lia)) as E.
  pose proof (Z.mod_pos_bound (hits + per_page - 1) per_page Hp) as B.
  lia.
Qed.

(** What a page of the list view holds: pages before the last hold five
    articles; the last page holds the rest, at most six, and at least two
    unless it is the only page. *)
Lemma page_spec (l : list Article) (n : Z) (p : Paginator.Page) :
  Paginator.page l paginate_by paginate_orphans n = Ok p ->
  let count := Z.of_nat (List.length l) in
  let pages := Paginator.num_pages count paginate_by paginate_orphans in
  Paginator.number p = n /\ Paginator.page_num_pages p = pages /\ 1 <= n <= pages
  /\ (n < pages ->
      Paginator.object_list p = Paginator.slice l (5 * (n - 1)) (5 * n)
      /\ Z.of_nat (List.length (Paginator.object_list p)) = 5)
  /\ (n = pages ->
      Paginator.object_list p = Paginator.slice l (5 * (n - 1)) count
      /\ (0 < count -> Z.of_nat (List.length (Paginator.object_list p)) = count - 5 * (n - 1))
      /\ Z.of_nat (List.length (Paginator.object_list p)) <= 6
      /\ (1 < pages -> 2 <= Z.of_nat (List.length (Paginator.object_list p)))).
Proof.
  intros H count pages.
  pose proof (num_pages_bounds count paginate_by paginate_orphans eq_refl) as B.
  cbn zeta in B. fold pages in B. unfold paginate_by, paginate_orphans in *.
  assert (Hc : 0 <= count) by (unfold count; lia).
  unfold Paginator.page in H. fold count in H. fold pages in H.
  destruct (n <? 1) eqn:E1; [discriminate|]. apply Z.ltb_ge in E1.
  destruct ((pages <? n) && negb (n =? 1)) eqn:E2; [discriminate|].
  assert (Hn : n <= pages).
  { apply andb_false_iff in E2. destruct E2 as [E2 | E2].
    - apply Z.ltb_ge in E2. exact E2.
    - apply negb_false_iff, Z.eqb_eq in E2. lia. }
  injection H as <-. cbn [Paginator.number Paginator.page_num_pages Paginator.object_list].
  split; [reflexivity|]. split; [reflexivity|]. split; [lia|]. split.
  - intros Hlt.
    assert (Hge : (count <=? (n - 1) * 5 + 5 + 1) = false) by (apply Z.leb_gt; lia).
    rewrite Hge.
    replace ((n - 1) * 5) with (5 * (n - 1)) by lia.
    replace (5 * (n - 1) + 5) with (5 * n) by lia.
    split; [reflexivity|]. rewrite slice_length; lia.
  - intros ->.
    assert (Hle : (count <=? (pages - 1) * 5 + 5 + 1) = true) by (apply Z.leb_le; lia).
    rewrite Hle.
    replace ((pages - 1) * 5) with (5 * (pages - 1)) by lia.
    split; [reflexivity|].
    unfold Paginator.slice. rewrite length_firstn, length_skipn. fold count.
    repeat split; lia.
Qed.

(** ** The list view *)

Lemma get_queryset_parts (s : Store) (sq tq : option string) :
  get_queryset s sq tq
  = (tp <- tag_part s tq ;;
     Ok (mkQuerySet (search_part sq ++ tp) (Some created_at_desc) false)).
Proof.
  unfold get_queryset, tag_part, search_part.
  destruct tq as [k|]; [destruct (Py.truthy k)|].
  - destruct (Tag_get_pk s k) as [t|e]; cbn [bind]; [|reflexivity].
    destruct sq as [v|]; [destruct (Py.truthy v)|]; reflexivity.
  - cbn [bind]. destruct sq as [v|]; [destruct (Py.truthy v)|];
      cbn; rewrite ?app_nil_r; reflexivity.
  - cbn [bind]. destruct sq as [v|]; [destruct (Py.truthy v)|];
      cbn; rewrite ?app_nil_r; reflexivity.
Qed.

Lemma execute_no_filter (s : Store) :
  execute s (order_by created_at_desc all) = sort_desc (articles s).
Proof.
  unfold execute. cbn. apply flat_repeat_one.
Qed.

Lemma no_query_queryset (s : Store) :
  get_queryset s (get_search_query (get_search_form no_query))
               (get_tag_query (get_search_form no_query) no_query)
  = Ok (order_by created_at_desc all).
Proof. reflexivity. Qed.

Lemma sorted_skipn {A : Type} (R : A -> A -> Prop) (n : nat) (l : list A) :
  StronglySorted R l -> StronglySorted R (skipn n l).
Proof.
  revert l. induction n as [|n IH]; intros l H; [exact H|].
  destruct l as [|x l]; [constructor|].
  cbn [skipn]. apply IH. inversion H; assumption.
Qed.

Lemma sorted_firstn {A : Type} (R : A -> A -> Prop) (n : nat) (l : list A) :
  StronglySorted R l -> StronglySorted R (firstn n l).
Proof.
  revert l. induction n as [|n IH]; intros l H; [constructor|].
  destruct l as [|x l]; [constructor|].
  cbn [firstn]. inversion H as [|? ? Hl Hx]; subst.
  constructor; [apply IH; exact Hl|].
  rewrite Forall_forall in Hx |- *. intros y Hy. apply Hx.
  rewrite <- (firstn_skipn n l). apply in_or_app. left. exact Hy.
Qed.

Lemma in_slice {A : Type} (l : list A) (bottom top : Z) (x : A) :
  In x (Paginator.slice l bottom top) -> In x l.
Proof.
  unfold Paginator.slice. intros H.
  rewrite <- (firstn_skipn (Z.to_nat bottom) l). apply in_or_app. right.
  rewrite <- (firstn_skipn (Z.to_nat (top - bottom)) (skipn (Z.to_nat bottom) l)).
  apply in_or_app. left. exact H.
Qed.

Lemma page_object_list (l : list Article) (per_page orphans n : Z)
  (p : Paginator.Page) :
  Paginator.page l per_page orphans n = Ok p ->
  exists bottom top, Paginator.object_list p = Paginator.slice l bottom top.
Proof.
  unfold Paginator.page. intros H.
  destruct (n <? 1); [discriminate|].
  destruct ((_ <? n) && negb (n =? 1)); [discriminate|].
  injection H as <-. cbn [Paginator.object_list]. eauto.
Qed.

(** C9: the list view orders its articles newest first and pages them by
    five with one orphan.  Whatever page the view answers with is the page
    asked for of the newest-first listing of its query set: a page before the
    last holds five articles, the last page holds the rest, at most six, and
    at least two unless it is the only page; without a page parameter the
    view answers with page 1.  With six articles and no query there is one
    page, holding all six. *)
Theorem C9_list_view (s : Store) :
  (forall sq tq qs, get_queryset s sq tq = Ok qs -> newest_first (execute s qs))
  /\ (forall req p,
        IndexView_get s req = Ok p ->
        exists qs,
          get_queryset s (get_search_query (get_search_form req))
                       (get_tag_query (get_search_form req) req) = Ok qs
          /\ let l := execute s qs in
             let count := Z.of_nat (List.length l) in
             let pages := Paginator.num_pages count paginate_by paginate_orphans in
             let n := Paginator.number p in
             newest_first l
             /\ newest_first (Paginator.object_list p)
             /\ page_number req pages = Ok n
             /\ Paginator.page_num_pages p = pages /\ 1 <= n <= pages
             /\ (n < pages ->
                 Paginator.object_list p = Paginator.slice l (5 * (n - 1)) (5 * n)
                 /\ Z.of_nat (List.length (Paginator.object_list p)) = 5)
             /\ (n = pages ->
                 Paginator.object_list p = Paginator.slice l (5 * (n - 1)) count
                 /\ Z.of_nat (List.length (Paginator.object_list p)) <= 6
                 /\ (1 < pages ->
                     2 <= Z.of_nat (List.length (Paginator.object_list p)))))
  /\ (forall req qs,
        get_queryset s (get_search_query (get_search_form req))
                     (get_tag_query (get_search_form req) req) = Ok qs ->
        GET_page req = None ->
        exists p, IndexView_get s req = Ok p /\ Paginator.number p = 1)
  /\ (List.length (articles s) = 6%nat ->
      IndexView_get s no_query = Ok (Paginator.mkPage (sort_desc (articles s)) 1 1)
      /\ newest_first (sort_desc (articles s))
      /\ Permutation (sort_desc (articles s)) (articles s)).
Proof.
  split; [|split; [|split]].
  - intros sq tq qs. apply get_queryset_sorted.
  - intros req p H. unfold IndexView_get in H.
    destruct (get_queryset s (get_search_query (get_search_form req))
                (get_tag_query (get_search_form req) req)) as [qs|e] eqn:Eq;
      [|discriminate].
    cbn [bind] in H. exists qs. split; [reflexivity|].
    intros l count pages n. fold l in H. fold count in H. fold pages in H.
    destruct (page_number req pages) as [k|e] eqn:Ek; [|discriminate].
    cbn [bind] in H.
    destruct (page_spec l k p H) as (Hk & Hp & Hn & Hlt & Hlast).
    fold count in Hp, Hn, Hlt, Hlast. fold pages in Hp, Hn, Hlt, Hlast.
    assert (En : n = k) by exact Hk. rewrite En.
    pose proof (get_queryset_sorted s _ _ qs Eq) as Hs. fold l in Hs.
    split; [exact Hs|]. split.
    { destruct (page_object_list l _ _ k p H) as (b & t & E). rewrite E.
      unfold Paginator.slice. apply sorted_firstn, sorted_skipn. exact Hs. }
    split; [reflexivity|]. split; [exact Hp|]. split; [exact Hn|].
    split; [exact Hlt|].
    intros E. destruct (Hlast E) as (H1 & _ & H3 & H4). auto.
  - intros req qs Eq Hpage. unfold IndexView_get. rewrite Eq. cbn [bind].
    unfold page_number. rewrite Hpage. cbn [bind].
    unfold Paginator.page. cbn [Z.ltb Z.compare Z.eqb negb andb].
    rewrite andb_false_r. eexists. split; reflexivity.
  - intros H6. split; [|split].
    + unfold IndexView_get. rewrite no_query_queryset.
      cbn [bind]. rewrite execute_no_filter.
      assert (L : List.length (sort_desc (articles s)) = 6%nat).
      { rewrite (Permutation_length (sort_desc_perm (articles s))). exact H6. }
      rewrite L. cbn [page_number GET_page bind].
      unfold Paginator.page. rewrite L.
      change (Paginator.num_pages (Z.of_nat 6) paginate_by paginate_orphans) with 1.
      cbn -[Paginator.slice sort_desc].
      unfold Paginator.slice. cbn [Z.sub Z.to_nat Z.opp Z.add Pos.to_nat Pos.iter_op
                                   Init.Nat.add skipn].
      rewrite firstn_all2 by (rewrite L; apply Nat.le_refl). reflexivity.
    + apply sort_desc_sorted.
    + apply sort_desc_perm.
Qed.

Lemma C9_witness :
  (IndexView_get store6 no_query
   = Ok (Paginator.mkPage (sort_desc (articles store6)) 1 1)
   /\ newest_first (sort_desc (articles store6))
   /\ Permutation (sort_desc (articles store6)) (articles store6))
  /\ exists p,
       IndexView_get store7 req_page2 = Ok p
       /\ Paginator.page_num_pages p = 2
       /\ newest_first (Paginator.object_list p)
       /\ map article_pk (Paginator.object_list p) = [1; 7].
Proof.
  split.
  - apply (proj2 (proj2 (proj2 (C9_list_view store6)))). reflexivity.
  - eexists. split; [reflexivity|].
    destruct (proj1 (proj2 (C9_list_view store7)) req_page2 _ eq_refl)
      as (qs & Eq & _ & Hs & _ & Hp & _).
    injection Eq as <-.
    split; [exact Hp|]. split; [exact Hs | reflexivity].
Defined.

Example list_six_articles :
  option_map (fun p => map article_pk (Paginator.object_list p))
             (match IndexView_get store6 no_query with Ok p => Some p | Raise _ => None end)
  = Some [4; 5; 6; 2; 3; 1].
Proof. reflexivity. Qed.

Lemma in_sort_desc (a : Article) (l : list Article) : In a (sort_desc l) <-> In a l.
Proof.
  split; apply Permutation_in.
  - apply sort_desc_perm.
  - apply Permutation_sym, sort_desc_perm.
Qed.

(** C2, as the code has it: the search filter and the tag filter are applied
    independently, the first when the search string is non-empty and the
    second when the tag parameter is non-empty; a request with both gets both,
    the tag filter on top of the search filter, and lists the articles that
    pass both. *)
Theorem C2_filters_compose (s : Store) (sq tq : option string) :
  get_queryset s sq tq
  = (tp <- tag_part s tq ;;
     Ok (mkQuerySet (search_part sq ++ tp) (Some created_at_desc) false))
  /\ forall v k t,
       sq = Some v -> v <> "" -> tq = Some k -> k <> "" -> Tag_get_pk s k = Ok t ->
       exists qs,
         get_queryset s sq tq = Ok qs
         /\ qs_filters qs = [search_filter v; tag_filter t]
         /\ forall a, In a (execute s qs)
                      <-> In a (articles s)
                          /\ matches s (search_filter v) a
                          /\ matches s (tag_filter t) a.
Proof.
  split; [apply get_queryset_parts|].
  intros v k t -> Hv -> Hk Ht.
  apply truthy_true in Hv. apply truthy_true in Hk.
  exists (mkQuerySet [search_filter v; tag_filter t] (Some created_at_desc) false).
  split; [|split].
  - rewrite get_queryset_parts. unfold tag_part, search_part.
    rewrite Hv, Hk, Ht. reflexivity.
  - reflexivity.
  - intros a. unfold execute. cbn [qs_ordering qs_distinct qs_filters].
    rewrite in_flat_repeat, in_sort_desc. cbn [multiplicity fold_right].
    rewrite <- !hits_pos. split.
    + intros [Ha Hm]. split; [exact Ha|]. split; nia.
    + intros (Ha & H1 & H2). split; [exact Ha|]. nia.
Qed.

Lemma C2_witness :
  exists qs,
    get_queryset store_xn (Some "x") (Some "1") = Ok qs
    /\ qs_filters qs = [search_filter "x"; tag_filter (mkTag 1 "news")]
    /\ forall a, In a (execute store_xn qs)
                 <-> In a (articles store_xn)
                     /\ matches store_xn (search_filter "x") a
                     /\ matches store_xn (tag_filter (mkTag 1 "news")) a.
Proof.
  apply (proj2 (C2_filters_compose store_xn (Some "x") (Some "1"))
                "x" "1" (mkTag 1 "news"));
    [reflexivity | discriminate | reflexivity | discriminate | reflexivity].
Defined.

(** C2, as the spec has it, fails: this request gets both filters, and they
    narrow together, since each article passes one filter alone and none
    passes both. *)
Lemma C2_counterexample :
  let form := get_search_form req_both in
  get_queryset store_xn (get_search_query form) (get_tag_query form req_both)
  = Ok (mkQuerySet [search_filter "x"; tag_filter (mkTag 1 "news")]
                   (Some created_at_desc) false)
  /\ map article_pk
         (execute store_xn (filter_q (search_filter "x") (order_by created_at_desc all)))
     = [1]
  /\ map article_pk
         (execute store_xn (filter_q (tag_filter (mkTag 1 "news"))
                                     (order_by created_at_desc all)))
     = [2]
  /\ execute store_xn
             (mkQuerySet [search_filter "x"; tag_filter (mkTag 1 "news")]
                         (Some created_at_desc) false)
     = [].
Proof. repeat split. Qed.

Lemma tag_part_missing (s : Store) (k : string) (n : Z) :
  k <> "" -> Py.int k = Some n ->
  (forall t, In t (tags s) -> tag_pk t <> n) ->
  tag_part s (Some k) = Raise DoesNotExist.
Proof.
  intros Hk Hn Hnone. apply truthy_true in Hk.
  unfold tag_part, Tag_get_pk. rewrite Hk, Hn.
  assert (E : filter (fun t => tag_pk t =? n) (tags s) = []).
  { destruct (filter (fun t => tag_pk t =? n) (tags s)) as [|t l] eqn:E; [reflexivity|].
    assert (Ht : In t (filter (fun t => tag_pk t =? n) (tags s)))
      by (rewrite E; left; reflexivity).
    apply filter_In in Ht. destruct Ht as [Hin Hpk].
    apply Z.eqb_eq in Hpk. exfalso. exact (Hnone t Hin Hpk). }
  rewrite E. reflexivity.
Qed.

(** A tag parameter that is not an integer makes the lookup raise
    [ValueError]. *)
Lemma tag_part_not_integer (s : Store) (k : string) :
  k <> "" -> Py.int k = None -> tag_part s (Some k) = Raise ValueError.
Proof.
  intros Hk Hn. apply truthy_true in Hk.
  unfold tag_part, Tag_get_pk. rewrite Hk, Hn. reflexivity.
Qed.

(** With an invalid search form the tag parameter is not read. *)
Lemma invalid_form_no_lookup (s : Store) (req : Request) :
  SimpleSearchForm_is_valid (get_search_form req) = false ->
  get_queryset s (get_search_query (get_search_form req))
               (get_tag_query (get_search_form req) req)
  = Ok (order_by created_at_desc all).
Proof.
  intros H. unfold get_search_query, get_tag_query. rewrite H. reflexivity.
Qed.

Lemma get_queryset_no_tag (s : Store) (sq tq : option string) :
  Py.truthy_opt tq = false ->
  get_queryset s sq tq
  = Ok (mkQuerySet (search_part sq) (Some created_at_desc) false).
Proof.
  intros H. rewrite get_queryset_parts. unfold tag_part.
  destruct tq as [k|]; [cbn in H; rewrite H|]; cbn [bind]; rewrite app_nil_r;
    reflexivity.
Qed.

Lemma tag_query_ignored (req : Request) :
  SimpleSearchForm_is_valid (get_search_form req) = false \/ GET_tag req = Some "" ->
  Py.truthy_opt (get_tag_query (get_search_form req) req) = false.
Proof.
  unfold get_tag_query. intros [H | H].
  - rewrite H. reflexivity.
  - rewrite H. destruct (SimpleSearchForm_is_valid (get_search_form req)); reflexivity.
Qed.

(** C10, as the code has it: when the search form is valid and the tag
    parameter is a non-empty string that reads as an integer key (of the
    store's 64-bit range) of no tag, the lookup raises [DoesNotExist], which
    the view does not turn into [Http404].  When the search form is invalid,
    or the tag parameter is empty, the parameter is ignored: no tag is looked
    up, the query set has the search filter at most, and the view answers as
    it does without the parameter. *)
Theorem C10_missing_tag_raises (s : Store) (req : Request) :
  (forall k n,
     SimpleSearchForm_is_valid (get_search_form req) = true ->
     GET_tag req = Some k -> k <> "" ->
     Py.int k = Some n -> - 2 ^ 63 <= n < 2 ^ 63 ->
     (forall t, In t (tags s) -> tag_pk t <> n) ->
     IndexView_get s req = Raise DoesNotExist)
  /\ (SimpleSearchForm_is_valid (get_search_form req) = false
      \/ GET_tag req = Some "" ->
      get_queryset s (get_search_query (get_search_form req))
                   (get_tag_query (get_search_form req) req)
      = Ok (mkQuerySet (search_part (get_search_query (get_search_form req)))
                       (Some created_at_desc) false)
      /\ IndexView_get s req
         = IndexView_get s (mkRequest (GET_search req) None (GET_page req))).
Proof.
  split.
  - intros k n Hvalid Htag Hk Hn _ Hnone.
    unfold IndexView_get, get_tag_query. rewrite Hvalid, Htag.
    rewrite get_queryset_parts.
    rewrite (tag_part_missing s k n Hk Hn Hnone). reflexivity.
  - intros H. apply tag_query_ignored in H.
    pose proof (get_queryset_no_tag s (get_search_query (get_search_form req)) _ H) as E.
    split; [exact E|].
    unfold IndexView_get. rewrite E.
    change (get_search_form (mkRequest (GET_search req) None (GET_page req)))
      with (get_search_form req).
    rewrite (get_queryset_no_tag s _ (get_tag_query (get_search_form req)
                                        (mkRequest (GET_search req) None (GET_page req)))).
    + reflexivity.
    + unfold get_tag_query. cbn [GET_tag].
      destruct (SimpleSearchForm_is_valid (get_search_form req)); reflexivity.
Qed.

Lemma C10_witness :
  IndexView_get store6 req_tag7 = Raise DoesNotExist
  /\ IndexView_get store6 req_long_search
     = IndexView_get store6 (mkRequest (GET_search req_long_search) None None)
  /\ IndexView_get store6 req_empty_tag = IndexView_get store6 no_query.
Proof.
  split; [|split].
  - apply (proj1 (C10_missing_tag_raises store6 req_tag7) "7" 7);
      [reflexivity | reflexivity | discriminate | reflexivity | lia | intros t []].
  - apply (proj2 (C10_missing_tag_raises store6 req_long_search)).
    left. vm_compute. reflexivity.
  - apply (proj2 (C10_missing_tag_raises store6 req_empty_tag)).
    right. reflexivity.
Defined.

(** C10, as the spec has it, fails: a tag parameter that names no tag raises
    nothing when the search form is invalid, or when the parameter is empty;
    the view lists the articles as if no tag was asked for. *)
Lemma C10_counterexample :
  (GET_tag req_long_search = Some "7"
   /\ (forall t, In t (tags store6) -> Py.int "7" <> Some (tag_pk t))
   /\ IndexView_get store6 req_long_search
      = Ok (Paginator.mkPage (sort_desc (articles store6)) 1 1))
  /\ (GET_tag req_empty_tag = Some ""
      /\ (forall t, In t (tags store6) -> Py.int "" <> Some (tag_pk t))
      /\ IndexView_get store6 req_empty_tag
         = Ok (Paginator.mkPage (sort_desc (articles store6)) 1 1)).
Proof.
  split; (split; [reflexivity|]; split; [intros t []|]); vm_compute; reflexivity.
Qed.

(** ** Tags of an article *)

Section KeyedTable.

Variables (A K : Type) (key : A -> K) (eqb : K -> K -> bool).
Hypothesis eqb_spec : forall a b, eqb a b = true <-> a = b.

(** In a table whose keys are unique, the rows with a given key are the one
    row that has it. *)
Lemma filter_key_unique (l : list A) (x : A) :
  NoDup (map key l) -> In x l ->
  filter (fun y => eqb (key y) (key x)) l = [x].
Proof.
  induction l as [|y l IH]; intros Hnd Hin; [contradiction|].
  cbn [map] in Hnd. inversion Hnd as [|? ? Hy Hl]; subst.
  cbn [filter]. destruct Hin as [-> | Hin].
  - replace (eqb (key x) (key x)) with true by (symmetry; apply eqb_spec; reflexivity).
    f_equal.
    destruct (filter (fun y => eqb (key y) (key x)) l) as [|z r] eqn:E; [reflexivity|].
    assert (Hz : In z (filter (fun y => eqb (key y) (key x)) l))
      by (rewrite E; left; reflexivity).
    apply filter_In in Hz. destruct Hz as [Hz Hk]. apply eqb_spec in Hk.
    exfalso. apply Hy. rewrite <- Hk. apply in_map. exact Hz.
  - destruct (eqb (key y) (key x)) eqn:E.
    + apply eqb_spec in E. exfalso. apply Hy. rewrite E. apply in_map. exact Hin.
    + apply IH; assumption.
Qed.

Lemma filter_key_none (l : list A) (k : K) :
  ~ In k (map key l) -> filter (fun y => eqb (key y) k) l = [].
Proof.
  intros Hk.
  destruct (filter (fun y => eqb (key y) k) l) as [|z r] eqn:E; [reflexivity|].
  assert (Hz : In z (filter (fun y => eqb (key y) k) l)) by (rewrite E; left; reflexivity).
  apply filter_In in Hz. destruct Hz as [Hz Hkz]. apply eqb_spec in Hkz.
  exfalso. apply Hk. rewrite <- Hkz. apply in_map. exact Hz.
Qed.

Lemma filter_key_cases (l : list A) (k : K) :
  NoDup (map key l) ->
  (filter (fun y => eqb (key y) k) l = [] /\ ~ In k (map key l))
  \/ (exists x, filter (fun y => eqb (key y) k) l = [x] /\ In x l /\ key x = k).
Proof.
  intros Hnd.
  destruct (filter (fun y => eqb (key y) k) l) as [|z r] eqn:E.
  - left. split; [reflexivity|]. intros Hin. apply in_map_iff in Hin.
    destruct Hin as (x & Hx & Hin).
    assert (Hf : In x (filter (fun y => eqb (key y) k) l)).
    { apply filter_In. split; [exact Hin|]. apply eqb_spec. exact Hx. }
    rewrite E in Hf. contradiction.
  - right.
    assert (Hz : In z (filter (fun y => eqb (key y) k) l)) by (rewrite E; left; reflexivity).
    apply filter_In in Hz. destruct Hz as [Hz Hk]. apply eqb_spec in Hk. subst k.
    exists z. rewrite <- E. split; [|auto].
    apply filter_key_unique; assumption.
Qed.

End KeyedTable.

Lemma fold_max_ge (l : list Z) (x : Z) : In x l -> x <= fold_right Z.max 0 l.
Proof.
  induction l as [|y l IH]; intros H; [contradiction|].
  cbn [fold_right]. destruct H as [-> | H]; [lia|].
  specialize (IH H). lia.
Qed.

Lemma fresh_pk_not_in (l : list Z) : ~ In (fresh_pk l) l.
Proof.
  intros H. apply fold_max_ge in H. unfold fresh_pk in H. lia.
Qed.

Lemma NoDup_snoc {A : Type} (l : list A) (x : A) :
  NoDup l -> ~ In x l -> NoDup (l ++ [x]).
Proof.
  intros Hl Hx. apply NoDup_app; [exact Hl | constructor; [intros [] | constructor] |].
  intros a Ha [<- | []]. exact (Hx Ha).
Qed.

Lemma flat_map_ext_in {A B : Type} (f g : A -> list B) (l : list A) :
  (forall a, In a l -> f a = g a) -> flat_map f l = flat_map g l.
Proof.
  induction l as [|a l IH]; intros H; [reflexivity|].
  cbn [flat_map]. rewrite (H a (or_introl eq_refl)).
  rewrite IH; [reflexivity|]. intros b Hb. apply H. right. exact Hb.
Qed.

Lemma existsb_eqb_in (n : string) (l : list string) :
  existsb (String.eqb n) l = true <-> In n l.
Proof.
  rewrite existsb_exists. split.
  - intros (x & Hx & E). apply String.eqb_eq in E. subst x. exact Hx.
  - intros H. exists n. split; [exact H | apply String.eqb_refl].
Qed.

Lemma add_name_spec (acc : list string) (n : string) :
  NoDup acc ->
  NoDup (add_name acc n) /\ forall m, In m (add_name acc n) <-> In m acc \/ m = n.
Proof.
  intros Hnd. unfold add_name.
  destruct (existsb (String.eqb n) acc) eqn:E.
  - apply existsb_eqb_in in E. split; [exact Hnd|].
    intros m. split; [auto|]. intros [H | ->]; assumption.
  - assert (Hn : ~ In n acc).
    { intros H. apply existsb_eqb_in in H. rewrite H in E. discriminate. }
    split; [apply NoDup_snoc; assumption|].
    intros m. rewrite in_app_iff. cbn [In]. split.
    + intros [H | [<- | []]]; auto.
    + intros [H | ->]; auto.
Qed.

Lemma fold_add_name_spec (l acc : list string) :
  NoDup acc ->
  NoDup (fold_left add_name l acc)
  /\ forall m, In m (fold_left add_name l acc) <-> In m acc \/ In m l.
Proof.
  revert acc. induction l as [|n l IH]; intros acc Hnd; cbn [fold_left].
  - split; [exact Hnd|]. intros m. split; [auto | intros [H | []]; exact H].
  - destruct (add_name_spec acc n Hnd) as [Hnd' Hin'].
    destruct (IH _ Hnd') as [Hnd'' Hin''].
    split; [exact Hnd''|].
    intros m. rewrite Hin'', Hin'. cbn [In]. split.
    + intros [[H | ->] | H]; auto.
    + intros [H | [<- | H]]; auto.
Qed.

Lemma parsed_tag_names_spec (tags : string) :
  NoDup (parsed_tag_names tags)
  /\ forall n, In n (parsed_tag_names tags) <-> In n (map Py.strip (Py.split "," tags)).
Proof.
  unfold parsed_tag_names.
  destruct (fold_add_name_spec (map Py.strip (Py.split "," tags)) [] (NoDup_nil _))
    as [Hnd Hin].
  split; [exact Hnd|].
  intros n. rewrite Hin. cbn [In]. split; [intros [[] | H]; exact H | auto].
Qed.

Lemma key_injective {A K : Type} (key : A -> K) (eqb : K -> K -> bool)
  (eqb_spec : forall a b, eqb a b = true <-> a = b) (l : list A) (x y : A) :
  NoDup (map key l) -> In x l -> In y l -> key x = key y -> x = y.
Proof.
  intros Hnd Hx Hy E.
  pose proof (filter_key_unique A K key eqb eqb_spec l x Hnd Hx) as Fx.
  pose proof (filter_key_unique A K key eqb eqb_spec l y Hnd Hy) as Fy.
  rewrite E in Fx. rewrite Fx in Fy. injection Fy as ->. reflexivity.
Qed.

Lemma in_tag_names (s : Store) (apk : Z) (n : string) :
  In n (tag_names s apk) <->
  exists t, In (apk, tag_pk t) (article_tags s) /\ In t (tags s) /\ tag_name t = n.
Proof.
  unfold tag_names. rewrite in_flat_map. split.
  - intros ([a tp] & Hrow & Hn). cbn [fst snd] in Hn.
    destruct (a =? apk) eqn:Ea; [|contradiction].
    apply Z.eqb_eq in Ea. subst a.
    apply in_map_iff in Hn. destruct Hn as (t & Hname & Ht).
    apply filter_In in Ht. destruct Ht as [Ht Hpk]. apply Z.eqb_eq in Hpk. subst tp.
    exists t. auto.
  - intros (t & Hrow & Ht & Hname). exists (apk, tag_pk t). split; [exact Hrow|].
    cbn [fst snd]. rewrite Z.eqb_refl. apply in_map_iff. exists t.
    split; [exact Hname|]. apply filter_In. split; [exact Ht | apply Z.eqb_refl].
Qed.

Lemma linked_in (s : Store) (apk tpk : Z) :
  linked s apk tpk = true <-> In (apk, tpk) (article_tags s).
Proof.
  unfold linked. rewrite existsb_exists. split.
  - intros ([a t] & Hin & E). cbn [fst snd] in E.
    apply andb_true_iff in E. destruct E as [Ea Et].
    apply Z.eqb_eq in Ea. apply Z.eqb_eq in Et. subst. exact Hin.
  - intros H. exists (apk, tpk). split; [exact H|].
    cbn [fst snd]. rewrite !Z.eqb_refl. reflexivity.
Qed.

Lemma linked_iff_named (s : Store) (apk : Z) (t : Tag) :
  wf_store s -> In t (tags s) ->
  linked s apk (tag_pk t) = true <-> In (tag_name t) (tag_names s apk).
Proof.
  intros Hwf Ht. rewrite linked_in, in_tag_names. split.
  - intros H. exists t. auto.
  - intros (t' & Hrow & Ht' & Hname).
    assert (E : t' = t).
    { apply (key_injective tag_name String.eqb String.eqb_eq (tags s));
        [apply (wf_tag_names s Hwf) | assumption | assumption | exact Hname]. }
    subst t'. exact Hrow.
Qed.

(** [get_or_create] returns a tag of the given name, leaves the articles and
    the associations alone, and keeps the tables sound. *)
Lemma get_or_create_spec (s : Store) (n : string) :
  wf_store s ->
  exists t s',
    Tag_get_or_create s n = Ok (t, s')
    /\ tag_name t = n /\ In t (tags s')
    /\ articles s' = articles s
    /\ wf_store s'
    /\ forall apk, tag_names s' apk = tag_names s apk.
Proof.
  intros Hwf. unfold Tag_get_or_create.
  destruct (filter_key_cases Tag string tag_name String.eqb String.eqb_eq
              (tags s) n (wf_tag_names s Hwf)) as [[E Hnot] | (x & E & Hin & Hk)];
    rewrite E.
  - set (t := mkTag (fresh_pk (map tag_pk (tags s))) n).
    eexists t, _. split; [reflexivity|].
    split; [reflexivity|]. split; [cbn; apply in_or_app; right; left; reflexivity|].
    split; [reflexivity|]. split.
    + constructor; cbn [tags articles article_tags].
      * rewrite map_app. apply NoDup_snoc; [apply (wf_tag_pks s Hwf)|].
        apply fresh_pk_not_in.
      * rewrite map_app. apply NoDup_snoc; [apply (wf_tag_names s Hwf) | exact Hnot].
      * intros a tp Hrow. destruct (wf_fk s Hwf a tp Hrow) as [Ha Htp].
        split; [exact Ha|]. rewrite map_app. apply in_or_app. left. exact Htp.
    + intros apk. unfold tag_names. cbn [tags article_tags].
      apply flat_map_ext_in. intros [a tp] Hrow. cbn [fst snd].
      destruct (a =? apk); [|reflexivity].
      rewrite filter_app. cbn [filter tag_pk t].
      destruct (fresh_pk (map tag_pk (tags s)) =? tp) eqn:Ef.
      * apply Z.eqb_eq in Ef. destruct (wf_fk s Hwf a tp Hrow) as [_ Htp].
        rewrite <- Ef in Htp. exfalso. exact (fresh_pk_not_in _ Htp).
      * rewrite app_nil_r. reflexivity.
  - exists x, s. split; [reflexivity|]. split; [exact Hk|]. split; [exact Hin|].
    split; [reflexivity|]. split; [exact Hwf|]. reflexivity.
Qed.

(** [tags.add] puts the tag's name at the end of the article's names unless
    it is among them. *)
Lemma tags_add_spec (s : Store) (apk : Z) (t : Tag) :
  wf_store s -> In t (tags s) -> In apk (map article_pk (articles s)) ->
  wf_store (tags_add s apk t)
  /\ articles (tags_add s apk t) = articles s
  /\ tag_names (tags_add s apk t) apk = add_name (tag_names s apk) (tag_name t).
Proof.
  intros Hwf Ht Ha. unfold tags_add, add_name.
  pose proof (linked_iff_named s apk t Hwf Ht) as Hl.
  destruct (linked s apk (tag_pk t)) eqn:E.
  - assert (Hin : In (tag_name t) (tag_names s apk)) by (apply Hl; reflexivity).
    apply existsb_eqb_in in Hin. rewrite Hin. auto.
  - assert (Hin : existsb (String.eqb (tag_name t)) (tag_names s apk) = false).
    { destruct (existsb _ _) eqn:X; [|reflexivity].
      apply existsb_eqb_in, Hl in X. discriminate. }
    rewrite Hin. split; [|split; [reflexivity|]].
    + constructor; cbn [tags articles article_tags];
        [apply Hwf | apply Hwf |].
      intros a tp Hrow. apply in_app_or in Hrow. destruct Hrow as [Hrow | [Hrow | []]].
      * apply (wf_fk s Hwf). exact Hrow.
      * injection Hrow as <- <-. split; [exact Ha | apply in_map; exact Ht].
    + unfold tag_names at 1. cbn [tags article_tags].
      rewrite flat_map_app. cbn [flat_map fst snd]. rewrite Z.eqb_refl.
      rewrite (filter_key_unique Tag Z tag_pk Z.eqb Z.eqb_eq (tags s) t
                 (wf_tag_pks s Hwf) Ht).
      reflexivity.
Qed.

(** The loop adds the stripped pieces in order, first occurrences only. *)
Lemma add_tags_spec (pieces : list string) (s : Store) (apk : Z) :
  wf_store s -> In apk (map article_pk (articles s)) ->
  exists s',
    add_tags s apk pieces = Ok s'
    /\ wf_store s'
    /\ articles s' = articles s
    /\ tag_names s' apk
       = fold_left add_name (map Py.strip pieces) (tag_names s apk).
Proof.
  revert s. induction pieces as [|p rest IH]; intros s Hwf Ha.
  - exists s. auto.
  - cbn [add_tags map fold_left].
    destruct (get_or_create_spec s (Py.strip p) Hwf)
      as (t & s1 & E & Hname & Ht & Harts & Hwf1 & Hnames).
    rewrite E. cbn [bind fst snd].
    assert (Ha1 : In apk (map article_pk (articles s1))) by (rewrite Harts; exact Ha).
    destruct (tags_add_spec s1 apk t Hwf1 Ht Ha1) as (Hwf2 & Harts2 & Hnames2).
    destruct (IH (tags_add s1 apk t) Hwf2) as (s' & E' & Hwf' & Harts' & Hnames').
    { rewrite Harts2. exact Ha1. }
    exists s'. split; [exact E'|]. split; [exact Hwf'|].
    split; [congruence|].
    rewrite Hnames', Hnames2, Hnames, Hname. reflexivity.
Qed.

Lemma tag_names_ext (s s' : Store) (apk : Z) :
  tags s' = tags s -> article_tags s' = article_tags s ->
  tag_names s' apk = tag_names s apk.
Proof. unfold tag_names. intros -> ->. reflexivity. Qed.

Lemma tag_names_no_rows (s : Store) (apk : Z) :
  (forall tp, ~ In (apk, tp) (article_tags s)) -> tag_names s apk = [].
Proof.
  intros H. destruct (tag_names s apk) as [|n l] eqn:E; [reflexivity|].
  assert (Hn : In n (tag_names s apk)) by (rewrite E; left; reflexivity).
  apply in_tag_names in Hn. destruct Hn as (t & Hrow & _). exfalso. exact (H _ Hrow).
Qed.

Lemma get_article_or_404_ok (s : Store) (k : Z) (a : Article) :
  get_article_or_404 s k = Ok a -> In a (articles s) /\ article_pk a = k.
Proof.
  unfold get_article_or_404. intros H.
  destruct (filter (fun a => article_pk a =? k) (articles s)) as [|x [|y l]] eqn:E;
    try discriminate.
  injection H as ->.
  assert (Ha : In a (filter (fun a => article_pk a =? k) (articles s)))
    by (rewrite E; left; reflexivity).
  apply filter_In in Ha. destruct Ha as [Ha Hk]. apply Z.eqb_eq in Hk. auto.
Qed.

Lemma save_new_spec (s : Store) (form : ArticleForm) (now : Z) :
  wf_store s ->
  let pk := fresh_pk (map article_pk (articles s)) in
  article_pk (fst (save_new s form now)) = pk
  /\ wf_store (snd (save_new s form now))
  /\ In pk (map article_pk (articles (snd (save_new s form now))))
  /\ tag_names (snd (save_new s form now)) pk = [].
Proof.
  intros Hwf pk. cbn [save_new fst snd article_pk].
  split; [reflexivity|]. split; [|split].
  - constructor; cbn [tags articles article_tags]; [apply Hwf | apply Hwf |].
    intros a t Hrow. destruct (wf_fk s Hwf a t Hrow) as [Ha Ht].
    split; [|exact Ht]. rewrite map_app. apply in_or_app. left. exact Ha.
  - cbn [articles]. rewrite map_app. apply in_or_app. right. left. reflexivity.
  - apply tag_names_no_rows. cbn [article_tags]. intros tp Hrow.
    destruct (wf_fk s Hwf _ _ Hrow) as [Ha _].
    exact (fresh_pk_not_in _ Ha).
Qed.

Lemma tags_clear_spec (s : Store) (apk : Z) :
  wf_store s ->
  wf_store (tags_clear s apk)
  /\ articles (tags_clear s apk) = articles s
  /\ tag_names (tags_clear s apk) apk = [].
Proof.
  intros Hwf. split; [|split; [reflexivity|]].
  - constructor; cbn [tags_clear tags articles article_tags]; [apply Hwf | apply Hwf |].
    intros a t Hrow. apply filter_In in Hrow. destruct Hrow as [Hrow _].
    apply (wf_fk s Hwf). exact Hrow.
  - apply tag_names_no_rows. cbn [tags_clear article_tags]. intros tp Hrow.
    apply filter_In in Hrow. destruct Hrow as [_ Hne]. cbn [fst] in Hne.
    rewrite Z.eqb_refl in Hne. discriminate.
Qed.

Lemma save_instance_spec (s : Store) (a : Article) (form : ArticleForm) (now : Z) :
  wf_store s -> In a (articles s) ->
  article_pk (fst (save_instance s a form now)) = article_pk a
  /\ wf_store (snd (save_instance s a form now))
  /\ In (article_pk a) (map article_pk (articles (snd (save_instance s a form now))))
  /\ tag_names (snd (save_instance s a form now)) (article_pk a)
     = tag_names s (article_pk a).
Proof.
  intros Hwf Ha. cbn [save_instance fst snd article_pk].
  assert (Hpks : forall a' l,
             article_pk a' = article_pk a ->
             map article_pk (map (fun b => if article_pk b =? article_pk a then a' else b) l)
             = map article_pk l).
  { intros a' l Ea'. induction l as [|b l IH]; [reflexivity|].
    cbn [map]. rewrite IH. f_equal.
    destruct (article_pk b =? article_pk a) eqn:E; [|reflexivity].
    apply Z.eqb_eq in E. congruence. }
  split; [reflexivity|]. split; [|split].
  - constructor; cbn [tags articles article_tags]; [apply Hwf | apply Hwf |].
    intros a0 t Hrow. rewrite Hpks by reflexivity. apply (wf_fk s Hwf). exact Hrow.
  - cbn [articles]. rewrite Hpks by reflexivity. apply in_map. exact Ha.
  - apply tag_names_ext; reflexivity.
Qed.

(** C1, as the code has it: on create the tag string is split on commas and
    each piece stripped; a tag is got or created and added for every piece,
    the empty ones too.  The article's tag names are the stripped pieces,
    each once; for ["a, b ,, b"] they are "a", "b" and the empty name. *)
Theorem C1_create_tags (s : Store) (form : ArticleForm) (tags : string) (now : Z) :
  wf_store s ->
  exists s',
    let pk := fresh_pk (map article_pk (articles s)) in
    create_form_valid s form (Some tags) now = Ok (s', pk)
    /\ tag_names s' pk = parsed_tag_names tags
    /\ NoDup (tag_names s' pk)
    /\ (forall n, In n (tag_names s' pk) <-> In n (map Py.strip (Py.split "," tags)))
    /\ (tags = "a, b ,, b" -> tag_names s' pk = ["a"; "b"; ""]).
Proof.
  intros Hwf.
  destruct (save_new_spec s form now Hwf) as (Hpk & Hwf1 & Hin1 & Hnone).
  unfold create_form_valid.
  destruct (save_new s form now) as [object s1] eqn:Es. cbn [fst snd] in *.
  cbn [split_tags bind]. rewrite Hpk.
  destruct (add_tags_spec (Py.split "," tags) s1 _ Hwf1 Hin1)
    as (s' & E & _ & _ & Hnames).
  rewrite Hnone in Hnames.
  exists s'. cbn zeta. rewrite E. cbn [bind].
  destruct (parsed_tag_names_spec tags) as [Hnd Hiff].
  split; [reflexivity|]. split; [exact Hnames|].
  fold (parsed_tag_names tags) in Hnames. rewrite Hnames.
  split; [exact Hnd|]. split; [exact Hiff|].
  intros ->. reflexivity.
Qed.

Lemma wf_store0 : wf_store store0.
Proof.
  constructor; cbn; [constructor | constructor | intros a t []].
Defined.

Lemma C1_witness :
  exists s',
    create_form_valid store0 form0 (Some "a, b ,, b") 0 = Ok (s', 1)
    /\ tag_names s' 1 = ["a"; "b"; ""].
Proof.
  destruct (C1_create_tags store0 form0 "a, b ,, b" 0 wf_store0)
    as (s' & H1 & _ & _ & _ & H5).
  exists s'. split; [exact H1 | exact (H5 eq_refl)].
Defined.

(** C1, as the spec has it, fails: the empty piece of ["a, b ,, b"] is not
    skipped; the tag with the empty name is created and the article gets
    three tags. *)
Lemma C1_counterexample :
  let s' := mkStore [mkArticle 1 "title" "text" "ann" 0 0]
                    [mkTag 1 "a"; mkTag 2 "b"; mkTag 3 ""] []
                    [(1, 1); (1, 2); (1, 3)] in
  create_form_valid store0 form0 (Some "a, b ,, b") 0 = Ok (s', 1)
  /\ tag_names s' 1 = ["a"; "b"; ""]
  /\ In (mkTag 3 "") (tags s')
  /\ ~ Permutation (tag_names s' 1) ["a"; "b"].
Proof.
  cbn zeta. split; [reflexivity|]. split; [reflexivity|].
  split; [right; right; left; reflexivity|].
  intros H. apply Permutation_length in H. discriminate.
Qed.

(** C8: on update the article's tags are cleared first, so afterwards its
    tag names are the stripped pieces of the new tag string, each once,
    whatever they were before; after an update with ["z"] they are "z"
    alone. *)
Theorem C8_update_replaces_tags (s : Store) (pk : Z) (a : Article)
  (form : ArticleForm) (tags : string) (now : Z) :
  wf_store s -> get_article_or_404 s pk = Ok a ->
  exists s',
    update_form_valid s pk form (Some tags) now = Ok (s', pk)
    /\ tag_names s' pk = parsed_tag_names tags
    /\ (forall n, In n (tag_names s' pk) <-> In n (map Py.strip (Py.split "," tags)))
    /\ (tags = "z" -> tag_names s' pk = ["z"]).
Proof.
  intros Hwf Hget. unfold update_form_valid. rewrite Hget. cbn [bind].
  apply get_article_or_404_ok in Hget. destruct Hget as [Ha Hpk]. subst pk.
  destruct (tags_clear_spec s (article_pk a) Hwf) as (Hwf1 & Harts1 & Hnone).
  assert (Ha1 : In a (articles (tags_clear s (article_pk a))))
    by (rewrite Harts1; exact Ha).
  destruct (save_instance_spec _ a form now Hwf1 Ha1) as (Hobj & Hwf2 & Hin2 & Hnames2).
  destruct (save_instance (tags_clear s (article_pk a)) a form now) as [object s2].
  cbn [fst snd] in *. cbn [split_tags bind]. rewrite Hobj.
  destruct (add_tags_spec (Py.split "," tags) s2 _ Hwf2 Hin2)
    as (s' & E & _ & _ & Hnames).
  rewrite Hnames2, Hnone in Hnames. fold (parsed_tag_names tags) in Hnames.
  exists s'. rewrite E. cbn [bind].
  destruct (parsed_tag_names_spec tags) as [_ Hiff].
  split; [reflexivity|]. split; [exact Hnames|]. rewrite Hnames.
  split; [exact Hiff|]. intros ->. reflexivity.
Qed.

Lemma wf_store_xy : wf_store store_xy.
Proof.
  constructor; cbn.
  - constructor; [intros [H | []]; discriminate|].
    constructor; [intros []|constructor].
  - constructor; [intros [H | []]; discriminate|].
    constructor; [intros []|constructor].
  - intros a t [H | [H | []]]; injection H as <- <-; auto.
Defined.

Lemma C8_witness :
  tag_names store_xy 1 = ["x"; "y"]
  /\ exists s',
       update_form_valid store_xy 1 form0 (Some "z") 11 = Ok (s', 1)
       /\ tag_names s' 1 = ["z"].
Proof.
  split; [reflexivity|].
  destruct (C8_update_replaces_tags store_xy 1 (art 1 "title" "text" "ann" 10)
              form0 "z" 11 wf_store_xy eq_refl) as (s' & H1 & _ & _ & H4).
  exists s'. split; [exact H1 | exact (H4 eq_refl)].
Defined.

(** ** The search on examples *)

Lemma C7_witness :
  matches store_foo (get_text_query d_title_foo "foo") (art 1 "SeaFOOd" "fish" "ann" 10)
  /\ ~ matches store_foo (get_text_query d_title_foo "foo") (art 2 "bar" "a foo b" "bob" 20).
Proof.
  pose proof (proj2 (proj2 (C7_text_predicate store_foo d_title_foo "foo" eq_refl))
                eq_refl eq_refl eq_refl eq_refl) as H.
  split.
  - apply H. reflexivity.
  - intros M. apply H in M. discriminate.
Defined.

Example search_title_only :
  map article_pk (search_form_valid store_foo d_title_foo) = [1].
Proof. reflexivity. Qed.

Example search_text_and_author :
  map article_pk (search_form_valid store_foo d_foo_ann) = [1].
Proof. reflexivity. Qed.

(** Two comments of article 3 hold "foo": the join selects the article
    twice, and [distinct] keeps it once. *)
Example search_comments_distinct :
  map article_pk
      (execute store_foo (filter_q (search_query d_comment_foo) all)) = [2; 3; 3]
  /\ map article_pk (search_form_valid store_foo d_comment_foo) = [2; 3].
Proof. split; reflexivity. Qed.

(** The conjunction is read on one joined row: article 3 has a comment with
    "bar" and a comment by "bob", but they are two comments, so the search
    for both in the comments does not return it. *)
Example search_same_comment :
  matches store_foo (get_text_query d_bar_bob "bar") (art 3 "zzz" "yyy" "cy" 30)
  /\ matches store_foo (get_author_query d_bar_bob "bob") (art 3 "zzz" "yyy" "cy" 30)
  /\ search_form_valid store_foo d_bar_bob = [].
Proof.
  split; [|split].
  - exists (mkRow (art 3 "zzz" "yyy" "cy" 30) None (Some (mkComment 4 3 "cy" "bar" 33))).
    split; [|reflexivity]. cbn. auto.
  - exists (mkRow (art 3 "zzz" "yyy" "cy" 30) None (Some (mkComment 3 3 "bob" "foo two" 32))).
    split; [|reflexivity]. cbn. auto.
  - reflexivity.
Qed.

Example update_replaces_xy :
  option_map (fun r => tag_names (fst r) 1)
             (match update_form_valid store_xy 1 form0 (Some "z") 11 with
              | Ok r => Some r
              | Raise _ => None
              end)
  = Some ["z"].
Proof. reflexivity. Qed.

(** ** The paginator on examples *)

Example num_pages_ex :
  map (fun c => Paginator.num_pages c paginate_by paginate_orphans)
      [0; 1; 5; 6; 7; 10; 11; 12]
  = [1; 1; 1; 1; 2; 2; 2; 3].
Proof. reflexivity. Qed.

Example seven_items_two_pages :
  let l := (articles store6 ++ [art 7 "seven" "" "cy" 5])%list in
  option_map (fun p => map article_pk (Paginator.object_list p))
             (match Paginator.page l paginate_by paginate_orphans 2 with
              | Ok p => Some p
              | Raise _ => None
              end)
  = Some [6; 7]
  /\ Paginator.page l paginate_by paginate_orphans 3 = Raise Http404.
Proof. split; reflexivity. Qed.

(** * Further properties of the views *)

(** ** Validation of the advanced search *)

(** X1: [clean] accepts the data exactly when the text or the author is
    filled in, a filled-in text has one of its four scopes and a filled-in
    author has one of its two scopes; what it returns is the data it was
    given. *)
Theorem X1_clean_accepts_iff (d : CleanedData) :
  (clean d = Cleaned d
   <-> (Py.truthy_opt (cd_text d) = true \/ Py.truthy_opt (cd_author d) = true)
       /\ (Py.truthy_opt (cd_text d) = true ->
           in_title d || in_text d || in_tags d || in_comment_text d = true)
       /\ (Py.truthy_opt (cd_author d) = true ->
           article_author d || comment_author d = true))
  /\ (forall d', clean d = Cleaned d' -> d' = d).
Proof.
  split; [|intros d'; apply clean_returns_input].
  rewrite clean_cases. unfold text_scope_missing, author_scope_missing.
  destruct (Py.truthy_opt (cd_text d)), (Py.truthy_opt (cd_author d)),
    (in_title d), (in_text d), (in_tags d), (in_comment_text d),
    (article_author d), (comment_author d); cbn;
    (split; [intros H; try discriminate; repeat split; auto
            | intros (H1 & H2 & H3); try reflexivity;
              try (destruct H1; discriminate);
              try (specialize (H2 eq_refl); discriminate);
              try (specialize (H3 eq_refl); discriminate)]).
Qed.

Lemma X1_witness : clean d_foo_ann = Cleaned d_foo_ann.
Proof.
  apply (proj2 (proj1 (X1_clean_accepts_iff d_foo_ann))).
  split; [left; reflexivity|]. split; intros _; reflexivity.
Defined.

(** ** The author query and the conjunction *)

Lemma joined_tags_some (s : Store) (q : Q) (a : Article) (g : Tag) :
  In (Some g) (joined_tags s q a) -> In g (tags_join s a).
Proof.
  unfold joined_tags. destruct (refers lookup_on_tags q).
  - apply in_null_pad_some.
  - intros [H | []]. discriminate.
Qed.

Lemma joined_comments_some (s : Store) (q : Q) (a : Article) (c : Comment) :
  In (Some c) (joined_comments s q a) -> In c (comments_join s a).
Proof.
  unfold joined_comments. destruct (refers lookup_on_comments q).
  - apply in_null_pad_some.
  - intros [H | []]. discriminate.
Qed.

Lemma author_query_refers_comments (d : CleanedData) (a : string) :
  refers lookup_on_comments (get_author_query d a) = comment_author d.
Proof.
  unfold get_author_query.
  destruct (article_author d), (comment_author d); reflexivity.
Qed.

(** A row that passes the text predicate shows that the article matches
    the text, whatever query joined the row. *)
Lemma text_predicate_row (s : Store) (q : Q) (d : CleanedData) (t : string)
  (x : Article) (r : Row) :
  In r (rows s q x) -> text_predicate d t r = true -> text_matches s d t x.
Proof.
  intros Hr Hp. apply in_rows in Hr. destruct Hr as (Ea & Ht & Hc).
  unfold text_predicate in Hp. rewrite Ea in Hp.
  rewrite !orb_true_iff, !andb_true_iff in Hp. unfold text_matches.
  destruct Hp as [[[H | H] | [Hs H]] | [Hs H]]; auto.
  - right. right. left. split; [exact Hs|].
    unfold on_tag in H. destruct (r_tag r) as [g|]; [|discriminate].
    exists g. split; [|exact H]. apply (joined_tags_some s q). exact Ht.
  - right. right. right. split; [exact Hs|].
    unfold on_comment in H. destruct (r_comment r) as [c|]; [|discriminate].
    exists c. split; [|exact H]. apply (joined_comments_some s q). exact Hc.
Qed.

Lemma author_predicate_row (s : Store) (q : Q) (d : CleanedData) (a : string)
  (x : Article) (r : Row) :
  In r (rows s q x) -> author_predicate d a r = true -> author_matches s d a x.
Proof.
  intros Hr Hp. apply in_rows in Hr. destruct Hr as (Ea & _ & Hc).
  unfold author_predicate in Hp. rewrite Ea in Hp.
  rewrite !orb_true_iff, !andb_true_iff in Hp. unfold author_matches.
  destruct Hp as [H | [Hs H]]; auto.
  right. split; [exact Hs|].
  unfold on_comment in H. destruct (r_comment r) as [c|]; [|discriminate].
  exists c. split; [|exact H]. apply (joined_comments_some s q). exact Hc.
Qed.

Lemma author_query_matches (s : Store) (d : CleanedData) (a : string) (x : Article) :
  article_author d || comment_author d = true ->
  matches s (get_author_query d a) x <-> author_matches s d a x.
Proof.
  intros Hsel. destruct (author_query_plain d a Hsel) as [_ He].
  split.
  - intros (r & Hr & Hev). rewrite He in Hev.
    apply (author_predicate_row s _ d a x r Hr Hev).
  - intros H.
    destruct (joined_tags_inhabited s (get_author_query d a) x) as [ot Hot].
    destruct (joined_comments_inhabited s (get_author_query d a) x) as [oc Hoc].
    destruct H as [[Hs H] | [Hs (c & Hc & H)]].
    + exists (mkRow x ot oc). split; [apply in_rows; cbn; auto|].
      rewrite He. unfold author_predicate. cbn. rewrite Hs, H. reflexivity.
    + exists (mkRow x ot (Some c)). split.
      * apply in_rows. cbn. split; [reflexivity|]. split; [exact Hot|].
        unfold joined_comments. rewrite author_query_refers_comments, Hs.
        apply in_null_pad_some. exact Hc.
      * rewrite He. unfold author_predicate, on_comment. cbn. rewrite Hs, H.
        cbn. apply orb_true_r.
Qed.

(** X2: with a scope selected, the query that [get_author_query] builds
    holds on a joined row exactly when the article's author, or the comment's
    author, equals the name without regard to case, for the scopes selected;
    so an article passes exactly when its author does or one of its comments'
    authors does. *)
Theorem X2_author_predicate (s : Store) (d : CleanedData) (a : string) :
  article_author d || comment_author d = true ->
  (forall r, eval (get_author_query d a) r = author_predicate d a r)
  /\ (forall x, matches s (get_author_query d a) x <-> author_matches s d a x).
Proof.
  intros Hsel. split.
  - apply (author_query_plain d a Hsel).
  - intros x. apply author_query_matches. exact Hsel.
Qed.

Lemma X2_witness :
  matches store_foo (get_author_query d_bar_bob "bob") (art 3 "zzz" "yyy" "cy" 30)
  <-> author_matches store_foo d_bar_bob "bob" (art 3 "zzz" "yyy" "cy" 30).
Proof.
  apply (X2_author_predicate store_foo d_bar_bob "bob"). reflexivity.
Defined.

Lemma search_query_both (d : CleanedData) (t a : string) :
  clean d = Cleaned d ->
  cd_text d = Some t -> t <> "" -> cd_author d = Some a -> a <> "" ->
  forall r, eval (search_query d) r = text_predicate d t r && author_predicate d a r.
Proof.
  intros Hv Ht Hnt Ha Hna r.
  pose proof (validated_text_scope d t Hv Ht Hnt) as St.
  apply (text_query_plain d t) in St. destruct St as [Pt Et].
  pose proof (validated_author_scope d a Hv Ha Hna) as Sa.
  apply (author_query_plain d a) in Sa. destruct Sa as [Pa Ea].
  unfold search_query. rewrite Ht, Ha.
  apply truthy_true in Hnt. apply truthy_true in Hna. rewrite Hnt, Hna.
  unfold Q_and at 2. rewrite Q_combine_empty_l by exact Pt.
  unfold Q_and. rewrite (proj2 (Q_combine_plain _ _ AND Pt Pa)), Et, Ea. reflexivity.
Qed.

(** X3: a search on both a text and an author narrows: every article it
    returns is an article of the store that matches the text in one of the
    selected text scopes and matches the author in one of the selected author
    scopes. *)
Theorem X3_both_fields_narrow (s : Store) (d : CleanedData) (t a : string) :
  clean d = Cleaned d ->
  cd_text d = Some t -> t <> "" -> cd_author d = Some a -> a <> "" ->
  forall x, In x (search_form_valid s d) ->
            In x (articles s) /\ text_matches s d t x /\ author_matches s d a x.
Proof.
  intros Hv Ht Hnt Ha Hna x Hx.
  apply search_form_valid_in in Hx. destruct Hx as [Hin (r & Hr & Hev)].
  rewrite (search_query_both d t a Hv Ht Hnt Ha Hna) in Hev.
  apply andb_true_iff in Hev. destruct Hev as [H1 H2].
  split; [exact Hin|]. split.
  - apply (text_predicate_row s _ d t x r Hr H1).
  - apply (author_predicate_row s _ d a x r Hr H2).
Qed.

Lemma X3_witness :
  In (art 1 "SeaFOOd" "fish" "ann" 10) (articles store_foo)
  /\ text_matches store_foo d_foo_ann "foo" (art 1 "SeaFOOd" "fish" "ann" 10)
  /\ author_matches store_foo d_foo_ann "ANN" (art 1 "SeaFOOd" "fish" "ann" 10).
Proof.
  apply (X3_both_fields_narrow store_foo d_foo_ann "foo" "ANN");
    [reflexivity | reflexivity | discriminate | reflexivity | discriminate
    | left; reflexivity].
Defined.

(** ** The search of the list view *)

Lemma eval_search_filter (v : string) (r : Row) :
  eval (search_filter v) r
  = icontains (title (r_article r)) v
    || icontains (author (r_article r)) v
    || on_tag (fun g => iexact (tag_name g) v) r.
Proof.
  cbn [search_filter]. unfold Q_or.
  destruct (Q_combine_plain (Q_kw title__icontains v) (Q_kw author__icontains v) OR
              (Q_kw_plain _ _) (Q_kw_plain _ _)) as [P1 E1].
  destruct (Q_combine_plain _ (Q_kw tags__name__iexact v) OR P1 (Q_kw_plain _ _))
    as [_ E2].
  rewrite E2, E1, !eval_Q_kw. reflexivity.
Qed.

Lemma search_filter_matches (s : Store) (v : string) (x : Article) :
  matches s (search_filter v) x <-> search_matches s v x.
Proof.
  unfold matches, search_matches. split.
  - intros (r & Hr & Hev). rewrite eval_search_filter in Hev.
    apply in_rows in Hr. destruct Hr as (Ea & Ht & _). rewrite Ea in Hev.
    rewrite !orb_true_iff in Hev. destruct Hev as [[H | H] | H]; auto.
    right. right. unfold on_tag in H. destruct (r_tag r) as [g|]; [|discriminate].
    exists g. split; [|exact H]. apply (joined_tags_some s _ _ _ Ht).
  - intros H.
    destruct (joined_tags_inhabited s (search_filter v) x) as [ot Hot].
    destruct (joined_comments_inhabited s (search_filter v) x) as [oc Hoc].
    destruct H as [H | [H | (g & Hg & H)]].
    + exists (mkRow x ot oc). split; [apply in_rows; cbn; auto|].
      rewrite eval_search_filter. cbn. rewrite H. reflexivity.
    + exists (mkRow x ot oc). split; [apply in_rows; cbn; auto|].
      rewrite eval_search_filter. cbn. rewrite H. rewrite orb_true_r. reflexivity.
    + exists (mkRow x (Some g) oc). split.
      * apply in_rows. cbn. split; [reflexivity|]. split; [|exact Hoc].
        apply in_null_pad_some. exact Hg.
      * rewrite eval_search_filter. unfold on_tag. cbn. rewrite H.
        apply orb_true_r.
Qed.

(** X4: with a search string and no tag parameter the list view lists
    exactly the articles whose title or author contains the string, or that
    have a tag whose name equals it, all without regard to case. *)
Theorem X4_list_search (s : Store) (v : string) :
  v <> "" ->
  exists qs,
    get_queryset s (Some v) None = Ok qs
    /\ forall x, In x (execute s qs) <-> In x (articles s) /\ search_matches s v x.
Proof.
  intros Hv. apply truthy_true in Hv.
  exists (filter_q (search_filter v) (order_by created_at_desc all)).
  split; [unfold get_queryset; rewrite Hv; reflexivity|].
  intros x. unfold execute. cbn [filter_q order_by all qs_ordering qs_distinct qs_filters app].
  rewrite in_flat_repeat, in_sort_desc. cbn [multiplicity fold_right].
  rewrite Nat.mul_1_r, hits_pos, search_filter_matches. reflexivity.
Qed.

Lemma X4_witness :
  exists qs,
    get_queryset store_xn (Some "x") None = Ok qs
    /\ forall x, In x (execute store_xn qs)
                 <-> In x (articles store_xn) /\ search_matches store_xn "x" x.
Proof.
  apply (X4_list_search store_xn "x"). discriminate.
Defined.

Lemma count_occ_flat_repeat (m : Article -> nat) (l : list Article) (x : Article) :
  count_occ Article_eq_dec (flat_map (fun a => repeat a (m a)) l) x
  = (count_occ Article_eq_dec l x * m x)%nat.
Proof.
  induction l as [|a l IH]; [reflexivity|].
  cbn [flat_map]. rewrite count_occ_app, IH. cbn [count_occ].
  destruct (Article_eq_dec a x) as [-> | Hne].
  - rewrite count_occ_repeat_eq by reflexivity. lia.
  - rewrite count_occ_repeat_neq by congruence. lia.
Qed.

Lemma search_filter_rows (s : Store) (v : string) (x : Article) :
  rows s (search_filter v) x = map (fun t => mkRow x t None) (null_pad (tags_join s x)).
Proof.
  unfold rows.
  change (joined_comments s (search_filter v) x) with [@None Comment].
  change (joined_tags s (search_filter v) x) with (null_pad (tags_join s x)).
  induction (null_pad (tags_join s x)) as [|t l IH]; [reflexivity|].
  cbn [flat_map map app]. f_equal; exact IH.
Qed.

(** X5: the query set that the list view builds for a search does not ask
    for distinct rows.  An article whose title contains the search string is
    listed once for each of its tags: with [n >= 1] tags it appears [n] times
    in the listing. *)
Theorem X5_list_search_repeats (s : Store) (v : string) (x : Article) :
  v <> "" ->
  NoDup (articles s) -> In x (articles s) ->
  icontains (title x) v = true -> tags_join s x <> [] ->
  exists qs,
    get_queryset s (Some v) None = Ok qs
    /\ qs_distinct qs = false
    /\ count_occ Article_eq_dec (execute s qs) x = List.length (tags_join s x).
Proof.
  intros Hv Hnd Hin Ht Htags. apply truthy_true in Hv.
  exists (filter_q (search_filter v) (order_by created_at_desc all)).
  split; [unfold get_queryset; rewrite Hv; reflexivity|].
  split; [reflexivity|].
  unfold execute.
  cbn [filter_q order_by all qs_ordering qs_distinct qs_filters app].
  rewrite count_occ_flat_repeat.
  rewrite (proj1 (Permutation_count_occ Article_eq_dec _ _) (sort_desc_perm (articles s)) x).
  rewrite (proj1 (NoDup_count_occ' Article_eq_dec (articles s)) Hnd x Hin).
  cbn [multiplicity fold_right]. unfold hits. rewrite search_filter_rows.
  rewrite Nat.mul_1_l, Nat.mul_1_r.
  assert (E : filter (eval (search_filter v))
                     (map (fun t => mkRow x t None) (null_pad (tags_join s x)))
              = map (fun t => mkRow x t None) (null_pad (tags_join s x))).
  { induction (null_pad (tags_join s x)) as [|t l IH]; [reflexivity|].
    cbn [map filter]. rewrite eval_search_filter. cbn [r_article]. rewrite Ht.
    cbn [orb]. rewrite IH. reflexivity. }
  rewrite E, length_map.
  destruct (tags_join s x) as [|g l]; [contradiction|].
  cbn [null_pad]. apply length_map.
Qed.

Lemma X5_witness :
  exists qs,
    get_queryset store_two_tags (Some "x") None = Ok qs
    /\ qs_distinct qs = false
    /\ count_occ Article_eq_dec (execute store_two_tags qs) (art 1 "x-ray" "" "ann" 10)
       = 2%nat.
Proof.
  apply (X5_list_search_repeats store_two_tags "x" (art 1 "x-ray" "" "ann" 10)).
  - discriminate.
  - constructor; [intros [H | []]; discriminate|].
    constructor; [intros []|constructor].
  - left. reflexivity.
  - reflexivity.
  - discriminate.
Defined.

(** X6: a search string that the search form rejects (more than 100
    characters once stripped) switches both filters off: whatever the tag
    parameter, no tag is looked up and the listing is all the articles, newest
    first. *)
Theorem X6_invalid_search_lists_all (s : Store) (req : Request) (v : string) :
  GET_search req = Some v -> 100 < Py.len (Py.strip v) ->
  get_search_query (get_search_form req) = None
  /\ get_tag_query (get_search_form req) req = None
  /\ exists qs,
       get_queryset s (get_search_query (get_search_form req))
                    (get_tag_query (get_search_form req) req) = Ok qs
       /\ execute s qs = sort_desc (articles s).
Proof.
  intros Hs Hlen.
  assert (Hinv : SimpleSearchForm_is_valid (get_search_form req) = false).
  { unfold SimpleSearchForm_is_valid, SimpleSearchForm_cleaned_search, get_search_form,
      CharField_clean. cbn [search]. rewrite Hs.
    assert (Ht : Py.truthy (Py.strip v) = true).
    { apply truthy_true. intros E. rewrite E in Hlen. cbn in Hlen. lia. }
    rewrite Ht. apply Z.ltb_lt in Hlen. rewrite Hlen. reflexivity. }
  unfold get_search_query, get_tag_query. rewrite Hinv.
  split; [reflexivity|]. split; [reflexivity|].
  exists (order_by created_at_desc all). split; [reflexivity|].
  apply execute_no_filter.
Qed.

Lemma X6_witness :
  exists qs,
    get_queryset store6 (get_search_query (get_search_form req_long_search))
                 (get_tag_query (get_search_form req_long_search) req_long_search)
    = Ok qs
    /\ execute store6 qs = sort_desc (articles store6).
Proof.
  apply (X6_invalid_search_lists_all store6 req_long_search (Py.repeat_str "x" 101));
    [reflexivity | vm_compute; reflexivity].
Defined.

(** ** Pages *)

Lemma pages_bounds (count per_page orphans : Z) :
  0 < per_page -> 0 <= orphans -> 0 <= count ->
  let pages := Paginator.num_pages count per_page orphans in
  1 <= pages
  /\ (forall n, 1 <= n < pages -> per_page * n + orphans < count)
  /\ count <= per_page * pages + orphans
  /\ per_page * (pages - 1) <= count.
Proof.
  intros Hp Ho Hc pages.
  pose proof (num_pages_bounds count per_page orphans Hp) as B.
  cbn zeta in B. fold pages in B.
  assert (H1 : 1 <= pages) by nia.
  split; [exact H1|]. split; [|split].
  - intros n Hn.
    assert (per_page * n <= per_page * (pages - 1)) by nia.
    destruct (Z.max_spec 1 (count - orphans)) as [[_ E] | [_ E]]; rewrite E in B; nia.
  - lia.
  - destruct (Z.max_spec 1 (count - orphans)) as [[_ E] | [_ E]]; rewrite E in B; nia.
Qed.

Lemma chunks {A : Type} (p k : nat) (l : list A) :
  (List.concat (map (fun i => firstn p (skipn (i * p) l)) (seq 0 k)) ++ skipn (k * p) l)%list
  = l.
Proof.
  induction k as [|k IH]; [reflexivity|].
  rewrite seq_S, map_app, concat_app. cbn [map List.concat Nat.add].
  rewrite app_nil_r, <- app_assoc.
  replace (S k * p)%nat with (p + k * p)%nat by lia.
  rewrite <- skipn_skipn, firstn_skipn. exact IH.
Qed.

Lemma page_at_inner {A : Type} (l : list A) (per_page orphans : Z) (i : nat) :
  0 < per_page -> 0 <= orphans ->
  (S i < Z.to_nat (Paginator.num_pages (Z.of_nat (List.length l)) per_page orphans))%nat ->
  Pages.object_list (Pages.page_at l per_page orphans (Z.of_nat (S i)))
  = firstn (Z.to_nat per_page) (skipn (i * Z.to_nat per_page) l).
Proof.
  intros Hp Ho Hi.
  destruct (pages_bounds (Z.of_nat (List.length l)) per_page orphans Hp Ho
              ltac:(lia)) as (_ & Hin & _ & _).
  specialize (Hin (Z.of_nat (S i)) ltac:(lia)).
  unfold Pages.page_at. cbn [Pages.object_list].
  replace (Z.of_nat (List.length l) <=? (Z.of_nat (S i) - 1) * per_page + per_page + orphans)
    with false by (symmetry; apply Z.leb_gt; nia).
  unfold Paginator.slice. f_equal.
  - f_equal. lia.
  - f_equal. apply Nat2Z.inj. rewrite Z2Nat.id by nia.
    rewrite Nat2Z.inj_mul, Z2Nat.id by lia. lia.
Qed.

Lemma page_at_last {A : Type} (l : list A) (per_page orphans : Z) (k : nat) :
  0 < per_page -> 0 <= orphans ->
  Z.to_nat (Paginator.num_pages (Z.of_nat (List.length l)) per_page orphans) = S k ->
  Pages.object_list (Pages.page_at l per_page orphans (Z.of_nat (S k)))
  = skipn (k * Z.to_nat per_page) l.
Proof.
  intros Hp Ho Hk.
  destruct (pages_bounds (Z.of_nat (List.length l)) per_page orphans Hp Ho
              ltac:(lia)) as (H1 & _ & Hlast & Hbot).
  set (pages := Paginator.num_pages (Z.of_nat (List.length l)) per_page orphans) in *.
  assert (E : Z.of_nat (S k) = pages) by lia.
  unfold Pages.page_at. cbn [Pages.object_list]. rewrite E.
  replace (Z.of_nat (List.length l) <=? (pages - 1) * per_page + per_page + orphans)
    with true by (symmetry; apply Z.leb_le; nia).
  unfold Paginator.slice.
  assert (Eb : Z.to_nat ((pages - 1) * per_page) = (k * Z.to_nat per_page)%nat).
  { apply Nat2Z.inj. rewrite Z2Nat.id by nia.
    rewrite Nat2Z.inj_mul, Z2Nat.id by lia. nia. }
  rewrite Eb. apply firstn_all2. rewrite length_skipn. nia.
Qed.

Lemma pages_partition {A : Type} (l : list A) (per_page orphans : Z) :
  0 < per_page -> 0 <= orphans -> List.concat (all_pages l per_page orphans) = l.
Proof.
  intros Hp Ho. unfold all_pages.
  destruct (pages_bounds (Z.of_nat (List.length l)) per_page orphans Hp Ho
              ltac:(lia)) as (H1 & _).
  destruct (Z.to_nat (Paginator.num_pages (Z.of_nat (List.length l)) per_page orphans))
    as [|k] eqn:Ek; [lia|].
  rewrite seq_S, map_app, concat_app. cbn [map List.concat Nat.add].
  rewrite app_nil_r, (page_at_last l per_page orphans k Hp Ho Ek).
  rewrite <- seq_shift, map_map.
  rewrite (map_ext_in _ (fun i => firstn (Z.to_nat per_page)
                                         (skipn (i * Z.to_nat per_page) l))).
  - apply chunks.
  - intros i Hi. apply in_seq in Hi.
    apply page_at_inner; [exact Hp | exact Ho | lia].
Qed.

(** X7: the pages of the list view cut the listing into consecutive pieces:
    the pages [1..num_pages] put end to end are the listing itself, so every
    listed article is on exactly one page; and [Paginator.page] returns page
    [n] for each [n] from 1 to [num_pages]. *)
Theorem X7_list_pages_partition (l : list Article) :
  List.concat (all_pages l paginate_by paginate_orphans) = l
  /\ forall n,
       1 <= n <= Paginator.num_pages (Z.of_nat (List.length l)) paginate_by paginate_orphans ->
       Paginator.page l paginate_by paginate_orphans n
       = Ok (Paginator.mkPage
               (Pages.object_list (Pages.page_at l paginate_by paginate_orphans n)) n
               (Paginator.num_pages (Z.of_nat (List.length l)) paginate_by
                                    paginate_orphans)).
Proof.
  split.
  - apply pages_partition; unfold paginate_by, paginate_orphans; lia.
  - intros n Hn. unfold Paginator.page.
    replace (n <? 1) with false by (symmetry; apply Z.ltb_ge; lia).
    replace (Paginator.num_pages (Z.of_nat (List.length l)) paginate_by paginate_orphans <? n)
      with false by (symmetry; apply Z.ltb_ge; lia).
    reflexivity.
Qed.

Lemma X7_witness :
  Paginator.page (articles store6) paginate_by paginate_orphans 1
  = Ok (Paginator.mkPage
          (Pages.object_list (Pages.page_at (articles store6) paginate_by paginate_orphans 1))
          1 1).
Proof.
  apply (proj2 (X7_list_pages_partition (articles store6)) 1). vm_compute.
  split; intros H; discriminate.
Defined.

(** ** The comments of the detail view *)

Lemma insert_comment_desc_perm (c : Comment) (l : list Comment) :
  Permutation (insert_comment_desc c l) (c :: l).
Proof.
  induction l as [|b r IH]; cbn [insert_comment_desc].
  - apply Permutation_refl.
  - destruct (comment_created_at b <? comment_created_at c).
    + apply Permutation_refl.
    + apply perm_trans with (b :: c :: r); [apply perm_skip; exact IH | apply perm_swap].
Qed.

Lemma comments_newest_first_perm (s : Store) (a : Article) :
  Permutation (comments_newest_first s a) (comments_join s a).
Proof.
  unfold comments_newest_first.
  induction (comments_join s a) as [|c l IH]; cbn [fold_right].
  - apply perm_nil.
  - apply perm_trans with (c :: fold_right insert_comment_desc [] l).
    + apply insert_comment_desc_perm.
    + apply perm_skip. exact IH.
Qed.

Lemma insert_comment_desc_sorted (c : Comment) (l : list Comment) :
  comments_sorted l -> comments_sorted (insert_comment_desc c l).
Proof.
  unfold comments_sorted.
  induction l as [|b r IH]; intros H; cbn [insert_comment_desc].
  - constructor; constructor.
  - inversion H as [|? ? Hr Hb]; subst.
    destruct (comment_created_at b <? comment_created_at c) eqn:E.
    + apply Z.ltb_lt in E. constructor; [exact H|].
      constructor; [lia|].
      rewrite Forall_forall in Hb |- *. intros x Hx.
      specialize (Hb x Hx). cbn in Hb. lia.
    + apply Z.ltb_ge in E. constructor; [apply IH; exact Hr|].
      rewrite Forall_forall in Hb |- *. intros x Hx.
      apply (Permutation_in _ (insert_comment_desc_perm c r)) in Hx.
      destruct Hx as [<- | Hx]; [exact E | apply Hb; exact Hx].
Qed.

Lemma comments_newest_first_sorted (s : Store) (a : Article) :
  comments_sorted (comments_newest_first s a).
Proof.
  unfold comments_newest_first.
  induction (comments_join s a) as [|c l IH]; cbn [fold_right].
  - constructor.
  - apply insert_comment_desc_sorted. exact IH.
Qed.

Lemma get_page_number {A : Type} (l : list A) (per_page orphans : Z) (n : option Z) :
  0 < per_page -> 0 <= orphans ->
  let pages := Paginator.num_pages (Z.of_nat (List.length l)) per_page orphans in
  Pages.get_page l per_page orphans n
  = Pages.page_at l per_page orphans
      (match n with
       | None => 1
       | Some k => if (1 <=? k) && (k <=? pages) then k else pages
       end)
  /\ 1 <= Pages.number (Pages.get_page l per_page orphans n) <= pages.
Proof.
  intros Hp Ho pages.
  destruct (pages_bounds (Z.of_nat (List.length l)) per_page orphans Hp Ho
              ltac:(lia)) as (H1 & _).
  fold pages in H1.
  unfold Pages.get_page, Pages.validate_number. fold pages.
  destruct n as [k|]; [|cbn; split; [reflexivity | lia]].
  destruct (k <? 1) eqn:E1.
  - apply Z.ltb_lt in E1.
    replace (1 <=? k) with false by (symmetry; apply Z.leb_gt; lia).
    cbn. split; [reflexivity | lia].
  - apply Z.ltb_ge in E1.
    replace (1 <=? k) with true by (symmetry; apply Z.leb_le; lia).
    destruct (pages <? k) eqn:E2.
    + apply Z.ltb_lt in E2.
      replace (k =? 1) with false by (symmetry; apply Z.eqb_neq; lia).
      replace (k <=? pages) with false by (symmetry; apply Z.leb_gt; lia).
      cbn. split; [reflexivity | lia].
    + apply Z.ltb_ge in E2.
      replace (k <=? pages) with true by (symmetry; apply Z.leb_le; lia).
      cbn. split; [reflexivity | lia].
Qed.

(** X8: for an existing article the detail view answers whatever the page
    parameter is: a parameter that is not an integer gives the first page of
    comments, a number below 1 or beyond the last page gives the last page,
    and a number in range gives that page. *)
Theorem X8_detail_page_fallback (s : Store) (pk : Z) (a : Article)
  (raw_page : option string) :
  get_article_or_404 s pk = Ok a ->
  let comments := comments_newest_first s a in
  let pages := Paginator.num_pages (Z.of_nat (List.length comments)) 3 0 in
  exists ctx,
    article_context s pk raw_page = Ok ctx
    /\ ctx_article ctx = a
    /\ Pages.number (ctx_page_obj ctx)
       = match raw_page with
         | None => 1
         | Some p =>
             match Py.int p with
             | None => 1
             | Some k => if (1 <=? k) && (k <=? pages) then k else pages
             end
         end
    /\ 1 <= Pages.number (ctx_page_obj ctx) <= pages
    /\ ctx_comments ctx
       = Pages.object_list
           (Pages.page_at comments 3 0 (Pages.number (ctx_page_obj ctx))).
Proof.
  intros Hget comments pages.
  unfold article_context. rewrite Hget. cbn [bind].
  unfold paginate_comments_to_context. fold comments.
  eexists. split; [reflexivity|].
  cbn [ctx_article ctx_page_obj ctx_comments].
  destruct (get_page_number comments 3 0 (comment_page_number raw_page)
              ltac:(lia) ltac:(lia)) as [E Hn].
  fold pages in E, Hn.
  split; [reflexivity|]. split; [|split; [exact Hn|]].
  - rewrite E. cbn [Pages.page_at Pages.number].
    unfold comment_page_number. destruct raw_page as [p|].
    + destruct (Py.int p); reflexivity.
    + replace (1 <=? pages) with true by (symmetry; apply Z.leb_le; lia).
      reflexivity.
  - reflexivity.
Qed.

Lemma X8_witness :
  (exists ctx,
     article_context store_four_comments 1 (Some "9") = Ok ctx
     /\ Pages.number (ctx_page_obj ctx) = 2
     /\ map comment_pk (ctx_comments ctx) = [1])
  /\ (exists ctx,
        article_context store_four_comments 1
          (Some (String (ascii_of_nat 31) "2")) = Ok ctx
        /\ Pages.number (ctx_page_obj ctx) = 1
        /\ map comment_pk (ctx_comments ctx) = [4; 3; 2]).
Proof.
  split.
  - destruct (X8_detail_page_fallback store_four_comments 1
                (art 1 "title" "text" "ann" 10) (Some "9") eq_refl)
      as (ctx & H1 & _ & H3 & _ & H5).
    exists ctx. split; [exact H1|]. split; [exact H3|].
    rewrite H5, H3. reflexivity.
  - destruct (X8_detail_page_fallback store_four_comments 1
                (art 1 "title" "text" "ann" 10)
                (Some (String (ascii_of_nat 31) "2")) eq_refl)
      as (ctx & H1 & _ & H3 & _ & H5).
    exists ctx. split; [exact H1|]. split; [exact H3|].
    rewrite H5, H3. reflexivity.
Defined.

Lemma page_at_length {A : Type} (l : list A) (per_page orphans k : Z) :
  0 < per_page -> 0 <= orphans ->
  let count := Z.of_nat (List.length l) in
  let pages := Paginator.num_pages count per_page orphans in
  1 <= k <= pages ->
  Z.of_nat (List.length (Pages.object_list (Pages.page_at l per_page orphans k)))
  = (if k <? pages then per_page else count - per_page * (pages - 1)).
Proof.
  intros Hp Ho count pages Hk.
  destruct (pages_bounds count per_page orphans Hp Ho ltac:(unfold count; lia))
    as (H1 & Hin & Hlast & Hbot).
  fold pages in H1, Hin, Hlast, Hbot.
  unfold Pages.page_at. cbn [Pages.object_list]. fold count.
  unfold Paginator.slice. rewrite length_firstn, length_skipn. fold count.
  destruct (k <? pages) eqn:E.
  - apply Z.ltb_lt in E. specialize (Hin k ltac:(lia)).
    replace (count <=? (k - 1) * per_page + per_page + orphans)
      with false by (symmetry; apply Z.leb_gt; nia).
    unfold count in *. nia.
  - apply Z.ltb_ge in E. assert (k = pages) by lia. subst k.
    replace (count <=? (pages - 1) * per_page + per_page + orphans)
      with true by (symmetry; apply Z.leb_le; nia).
    unfold count in *. nia.
Qed.

(** X9: the comments that the detail view shows are comments of the article
    shown, newest first, three to a page with no orphans: a page before the
    last holds three, the last page holds what is left; the pages put end to
    end are all the comments of the article; and the context says
    [is_paginated] exactly when the article has more than three comments. *)
Theorem X9_detail_comment_pages (s : Store) (pk : Z) (a : Article)
  (raw_page : option string) (ctx : ArticleContext) :
  get_article_or_404 s pk = Ok a ->
  article_context s pk raw_page = Ok ctx ->
  let comments := comments_newest_first s a in
  let count := Z.of_nat (List.length (comments_join s a)) in
  let pages := Paginator.num_pages count 3 0 in
  let n := Pages.number (ctx_page_obj ctx) in
  (forall c, In c (ctx_comments ctx) -> comment_article c = pk)
  /\ comments_sorted (ctx_comments ctx)
  /\ Z.of_nat (List.length (ctx_comments ctx))
     = (if n <? pages then 3 else count - 3 * (pages - 1))
  /\ Z.of_nat (List.length (ctx_comments ctx)) <= 3
  /\ List.concat (all_pages comments 3 0) = comments
  /\ Permutation comments (comments_join s a)
  /\ (ctx_is_paginated ctx = true <-> 3 < count).
Proof.
  intros Hget Hctx comments count pages n.
  pose proof (comments_newest_first_perm s a) as Hperm. fold comments in Hperm.
  assert (Hlen : Z.of_nat (List.length comments) = count).
  { unfold count. rewrite (Permutation_length Hperm). reflexivity. }
  destruct (get_page_number comments 3 0 (comment_page_number raw_page)
              ltac:(lia) ltac:(lia)) as [_ Hn].
  rewrite Hlen in Hn. fold pages in Hn.
  unfold article_context in Hctx. rewrite Hget in Hctx. cbn [bind] in Hctx.
  unfold paginate_comments_to_context in Hctx. fold comments in Hctx.
  set (page := Pages.get_page comments 3 0 (comment_page_number raw_page)) in *.
  set (k := Pages.number page) in *.
  assert (Ep : Pages.object_list page
               = Paginator.slice comments ((k - 1) * 3)
                   (if Z.of_nat (List.length comments) <=? (k - 1) * 3 + 3 + 0
                    then Z.of_nat (List.length comments) else (k - 1) * 3 + 3))
    by reflexivity.
  assert (Epg : Pages.page_num_pages page = pages).
  { unfold page, Pages.get_page. cbn [Pages.page_at Pages.page_num_pages].
    rewrite Hlen. reflexivity. }
  pose proof (page_at_length comments 3 0 k ltac:(lia) ltac:(lia)) as L.
  cbn zeta in L. rewrite Hlen in L. fold pages in L. specialize (L Hn).
  change (Pages.object_list (Pages.page_at comments 3 0 k))
    with (Pages.object_list page) in L.
  assert (Ek : Pages.number page = k) by reflexivity.
  clearbody k. clearbody page.
  injection Hctx as <-. subst n.
  cbn [ctx_comments ctx_page_obj ctx_is_paginated]. rewrite Ek.
  destruct (pages_bounds count 3 0 ltac:(lia) ltac:(lia) ltac:(unfold count; lia))
    as (H1 & Hin & Hlast & Hbot).
  fold pages in H1, Hin, Hlast, Hbot.
  apply get_article_or_404_ok in Hget. destruct Hget as [_ Hpk].
  split; [|split; [|split; [|split; [|split; [|split]]]]].
  - intros c Hc. rewrite Ep in Hc.
    apply in_slice in Hc. apply (Permutation_in _ Hperm) in Hc.
    apply filter_In in Hc. destruct Hc as [_ Hc]. apply Z.eqb_eq in Hc. lia.
  - rewrite Ep. unfold Paginator.slice.
    apply sorted_firstn, sorted_skipn, comments_newest_first_sorted.
  - exact L.
  - rewrite L. destruct (k <? pages); lia.
  - apply pages_partition; lia.
  - exact Hperm.
  - unfold Pages.has_other_pages.
    rewrite Ek, Epg, orb_true_iff, !Z.ltb_lt.
    pose proof (num_pages_bounds count 3 0 ltac:(lia)) as B. cbn zeta in B.
    fold pages in B. split.
    + intros H. assert (2 <= pages) by lia. lia.
    + intros H. assert (2 <= pages) by lia. lia.
Qed.

Lemma X9_witness :
  exists ctx,
    article_context store_four_comments 1 (Some "2") = Ok ctx
    /\ Z.of_nat (List.length (ctx_comments ctx)) = 1
    /\ ctx_is_paginated ctx = true.
Proof.
  eexists. split; [reflexivity|].
  destruct (X9_detail_comment_pages store_four_comments 1 (art 1 "title" "text" "ann" 10)
              (Some "2") _ eq_refl eq_refl) as (_ & _ & L & _ & _ & _ & P).
  split.
  - rewrite L. reflexivity.
  - apply P. reflexivity.
Defined.

(** ** What create and update keep *)

Lemma get_or_create_frame (s : Store) (n : string) (t : Tag) (s' : Store) :
  Tag_get_or_create s n = Ok (t, s') ->
  (tags s' = tags s \/ tags s' = (tags s ++ [t])%list)
  /\ article_tags s' = article_tags s
  /\ comments s' = comments s.
Proof.
  unfold Tag_get_or_create.
  destruct (filter (fun t => String.eqb (tag_name t) n) (tags s)) as [|x [|y l]];
    intros H; try discriminate; injection H as <- <-; cbn; auto.
Qed.

Lemma tags_add_frame (s : Store) (apk : Z) (t : Tag) :
  tags (tags_add s apk t) = tags s
  /\ comments (tags_add s apk t) = comments s
  /\ forall other, other <> apk ->
       tag_names (tags_add s apk t) other = tag_names s other.
Proof.
  unfold tags_add. destruct (linked s apk (tag_pk t)); [auto|].
  split; [reflexivity|]. split; [reflexivity|].
  intros other Hne. unfold tag_names. cbn [tags article_tags].
  rewrite flat_map_app. cbn [flat_map fst snd].
  replace (apk =? other) with false by (symmetry; apply Z.eqb_neq; congruence).
  rewrite !app_nil_r. reflexivity.
Qed.

Lemma add_tags_frame (pieces : list string) (s : Store) (apk : Z) (s' : Store) :
  wf_store s -> In apk (map article_pk (articles s)) ->
  add_tags s apk pieces = Ok s' ->
  (exists new, tags s' = (tags s ++ new)%list)
  /\ comments s' = comments s
  /\ forall other, other <> apk -> tag_names s' other = tag_names s other.
Proof.
  revert s. induction pieces as [|p rest IH]; intros s Hwf Ha H.
  - injection H as <-. split; [exists []; rewrite app_nil_r; reflexivity|]. auto.
  - cbn [add_tags] in H.
    destruct (get_or_create_spec s (Py.strip p) Hwf)
      as (t & s1 & E & _ & Ht & Harts & Hwf1 & Hnames).
    rewrite E in H. cbn [bind fst snd] in H.
    destruct (get_or_create_frame s _ t s1 E) as (Htags1 & _ & Hcom1).
    assert (Ha1 : In apk (map article_pk (articles s1))) by (rewrite Harts; exact Ha).
    destruct (tags_add_spec s1 apk t Hwf1 Ht Ha1) as (Hwf2 & Harts2 & _).
    destruct (tags_add_frame s1 apk t) as (Htags2 & Hcom2 & Hother2).
    destruct (IH (tags_add s1 apk t) Hwf2 ltac:(rewrite Harts2; exact Ha1) H)
      as ((new & Htags') & Hcom' & Hother').
    split; [|split].
    + rewrite Htags', Htags2.
      destruct Htags1 as [-> | ->]; [exists new; reflexivity|].
      exists (t :: new). rewrite <- app_assoc. reflexivity.
    + congruence.
    + intros other Hne. rewrite Hother', Hother2, Hnames by exact Hne. reflexivity.
Qed.

Lemma tags_clear_frame (s : Store) (apk other : Z) :
  other <> apk -> tag_names (tags_clear s apk) other = tag_names s other.
Proof.
  intros Hne. unfold tag_names. cbn [tags_clear tags article_tags].
  induction (article_tags s) as [|[a t] l IH]; [reflexivity|].
  cbn [filter flat_map fst snd].
  destruct (a =? apk) eqn:Ea; cbn [negb flat_map fst snd].
  - apply Z.eqb_eq in Ea. subst a.
    replace (apk =? other) with false by (symmetry; apply Z.eqb_neq; congruence).
    exact IH.
  - rewrite IH. reflexivity.
Qed.

(** What [ArticleCreateView.form_valid] does to the store. *)
Lemma create_form_valid_full (s : Store) (form : ArticleForm) (tags_str : string)
  (now : Z) :
  wf_store s ->
  let pk := fresh_pk (map article_pk (articles s)) in
  let new := mkArticle pk (f_title form) (f_text form) (f_author form) now now in
  exists s',
    create_form_valid s form (Some tags_str) now = Ok (s', pk)
    /\ wf_store s'
    /\ articles s' = (articles s ++ [new])%list
    /\ (exists added, tags s' = (tags s ++ added)%list)
    /\ comments s' = comments s
    /\ tag_names s' pk = parsed_tag_names tags_str
    /\ forall other, other <> pk -> tag_names s' other = tag_names s other.
Proof.
  intros Hwf pk new.
  destruct (save_new_spec s form now Hwf) as (Hpk & Hwf1 & Hin1 & Hnone).
  unfold create_form_valid.
  change (save_new s form now)
    with (new, mkStore (articles s ++ [new]) (tags s) (comments s) (article_tags s)) in *.
  cbn [fst snd] in *. cbn [split_tags bind]. fold pk in Hin1, Hnone.
  change (article_pk new) with pk.
  set (s1 := mkStore (articles s ++ [new]) (tags s) (comments s) (article_tags s)) in *.
  destruct (add_tags_spec (Py.split "," tags_str) s1 pk Hwf1 Hin1)
    as (s' & E & Hwf' & Harts & Hnames).
  destruct (add_tags_frame _ s1 pk s' Hwf1 Hin1 E) as (Htags & Hcom & Hother).
  exists s'. rewrite E. cbn [bind].
  split; [reflexivity|]. split; [exact Hwf'|]. split; [exact Harts|].
  split; [exact Htags|]. split; [exact Hcom|]. split.
  - rewrite Hnames, Hnone. reflexivity.
  - intros other Hne. rewrite (Hother other Hne). reflexivity.
Qed.

(** What [ArticleUpdateView.form_valid] does to the store. *)
Lemma update_form_valid_full (s : Store) (pk : Z) (a : Article) (form : ArticleForm)
  (tags_str : string) (now : Z) :
  wf_store s -> get_article_or_404 s pk = Ok a ->
  let a' := mkArticle pk (f_title form) (f_text form) (f_author form)
                      (created_at a) now in
  exists s',
    update_form_valid s pk form (Some tags_str) now = Ok (s', pk)
    /\ wf_store s'
    /\ articles s' = map (fun b => if article_pk b =? pk then a' else b) (articles s)
    /\ (exists added, tags s' = (tags s ++ added)%list)
    /\ comments s' = comments s
    /\ tag_names s' pk = parsed_tag_names tags_str
    /\ forall other, other <> pk -> tag_names s' other = tag_names s other.
Proof.
  intros Hwf Hget a'. unfold update_form_valid. rewrite Hget. cbn [bind].
  apply get_article_or_404_ok in Hget. destruct Hget as [Ha Hpk].
  destruct (tags_clear_spec s (article_pk a) Hwf) as (Hwf1 & Harts1 & Hnone).
  assert (Ha1 : In a (articles (tags_clear s (article_pk a))))
    by (rewrite Harts1; exact Ha).
  destruct (save_instance_spec _ a form now Hwf1 Ha1) as (Hobj & Hwf2 & Hin2 & Hnames2).
  set (s2 := snd (save_instance (tags_clear s (article_pk a)) a form now)) in *.
  change (save_instance (tags_clear s (article_pk a)) a form now)
    with (mkArticle (article_pk a) (f_title form) (f_text form) (f_author form)
                    (created_at a) now, s2).
  cbn [fst snd article_pk split_tags bind].
  destruct (add_tags_spec (Py.split "," tags_str) s2 _ Hwf2 Hin2)
    as (s' & E & Hwf' & Harts & Hnames).
  destruct (add_tags_frame _ s2 _ s' Hwf2 Hin2 E) as (Htags & Hcom & Hother).
  subst pk. exists s'. rewrite E. cbn [bind].
  split; [reflexivity|]. split; [exact Hwf'|]. split; [exact Harts|].
  split; [exact Htags|]. split; [exact Hcom|]. split.
  - rewrite Hnames, Hnames2, Hnone. reflexivity.
  - intros other Hne. rewrite (Hother other Hne).
    change (tag_names s2 other) with (tag_names (tags_clear s (article_pk a)) other).
    apply tags_clear_frame. exact Hne.
Qed.

(** X10: creating an article gives it a key that no article had, keeps the
    articles that were there, and the article found under the new key holds
    the title, text and author of the form. *)
Theorem X10_create_then_lookup (s : Store) (form : ArticleForm) (tags_str : string)
  (now : Z) :
  wf_store s ->
  exists s' pk b,
    create_form_valid s form (Some tags_str) now = Ok (s', pk)
    /\ ~ In pk (map article_pk (articles s))
    /\ (forall b', In b' (articles s) -> In b' (articles s'))
    /\ get_article_or_404 s' pk = Ok b
    /\ article_pk b = pk /\ title b = f_title form /\ text b = f_text form
    /\ author b = f_author form.
Proof.
  intros Hwf.
  destruct (create_form_valid_full s form tags_str now Hwf)
    as (s' & E & _ & Harts & _).
  exists s', (fresh_pk (map article_pk (articles s))),
    (mkArticle (fresh_pk (map article_pk (articles s)))
               (f_title form) (f_text form) (f_author form) now now).
  split; [exact E|]. split; [apply fresh_pk_not_in|]. split; [|split].
  - intros b Hb. rewrite Harts. apply in_or_app. left. exact Hb.
  - unfold get_article_or_404. rewrite Harts, filter_app.
    rewrite (filter_key_none Article Z article_pk Z.eqb Z.eqb_eq)
      by apply fresh_pk_not_in.
    cbn [filter article_pk app]. rewrite Z.eqb_refl. reflexivity.
  - cbn. auto.
Qed.

Lemma X10_witness :
  exists s' pk b,
    create_form_valid store_xy form0 (Some "x, q") 12 = Ok (s', pk)
    /\ ~ In pk (map article_pk (articles store_xy))
    /\ (forall b', In b' (articles store_xy) -> In b' (articles s'))
    /\ get_article_or_404 s' pk = Ok b
    /\ article_pk b = pk /\ title b = "title" /\ text b = "text" /\ author b = "ann".
Proof.
  apply (X10_create_then_lookup store_xy form0 "x, q" 12). exact wf_store_xy.
Defined.

Lemma filter_map_pk (k : Z) (a' : Article) (l : list Article) :
  article_pk a' = k ->
  filter (fun b => article_pk b =? k)
         (map (fun b => if article_pk b =? k then a' else b) l)
  = map (fun _ => a') (filter (fun b => article_pk b =? k) l).
Proof.
  intros Hk. induction l as [|b l IH]; [reflexivity|].
  cbn [map filter]. destruct (article_pk b =? k) eqn:E.
  - rewrite Hk, Z.eqb_refl. cbn [map]. rewrite IH. reflexivity.
  - rewrite E. exact IH.
Qed.

(** X11: updating an existing article rewrites its title, text and author,
    keeps its key and its creation time, and leaves every other article as it
    was. *)
Theorem X11_update_then_lookup (s : Store) (pk : Z) (a : Article) (form : ArticleForm)
  (tags_str : string) (now : Z) :
  wf_store s -> get_article_or_404 s pk = Ok a ->
  exists s' b,
    update_form_valid s pk form (Some tags_str) now = Ok (s', pk)
    /\ get_article_or_404 s' pk = Ok b
    /\ article_pk b = pk /\ title b = f_title form /\ text b = f_text form
    /\ author b = f_author form /\ created_at b = created_at a
    /\ map article_pk (articles s') = map article_pk (articles s)
    /\ forall b', In b' (articles s) -> article_pk b' <> pk -> In b' (articles s').
Proof.
  intros Hwf Hget.
  destruct (update_form_valid_full s pk a form tags_str now Hwf Hget)
    as (s' & E & _ & Harts & _).
  exists s', (mkArticle pk (f_title form) (f_text form) (f_author form)
                        (created_at a) now).
  split; [exact E|].
  assert (Hf : filter (fun b => article_pk b =? pk) (articles s) = [a]).
  { unfold get_article_or_404 in Hget.
    destruct (filter (fun b => article_pk b =? pk) (articles s)) as [|x [|y l]];
      try discriminate. injection Hget as ->. reflexivity. }
  split; [|do 5 (split; [reflexivity|]); split].
  - unfold get_article_or_404. rewrite Harts, filter_map_pk by reflexivity.
    rewrite Hf. reflexivity.
  - rewrite Harts, map_map. apply map_ext. intros b.
    destruct (article_pk b =? pk) eqn:Eb; [|reflexivity].
    apply Z.eqb_eq in Eb. cbn. congruence.
  - intros b Hb Hne. rewrite Harts. apply in_map_iff. exists b.
    split; [|exact Hb].
    replace (article_pk b =? pk) with false by (symmetry; apply Z.eqb_neq; exact Hne).
    reflexivity.
Qed.

Lemma X11_witness :
  exists s' b,
    update_form_valid store_xy 1 form0 (Some "z") 11 = Ok (s', 1)
    /\ get_article_or_404 s' 1 = Ok b
    /\ article_pk b = 1 /\ title b = "title" /\ text b = "text"
    /\ author b = "ann" /\ created_at b = 10
    /\ map article_pk (articles s') = map article_pk (articles store_xy)
    /\ forall b', In b' (articles store_xy) -> article_pk b' <> 1 -> In b' (articles s').
Proof.
  apply (X11_update_then_lookup store_xy 1 (art 1 "title" "text" "ann" 10) form0 "z" 11);
    [exact wf_store_xy | reflexivity].
Defined.

(** X12: create and update keep the tag tables sound and never drop a tag:
    after either, tag keys and tag names are still unique and the
    associations still point at existing articles and tags; the tags that
    were there are still there, in place, new ones only added behind them;
    the comments are untouched. *)
Theorem X12_tables_stay_sound (s : Store) (form : ArticleForm) (tags_str : string)
  (now : Z) :
  wf_store s ->
  (forall s' pk,
     create_form_valid s form (Some tags_str) now = Ok (s', pk) ->
     wf_store s' /\ (exists added, tags s' = (tags s ++ added)%list)
     /\ comments s' = comments s)
  /\ (forall pk s' pk',
        update_form_valid s pk form (Some tags_str) now = Ok (s', pk') ->
        wf_store s' /\ (exists added, tags s' = (tags s ++ added)%list)
        /\ comments s' = comments s).
Proof.
  intros Hwf. split.
  - intros s' pk H.
    destruct (create_form_valid_full s form tags_str now Hwf)
      as (s'' & E & Hwf' & _ & Htags & Hcom & _).
    rewrite E in H. injection H as <- _. auto.
  - intros pk s' pk' H.
    destruct (get_article_or_404 s pk) as [a|e] eqn:Hget.
    + destruct (update_form_valid_full s pk a form tags_str now Hwf Hget)
        as (s'' & E & Hwf' & _ & Htags & Hcom & _).
      rewrite E in H. injection H as <- _. auto.
    + unfold update_form_valid in H. rewrite Hget in H. discriminate.
Qed.

Lemma X12_witness :
  exists s',
    create_form_valid store_xy form0 (Some "x, q") 12 = Ok (s', 2)
    /\ wf_store s' /\ (exists added, tags s' = (tags store_xy ++ added)%list)
    /\ comments s' = comments store_xy.
Proof.
  eexists. split; [reflexivity|].
  apply (proj1 (X12_tables_stay_sound store_xy form0 "x, q" 12 wf_store_xy) _ 2).
  reflexivity.
Defined.

(** X13: create and update touch the tags of one article only: the tag
    names of every other article are what they were. *)
Theorem X13_other_articles_keep_tags (s : Store) (form : ArticleForm)
  (tags_str : string) (now : Z) :
  wf_store s ->
  (forall s' pk other,
     create_form_valid s form (Some tags_str) now = Ok (s', pk) ->
     other <> pk -> tag_names s' other = tag_names s other)
  /\ (forall pk s' pk' other,
        update_form_valid s pk form (Some tags_str) now = Ok (s', pk') ->
        other <> pk -> tag_names s' other = tag_names s other).
Proof.
  intros Hwf. split.
  - intros s' pk other H Hne.
    destruct (create_form_valid_full s form tags_str now Hwf)
      as (s'' & E & _ & _ & _ & _ & _ & Hother).
    rewrite E in H. injection H as <- <-. apply Hother. exact Hne.
  - intros pk s' pk' other H Hne.
    destruct (get_article_or_404 s pk) as [a|e] eqn:Hget.
    + destruct (update_form_valid_full s pk a form tags_str now Hwf Hget)
        as (s'' & E & _ & _ & _ & _ & _ & Hother).
      rewrite E in H. injection H as <- _. apply Hother. exact Hne.
    + unfold update_form_valid in H. rewrite Hget in H. discriminate.
Qed.

Lemma X13_witness :
  exists s',
    create_form_valid store_xy form0 (Some "x, q") 12 = Ok (s', 2)
    /\ tag_names s' 1 = tag_names store_xy 1.
Proof.
  eexists. split; [reflexivity|].
  apply (proj1 (X13_other_articles_keep_tags store_xy form0 "x, q" 12 wf_store_xy) _ 2 1);
    [reflexivity | discriminate].
Defined.

(** ** Strings of tag names *)

Lemma str_app_assoc (a b c : string) : ((a ++ b) ++ c)%string = (a ++ (b ++ c))%string.
Proof. induction a as [|x a IH]; cbn; [reflexivity | rewrite IH; reflexivity]. Qed.

Lemma str_app_nil_r (a : string) : (a ++ "")%string = a.
Proof. induction a as [|x a IH]; cbn; [reflexivity | rewrite IH; reflexivity]. Qed.

Lemma mem_char_app (c : ascii) (a b : string) :
  Py.mem_char c (a ++ b) = Py.mem_char c a || Py.mem_char c b.
Proof.
  induction a as [|x a IH]; cbn; [reflexivity|].
  rewrite IH. apply orb_assoc.
Qed.

Lemma split_not_nil (sep : ascii) (s : string) : Py.split sep s <> [].
Proof.
  destruct s as [|c r]; cbn; [discriminate|].
  destruct (Ascii.eqb c sep); [discriminate|].
  destruct (Py.split sep r); discriminate.
Qed.

Lemma split_pieces_no_sep (sep : ascii) (s p : string) :
  In p (Py.split sep s) -> Py.mem_char sep p = false.
Proof.
  revert p. induction s as [|c r IH]; intros p H; cbn in H.
  - destruct H as [<- | []]. reflexivity.
  - destruct (Ascii.eqb c sep) eqn:E.
    + destruct H as [<- | H]; [reflexivity | apply IH; exact H].
    + destruct (Py.split sep r) as [|h t] eqn:Es.
      * destruct H as [<- | []]. cbn. rewrite Ascii.eqb_sym, E. reflexivity.
      * destruct H as [<- | H].
        -- cbn. rewrite Ascii.eqb_sym, E. cbn. apply IH. left. reflexivity.
        -- apply IH. right. exact H.
Qed.

Lemma split_no_sep (sep : ascii) (a : string) :
  Py.mem_char sep a = false -> Py.split sep a = [a].
Proof.
  induction a as [|c r IH]; intros H; [reflexivity|].
  cbn in H. apply orb_false_iff in H. destruct H as [Hc Hr].
  cbn. rewrite Ascii.eqb_sym, Hc, (IH Hr). reflexivity.
Qed.

Lemma split_app_sep (sep : ascii) (a b : string) :
  Py.mem_char sep a = false ->
  Py.split sep (a ++ String sep b) = a :: Py.split sep b.
Proof.
  induction a as [|c r IH]; intros H.
  - cbn. rewrite Ascii.eqb_refl. reflexivity.
  - cbn in H. apply orb_false_iff in H. destruct H as [Hc Hr].
    cbn. rewrite Ascii.eqb_sym, Hc, (IH Hr). reflexivity.
Qed.

Lemma lstrip_length (s : string) : (String.length (Py.lstrip s) <= String.length s)%nat.
Proof.
  induction s as [|c r IH]; cbn; [lia|].
  destruct (Py.is_space c); cbn; lia.
Qed.

Lemma rstrip_length (s : string) : (String.length (Py.rstrip s) <= String.length s)%nat.
Proof.
  induction s as [|c r IH]; cbn; [lia|].
  destruct (Py.rstrip r) as [|d r'].
  - destruct (Py.is_space c); cbn; lia.
  - cbn in *. lia.
Qed.

Lemma lstrip_same_length (s : string) :
  String.length (Py.lstrip s) = String.length s -> Py.lstrip s = s.
Proof.
  destruct s as [|c r]; cbn; [reflexivity|].
  destruct (Py.is_space c); [|reflexivity].
  intros H. pose proof (lstrip_length r). lia.
Qed.

Lemma strip_fixed (n : string) :
  Py.strip n = n -> Py.lstrip n = n /\ Py.rstrip n = n.
Proof.
  unfold Py.strip. intros H.
  assert (L : Py.lstrip n = n).
  { apply lstrip_same_length.
    pose proof (lstrip_length n). pose proof (rstrip_length (Py.lstrip n)).
    rewrite H in H1. lia. }
  rewrite L in H. auto.
Qed.

Lemma lstrip_head (n : string) :
  Py.lstrip n = n -> match n with
                     | EmptyString => True
                     | String c _ => Py.is_space c = false
                     end.
Proof.
  destruct n as [|c r]; [auto|]. cbn.
  destruct (Py.is_space c); [|reflexivity].
  intros H. pose proof (lstrip_length r) as L. rewrite H in L. cbn in L. lia.
Qed.

Lemma head_lstrip (n : string) :
  match n with
  | EmptyString => True
  | String c _ => Py.is_space c = false
  end -> Py.lstrip n = n.
Proof.
  destruct n as [|c r]; [reflexivity|]. cbn. intros ->. reflexivity.
Qed.

Lemma rstrip_idempotent (s : string) : Py.rstrip (Py.rstrip s) = Py.rstrip s.
Proof.
  induction s as [|c r IH]; [reflexivity|].
  cbn [Py.rstrip]. destruct (Py.rstrip r) as [|d r'] eqn:E.
  - destruct (Py.is_space c) eqn:Ec; [reflexivity|].
    cbn. rewrite Ec. reflexivity.
  - cbn [Py.rstrip] in *. rewrite IH. reflexivity.
Qed.

Lemma strip_idempotent (s : string) : Py.strip (Py.strip s) = Py.strip s.
Proof.
  unfold Py.strip.
  assert (H : Py.lstrip (Py.rstrip (Py.lstrip s)) = Py.rstrip (Py.lstrip s)).
  { apply head_lstrip.
    assert (Hh : Py.lstrip (Py.lstrip s) = Py.lstrip s).
    { induction s as [|c r IH]; [reflexivity|]. cbn.
      destruct (Py.is_space c) eqn:Ec; [exact IH|]. cbn. rewrite Ec. reflexivity. }
    apply lstrip_head in Hh.
    destruct (Py.lstrip s) as [|c r]; [exact I|].
    cbn [Py.rstrip]. destruct (Py.rstrip r).
    - rewrite Hh. exact Hh.
    - exact Hh. }
  rewrite H. apply rstrip_idempotent.
Qed.

Lemma lstrip_no_char (c : ascii) (s : string) :
  Py.mem_char c s = false -> Py.mem_char c (Py.lstrip s) = false.
Proof.
  induction s as [|d r IH]; intros H; [reflexivity|].
  cbn. destruct (Py.is_space d); [|exact H].
  apply IH. cbn in H. apply orb_false_iff in H. apply H.
Qed.

Lemma rstrip_no_char (c : ascii) (s : string) :
  Py.mem_char c s = false -> Py.mem_char c (Py.rstrip s) = false.
Proof.
  induction s as [|d r IH]; intros H; [reflexivity|].
  cbn in H. apply orb_false_iff in H. destruct H as [Hd Hr].
  specialize (IH Hr). cbn [Py.rstrip]. destruct (Py.rstrip r) as [|e r'].
  - destruct (Py.is_space d); cbn; [reflexivity | rewrite Hd; reflexivity].
  - cbn in *. rewrite Hd. exact IH.
Qed.

Lemma strip_no_char (c : ascii) (s : string) :
  Py.mem_char c s = false -> Py.mem_char c (Py.strip s) = false.
Proof.
  intros H. unfold Py.strip. apply rstrip_no_char, lstrip_no_char. exact H.
Qed.

Lemma parsed_names_shape (tags_str n : string) :
  In n (parsed_tag_names tags_str) ->
  Py.mem_char "," n = false /\ Py.strip n = n.
Proof.
  intros H. apply (proj2 (parsed_tag_names_spec tags_str)) in H.
  apply in_map_iff in H. destruct H as (p & <- & Hp).
  split.
  - apply strip_no_char. apply (split_pieces_no_sep "," tags_str). exact Hp.
  - apply strip_idempotent.
Qed.

(** X14: a tag name that create or update gives an article holds no comma
    and no white space at its ends. *)
Theorem X14_tag_names_are_trimmed (s : Store) (form : ArticleForm) (tags_str : string)
  (now : Z) :
  wf_store s ->
  (forall s' pk n,
     create_form_valid s form (Some tags_str) now = Ok (s', pk) ->
     In n (tag_names s' pk) -> Py.mem_char "," n = false /\ Py.strip n = n)
  /\ (forall pk s' pk' n,
        update_form_valid s pk form (Some tags_str) now = Ok (s', pk') ->
        In n (tag_names s' pk) -> Py.mem_char "," n = false /\ Py.strip n = n).
Proof.
  intros Hwf. split.
  - intros s' pk n H Hn.
    destruct (create_form_valid_full s form tags_str now Hwf)
      as (s'' & E & _ & _ & _ & _ & Hnames & _).
    rewrite E in H. injection H as <- <-. rewrite Hnames in Hn.
    apply (parsed_names_shape tags_str). exact Hn.
  - intros pk s' pk' n H Hn.
    destruct (get_article_or_404 s pk) as [a|e] eqn:Hget.
    + destruct (update_form_valid_full s pk a form tags_str now Hwf Hget)
        as (s'' & E & _ & _ & _ & _ & Hnames & _).
      rewrite E in H. injection H as <- _. rewrite Hnames in Hn.
      apply (parsed_names_shape tags_str). exact Hn.
    + unfold update_form_valid in H. rewrite Hget in H. discriminate.
Qed.

Lemma X14_witness :
  exists s',
    create_form_valid store0 form0 (Some " a b ,c ") 0 = Ok (s', 1)
    /\ tag_names s' 1 = ["a b"; "c"]
    /\ (Py.mem_char "," "a b" = false /\ Py.strip "a b" = "a b").
Proof.
  eexists. split; [reflexivity|]. split; [reflexivity|].
  eapply (proj1 (X14_tag_names_are_trimmed store0 form0 " a b ,c " 0 wf_store0));
    [reflexivity | left; reflexivity].
Defined.

(** ** The tag string of the edit form *)

Lemma concat_names_eq (names : list string) :
  concat_names names = names_with_commas names.
Proof.
  unfold concat_names.
  assert (H : forall acc,
             fold_left (fun str_tag name => (str_tag ++ (name ++ ", "))%string) names acc
             = (acc ++ names_with_commas names)%string).
  { induction names as [|n rest IH]; intros acc; cbn [fold_left names_with_commas].
    - rewrite str_app_nil_r. reflexivity.
    - rewrite IH, !str_app_assoc. reflexivity. }
  apply (H "").
Qed.

Lemma rstrip_chars_app (cs a b : string) :
  Py.rstrip_chars cs (a ++ b)
  = match Py.rstrip_chars cs b with
    | EmptyString => Py.rstrip_chars cs a
    | b' => (a ++ b')%string
    end.
Proof.
  induction a as [|c r IH].
  - cbn. destruct (Py.rstrip_chars cs b); reflexivity.
  - cbn [append Py.rstrip_chars]. rewrite IH.
    destruct (Py.rstrip_chars cs b) as [|d b'']; [reflexivity|].
    destruct r; reflexivity.
Qed.

Lemma not_in_comma_space (c : ascii) :
  Py.is_space c = false -> Ascii.eqb "," c = false -> Py.mem_char c ", " = false.
Proof.
  intros Hs Hc.
  change (Py.mem_char c ", ") with (Ascii.eqb c "," || (Ascii.eqb c " " || false)).
  rewrite Ascii.eqb_sym, Hc.
  destruct (Ascii.eqb c " ") eqn:E; [|reflexivity].
  apply Ascii.eqb_eq in E. subst c. cbv in Hs. discriminate.
Qed.

Lemma rstrip_chars_plain (n : string) :
  Py.rstrip n = n -> Py.mem_char "," n = false -> Py.rstrip_chars ", " n = n.
Proof.
  induction n as [|c r IH]; intros Hr Hc; [reflexivity|].
  change (Py.mem_char "," (String c r))
    with (Ascii.eqb "," c || Py.mem_char "," r) in Hc.
  apply orb_false_iff in Hc. destruct Hc as [Hc Hcr].
  cbn [Py.rstrip] in Hr. cbn [Py.rstrip_chars].
  destruct (Py.rstrip r) as [|d r'] eqn:E.
  - destruct (Py.is_space c) eqn:Es; [discriminate|].
    injection Hr as <-. cbn [Py.rstrip_chars].
    rewrite (not_in_comma_space c Es Hc). reflexivity.
  - injection Hr as Hr.
    rewrite (IH Hr Hcr). rewrite <- Hr. reflexivity.
Qed.

Lemma lstrip_chars_plain (n x : string) :
  n <> "" -> Py.lstrip n = n -> Py.mem_char "," n = false ->
  Py.lstrip_chars ", " (n ++ x) = (n ++ x)%string.
Proof.
  intros Hne Hl Hc. apply lstrip_head in Hl.
  destruct n as [|c r]; [contradiction|].
  change (Py.mem_char "," (String c r))
    with (Ascii.eqb "," c || Py.mem_char "," r) in Hc.
  apply orb_false_iff in Hc. destruct Hc as [Hc _].
  cbn [append Py.lstrip_chars]. rewrite (not_in_comma_space c Hl Hc). reflexivity.
Qed.

Lemma join_names_not_empty (n : string) (rest : list string) :
  n <> "" -> join_names (n :: rest) <> "".
Proof.
  intros Hn. destruct rest as [|m r]; cbn [join_names]; [exact Hn|].
  destruct n as [|c n']; [contradiction | discriminate].
Qed.

Lemma strip_chars_names (names : list string) :
  Forall plain_name names ->
  Py.strip_chars ", " (names_with_commas names) = join_names names.
Proof.
  intros Hall. unfold Py.strip_chars.
  assert (L : Py.lstrip_chars ", " (names_with_commas names) = names_with_commas names).
  { destruct Hall as [|n rest (Hne & Hc & Hs) _]; [reflexivity|].
    cbn [names_with_commas]. apply lstrip_chars_plain; [exact Hne | | exact Hc].
    apply (strip_fixed n Hs). }
  rewrite L. clear L.
  induction Hall as [|n rest (Hne & Hc & Hs) Hrest IH]; [reflexivity|].
  cbn [names_with_commas]. rewrite rstrip_chars_app.
  rewrite (rstrip_chars_app ", " ", " (names_with_commas rest)), IH.
  destruct rest as [|m r].
  - cbn [join_names]. change (Py.rstrip_chars ", " ", ") with "".
    apply rstrip_chars_plain; [apply (strip_fixed n Hs) | exact Hc].
  - inversion Hrest as [|? ? (Hm & _) _]; subst.
    pose proof (join_names_not_empty m r Hm) as Hj.
    destruct (join_names (m :: r)) as [|d j] eqn:Ej; [contradiction|].
    change (join_names (n :: m :: r)) with (n ++ ", " ++ join_names (m :: r))%string.
    rewrite Ej. reflexivity.
Qed.

Lemma split_join_names (names : list string) (pre : string) :
  names <> [] -> Forall plain_name names -> pre = "" \/ pre = " " ->
  map Py.strip (Py.split "," (pre ++ join_names names)) = names.
Proof.
  intros Hne Hall. revert pre.
  induction Hall as [|n rest (Hn & Hc & Hs) Hrest IH]; [contradiction|].
  intros pre Hpre.
  assert (Hpc : Py.mem_char "," (pre ++ n) = false).
  { rewrite mem_char_app, Hc. destruct Hpre as [-> | ->]; reflexivity. }
  assert (Hps : Py.strip (pre ++ n) = n).
  { destruct Hpre as [-> | ->]; exact Hs. }
  destruct rest as [|m r].
  - cbn [join_names]. rewrite (split_no_sep "," _ Hpc). cbn [map]. rewrite Hps.
    reflexivity.
  - change (join_names (n :: m :: r))
      with (n ++ String "," (" " ++ join_names (m :: r)))%string.
    rewrite <- str_app_assoc, (split_app_sep "," _ _ Hpc). cbn [map].
    rewrite Hps. f_equal. apply IH; [discriminate | right; reflexivity].
Qed.

Lemma fold_add_name_nodup (names acc : list string) :
  NoDup (acc ++ names) -> fold_left add_name names acc = (acc ++ names)%list.
Proof.
  revert acc. induction names as [|n r IH]; intros acc H; cbn [fold_left].
  - rewrite app_nil_r. reflexivity.
  - assert (Hn : ~ In n acc).
    { intros Hin. apply NoDup_remove_2 in H. apply H. apply in_or_app. left. exact Hin. }
    unfold add_name at 2.
    destruct (existsb (String.eqb n) acc) eqn:E;
      [apply existsb_eqb_in in E; contradiction|].
    rewrite IH; rewrite <- app_assoc; [reflexivity | exact H].
Qed.

Lemma rstrip_app (a b : string) :
  Py.rstrip (a ++ b)
  = match Py.rstrip b with
    | EmptyString => Py.rstrip a
    | b' => (a ++ b')%string
    end.
Proof.
  induction a as [|c r IH].
  - cbn. destruct (Py.rstrip b); reflexivity.
  - cbn [append Py.rstrip]. rewrite IH.
    destruct (Py.rstrip b) as [|d b'']; [reflexivity|].
    destruct r; reflexivity.
Qed.

Lemma join_names_stripped (names : list string) :
  Forall plain_name names -> Py.strip (join_names names) = join_names names.
Proof.
  intros Hall. unfold Py.strip.
  assert (L : Py.lstrip (join_names names) = join_names names).
  { destruct Hall as [|n rest (Hne & _ & Hs) _]; [reflexivity|].
    apply head_lstrip. pose proof (lstrip_head n (proj1 (strip_fixed n Hs))) as Hh.
    destruct n as [|c r]; [contradiction|].
    destruct rest; exact Hh. }
  rewrite L. clear L.
  induction Hall as [|n rest (Hne & _ & Hs) Hrest IH]; [reflexivity|].
  destruct rest as [|m r]; [apply (strip_fixed n Hs)|].
  change (join_names (n :: m :: r)) with (n ++ ", " ++ join_names (m :: r))%string.
  inversion Hrest as [|? ? (Hm & _) _]; subst.
  pose proof (join_names_not_empty m r Hm) as Hj.
  rewrite rstrip_app, (rstrip_app ", " (join_names (m :: r))), IH.
  destruct (join_names (m :: r)) as [|d j]; [contradiction | reflexivity].
Qed.

(** X15: the tag string that the edit form shows reads back as the tags the
    article has.  Take the names of the article's tags in the order the store
    returns them, at least one, all distinct, not empty, without comma and
    without white space at their ends.  The edit view offers them joined by
    ", "; when that string has at most 30 characters and no null character
    the form's tags field accepts it as it is, and saving the form with it
    leaves the article with the same tag names, in the order offered. *)
Theorem X15_edit_form_round_trip (s : Store) (pk : Z) (a : Article)
  (form : ArticleForm) (now : Z) (names : list string) :
  wf_store s -> get_article_or_404 s pk = Ok a ->
  tags_all_names s pk names ->
  names <> [] -> Forall plain_name names -> NoDup names ->
  Py.len (join_names names) <= 30 -> Py.has_null (join_names names) = false ->
  update_get s pk names = Ok (a, join_names names)
  /\ ArticleForm_clean_tags (Some (join_names names)) = Some (join_names names)
  /\ exists s',
       update_form_valid s pk form (Some (join_names names)) now = Ok (s', pk)
       /\ tag_names s' pk = names
       /\ Permutation (tag_names s' pk) (tag_names s pk).
Proof.
  intros Hwf Hget Hperm Hne Hall Hnd Hlen Hnull.
  destruct (update_form_valid_full s pk a form (join_names names) now Hwf Hget)
    as (s' & E & _ & _ & _ & _ & Hnames & _).
  split; [|split].
  - unfold update_get. rewrite Hget. cbn [bind].
    rewrite concat_names_eq, (strip_chars_names _ Hall). reflexivity.
  - unfold ArticleForm_clean_tags, CharField_clean.
    rewrite (join_names_stripped names Hall), Hnull.
    replace (30 <? Py.len (join_names names)) with false
      by (symmetry; apply Z.ltb_ge; exact Hlen).
    cbn [orb]. rewrite andb_false_r. reflexivity.
  - exists s'. split; [exact E|].
    assert (En : tag_names s' pk = names).
    { rewrite Hnames. unfold parsed_tag_names.
      pose proof (split_join_names names "" Hne Hall (or_introl eq_refl)) as R.
      cbn [append] in R. rewrite R.
      apply (fold_add_name_nodup names []). exact Hnd. }
    split; [exact En|]. rewrite En. exact Hperm.
Qed.

Lemma X15_witness :
  update_get store_xy 1 ["y"; "x"] = Ok (art 1 "title" "text" "ann" 10, "y, x")
  /\ ArticleForm_clean_tags (Some "y, x") = Some "y, x"
  /\ exists s',
       update_form_valid store_xy 1 form0 (Some "y, x") 11 = Ok (s', 1)
       /\ tag_names s' 1 = ["y"; "x"]
       /\ Permutation (tag_names s' 1) (tag_names store_xy 1).
Proof.
  apply (X15_edit_form_round_trip store_xy 1 (art 1 "title" "text" "ann" 10) form0 11
           ["y"; "x"]).
  - exact wf_store_xy.
  - reflexivity.
  - apply perm_swap.
  - discriminate.
  - constructor; [|constructor; [|constructor]];
      (split; [discriminate | split; reflexivity]).
  - constructor; [intros [H | []]; discriminate|].
    constructor; [intros []|constructor].
  - vm_compute. discriminate.
  - reflexivity.
Defined.

(** X16: an article without tags gets one by being edited: its edit form
    shows an empty tag string, and saving the form with that string attaches
    the tag with the empty name. *)
Theorem X16_edit_without_tags (s : Store) (pk : Z) (a : Article)
  (form : ArticleForm) (now : Z) (names : list string) :
  wf_store s -> get_article_or_404 s pk = Ok a -> tag_names s pk = [] ->
  tags_all_names s pk names ->
  exists s',
    update_get s pk names = Ok (a, "")
    /\ update_form_valid s pk form (Some "") now = Ok (s', pk)
    /\ tag_names s' pk = [""].
Proof.
  intros Hwf Hget Hnone Hperm.
  destruct (update_form_valid_full s pk a form "" now Hwf Hget)
    as (s' & E & _ & _ & _ & _ & Hnames & _).
  exists s'. split; [|split; [exact E | exact Hnames]].
  unfold tags_all_names in Hperm. rewrite Hnone in Hperm.
  apply Permutation_sym, Permutation_nil in Hperm. subst names.
  unfold update_get. rewrite Hget. reflexivity.
Qed.

Lemma X16_witness :
  exists s',
    update_get store6 2 [] = Ok (art 2 "two" "" "bob" 30, "")
    /\ update_form_valid store6 2 form0 (Some "") 70 = Ok (s', 2)
    /\ tag_names s' 2 = [""].
Proof.
  apply (X16_edit_without_tags store6 2 (art 2 "two" "" "bob" 30) form0 70 []).
  - constructor; cbn; [constructor | constructor | intros x t []].
  - reflexivity.
  - reflexivity.
  - apply perm_nil.
Defined.

(** ** Missing articles and one-field searches *)

Lemma get_article_missing (s : Store) (pk : Z) :
  (forall b, In b (articles s) -> article_pk b <> pk) ->
  get_article_or_404 s pk = Raise Http404.
Proof.
  intros H. unfold get_article_or_404.
  rewrite (filter_key_none Article Z article_pk Z.eqb Z.eqb_eq); [reflexivity|].
  intros Hin. apply in_map_iff in Hin. destruct Hin as (b & Hb & Hin).
  exact (H b Hin Hb).
Qed.

(** X17: a key that no article has is answered with [Http404] by the edit
    view, by the update and by the detail view. *)
Theorem X17_missing_article_is_404 (s : Store) (pk : Z) (form : ArticleForm)
  (post_tags raw_page : option string) (now : Z) (names : list string) :
  (forall b, In b (articles s) -> article_pk b <> pk) ->
  update_get s pk names = Raise Http404
  /\ update_form_valid s pk form post_tags now = Raise Http404
  /\ article_context s pk raw_page = Raise Http404.
Proof.
  intros H. apply get_article_missing in H.
  unfold update_get, update_form_valid, article_context. rewrite H.
  repeat split.
Qed.

Lemma X17_witness :
  update_get store6 9 [] = Raise Http404
  /\ update_form_valid store6 9 form0 (Some "z") 70 = Raise Http404
  /\ article_context store6 9 None = Raise Http404.
Proof.
  apply (X17_missing_article_is_404 store6 9 form0 (Some "z") None 70 []).
  intros b Hb. cbn in Hb.
  repeat (destruct Hb as [<- | Hb]; [discriminate|]). contradiction.
Defined.

(** X18: a search on one field alone returns exactly the articles matching
    it: with only the text filled in, those that match the text in one of the
    selected text scopes; with only the author filled in, those that match
    the author in one of the selected author scopes. *)
Theorem X18_single_field_search (s : Store) (d : CleanedData) :
  clean d = Cleaned d ->
  (forall t, cd_text d = Some t -> t <> "" -> Py.truthy_opt (cd_author d) = false ->
     forall x, In x (search_form_valid s d)
               <-> In x (articles s) /\ text_matches s d t x)
  /\ (forall a, Py.truthy_opt (cd_text d) = false -> cd_author d = Some a -> a <> "" ->
        forall x, In x (search_form_valid s d)
                  <-> In x (articles s) /\ author_matches s d a x).
Proof.
  intros Hv. split.
  - intros t Ht Hnt Ha x.
    pose proof (validated_text_scope d t Hv Ht Hnt) as Hs.
    destruct (text_query_plain d t Hs) as [Pt _].
    assert (E : search_query d = get_text_query d t).
    { unfold search_query. rewrite Ht.
      apply truthy_true in Hnt. rewrite Hnt.
      unfold Q_and. rewrite Q_combine_empty_l by exact Pt.
      destruct (cd_author d) as [a|]; [|reflexivity].
      cbn in Ha. rewrite Ha. reflexivity. }
    rewrite search_form_valid_in, E, (text_query_matches s d t x Hs). reflexivity.
  - intros a Ht Ha Hna x.
    pose proof (validated_author_scope d a Hv Ha Hna) as Hs.
    destruct (author_query_plain d a Hs) as [Pa _].
    assert (E : search_query d = get_author_query d a).
    { unfold search_query. rewrite Ha.
      apply truthy_true in Hna. rewrite Hna.
      destruct (cd_text d) as [t|].
      - cbn in Ht. rewrite Ht. unfold Q_and. apply Q_combine_empty_l. exact Pa.
      - unfold Q_and. apply Q_combine_empty_l. exact Pa. }
    rewrite search_form_valid_in, E, (author_query_matches s d a x Hs). reflexivity.
Qed.

Lemma X18_witness :
  In (art 1 "SeaFOOd" "fish" "ann" 10) (search_form_valid store_foo d_title_foo)
  <-> In (art 1 "SeaFOOd" "fish" "ann" 10) (articles store_foo)
      /\ text_matches store_foo d_title_foo "foo" (art 1 "SeaFOOd" "fish" "ann" 10).
Proof.
  apply (proj1 (X18_single_field_search store_foo d_title_foo eq_refl) "foo");
    [reflexivity | discriminate | reflexivity].
Defined.

(** ** The search on both fields *)

Lemma refers_node (on : Lookup -> bool) (c : Connector) (n : bool) (ch : list Q) :
  refers on (Node c n ch) = existsb (refers on) ch.
Proof. reflexivity. Qed.

Lemma Q_add_plain_refers (on : Lookup -> bool) (conn : Connector) (ch : list Q)
  (data : Q) :
  plain data ->
  refers on (Q_add (Node conn false ch) data conn)
  = existsb (refers on) ch || refers on data.
Proof.
  intros (dc & x & dch & ->). unfold Q_add.
  replace (Connector_eqb conn conn) with true by (destruct conn; reflexivity).
  destruct (Connector_eqb dc conn || (List.length (x :: dch) =? 1)%nat);
    rewrite !refers_node, existsb_app; [reflexivity|].
  cbn [existsb]. rewrite refers_node, orb_false_r. reflexivity.
Qed.

Lemma Q_combine_refers (on : Lookup -> bool) (a b : Q) (conn : Connector) :
  plain a -> plain b ->
  refers on (Q_combine a b conn) = refers on a || refers on b.
Proof.
  intros Ha Hb. unfold Q_combine.
  assert (Ba : Q_bool a = true) by (destruct Ha as (c & x & ch & ->); reflexivity).
  assert (Bb : Q_bool b = true) by (destruct Hb as (c & x & ch & ->); reflexivity).
  rewrite Ba, Bb. cbn [negb].
  pose proof (Q_add_plain_refers on conn [] a Ha) as Ra. cbn [existsb orb] in Ra.
  destruct (Q_add_plain conn [] a Ha) as (la & xa & la' & Ea & _ & _).
  rewrite Ea in Ra |- *. cbn [app] in Ra |- *.
  rewrite (Q_add_plain_refers on conn la b Hb).
  rewrite refers_node in Ra. rewrite Ra. reflexivity.
Qed.

Lemma author_query_refers_tags (d : CleanedData) (a : string) :
  refers lookup_on_tags (get_author_query d a) = false.
Proof.
  unfold get_author_query.
  destruct (article_author d), (comment_author d); reflexivity.
Qed.

Lemma text_predicate_lift (d : CleanedData) (t : string) (x : Article)
  (ot ot' : option Tag) (oc oc' : option Comment) :
  (in_tags d = true -> ot = None \/ ot' = ot) ->
  (in_comment_text d = true -> oc = None \/ oc' = oc) ->
  text_predicate d t (mkRow x ot oc) = true ->
  text_predicate d t (mkRow x ot' oc') = true.
Proof.
  unfold text_predicate, on_tag, on_comment. cbn [r_article r_tag r_comment].
  intros Ht Hc H. rewrite !orb_true_iff, !andb_true_iff in *.
  destruct H as [[[H | H] | [Hs H]] | [Hs H]]; auto.
  - left. right. split; [exact Hs|].
    destruct (Ht Hs) as [-> | ->]; [discriminate | exact H].
  - right. split; [exact Hs|].
    destruct (Hc Hs) as [-> | ->]; [discriminate | exact H].
Qed.

Lemma author_predicate_lift (d : CleanedData) (a : string) (x : Article)
  (ot ot' : option Tag) (oc oc' : option Comment) :
  (comment_author d = true -> oc = None \/ oc' = oc) ->
  author_predicate d a (mkRow x ot oc) = true ->
  author_predicate d a (mkRow x ot' oc') = true.
Proof.
  unfold author_predicate, on_comment. cbn [r_article r_comment].
  intros Hc H. rewrite !orb_true_iff, !andb_true_iff in *.
  destruct H as [H | [Hs H]]; auto.
  right. split; [exact Hs|].
  destruct (Hc Hs) as [-> | ->]; [discriminate | exact H].
Qed.

(** One side of a joined row: when the table is joined ([guard]) take the
    row asked for, or any row if none is asked for; when it is not joined
    take the NULL row. *)
Lemma pick_side {A : Type} (guard : bool) (l : list A) (o : option A) :
  (forall g, o = Some g -> In g l) ->
  exists o', In o' (if guard then null_pad l else [None])
             /\ (guard = true -> o = None \/ o' = o).
Proof.
  intros H. destruct guard.
  - destruct o as [g|].
    + exists (Some g). split; [apply in_null_pad_some, H; reflexivity | auto].
    + destruct (null_pad_inhabited l) as [o' Ho']. exists o'. auto.
  - exists None. split; [left; reflexivity | discriminate].
Qed.

Lemma search_query_both_shape (d : CleanedData) (t a : string) :
  clean d = Cleaned d ->
  cd_text d = Some t -> t <> "" -> cd_author d = Some a -> a <> "" ->
  search_query d = (get_text_query d t & get_author_query d a)%Q
  /\ refers lookup_on_tags (search_query d) = in_tags d
  /\ refers lookup_on_comments (search_query d) = in_comment_text d || comment_author d.
Proof.
  intros Hv Ht Hnt Ha Hna.
  pose proof (validated_text_scope d t Hv Ht Hnt) as St.
  apply (text_query_plain d t) in St. destruct St as [Pt _].
  pose proof (validated_author_scope d a Hv Ha Hna) as Sa.
  apply (author_query_plain d a) in Sa. destruct Sa as [Pa _].
  assert (E : search_query d = (get_text_query d t & get_author_query d a)%Q).
  { unfold search_query. rewrite Ht, Ha.
    apply truthy_true in Hnt. apply truthy_true in Hna. rewrite Hnt, Hna.
    unfold Q_and at 2. rewrite Q_combine_empty_l by exact Pt. reflexivity. }
  split; [exact E|]. rewrite E. unfold Q_and.
  rewrite !(Q_combine_refers _ _ _ AND Pt Pa).
  rewrite text_query_refers_tags, text_query_refers_comments,
    author_query_refers_tags, author_query_refers_comments, orb_false_r.
  auto.
Qed.

Lemma both_fields_matches (s : Store) (d : CleanedData) (t a : string) (x : Article) :
  clean d = Cleaned d ->
  cd_text d = Some t -> t <> "" -> cd_author d = Some a -> a <> "" ->
  matches s (search_query d) x <-> joint_matches s d t a x.
Proof.
  intros Hv Ht Hnt Ha Hna.
  pose proof (search_query_both d t a Hv Ht Hnt Ha Hna) as Hev.
  destruct (search_query_both_shape d t a Hv Ht Hnt Ha Hna) as (_ & Rt & Rc).
  unfold matches, joint_matches. split.
  - intros (r & Hr & H). rewrite Hev in H. apply andb_true_iff in H.
    apply in_rows in Hr. destruct Hr as (Ex & Hot & Hoc).
    exists (r_tag r), (r_comment r).
    destruct r as [rx rt rc]. cbn [r_article r_tag r_comment] in *. subst rx.
    split; [|split; [|exact H]].
    + intros g ->. apply (joined_tags_some s _ _ _ Hot).
    + intros c ->. apply (joined_comments_some s _ _ _ Hoc).
  - intros (ot & oc & Hot & Hoc & Htp & Hap).
    destruct (pick_side (in_tags d) (tags_join s x) ot Hot) as (ot' & Hin_t & Hl_t).
    destruct (pick_side (in_comment_text d || comment_author d)
                        (comments_join s x) oc Hoc) as (oc' & Hin_c & Hl_c).
    exists (mkRow x ot' oc'). split.
    + apply in_rows. cbn [r_article r_tag r_comment].
      split; [reflexivity|]. unfold joined_tags, joined_comments.
      rewrite Rt, Rc. auto.
    + rewrite Hev. apply andb_true_iff. split.
      * apply (text_predicate_lift d t x ot ot' oc oc'); [exact Hl_t | | exact Htp].
        intros Hs. apply Hl_c. rewrite Hs. reflexivity.
      * apply (author_predicate_lift d a x ot ot' oc oc'); [|exact Hap].
        intros Hs. apply Hl_c. rewrite Hs. apply orb_true_r.
Qed.

(** C6, as the code has it: for cleaned data that [clean] accepts, with
    both fields filled in the query of the search is the text query AND the
    author query, read on one joined row: an article is returned exactly when
    the article, with one of its tags or none and one of its comments or none,
    passes the text predicate and the author predicate together (so a match
    on a comment's text and a match on a comment's author must come from the
    same comment).  With one field filled in the query is the query of that
    field, and the articles returned are those that match it.  The articles
    returned are without duplicates. *)
Theorem C6_final_filter (s : Store) (d : CleanedData) :
  clean d = Cleaned d ->
  (forall t a, cd_text d = Some t -> t <> "" -> cd_author d = Some a -> a <> "" ->
     search_query d = (get_text_query d t & get_author_query d a)%Q
     /\ (forall r, eval (search_query d) r
                   = text_predicate d t r && author_predicate d a r)
     /\ (forall x, In x (search_form_valid s d)
                   <-> In x (articles s) /\ joint_matches s d t a x))
  /\ (forall t, cd_text d = Some t -> t <> "" -> Py.truthy_opt (cd_author d) = false ->
        search_query d = get_text_query d t
        /\ (forall r, eval (search_query d) r = text_predicate d t r)
        /\ (forall x, In x (search_form_valid s d)
                      <-> In x (articles s) /\ text_matches s d t x))
  /\ (forall a, Py.truthy_opt (cd_text d) = false -> cd_author d = Some a -> a <> "" ->
        search_query d = get_author_query d a
        /\ (forall r, eval (search_query d) r = author_predicate d a r)
        /\ (forall x, In x (search_form_valid s d)
                      <-> In x (articles s) /\ author_matches s d a x))
  /\ NoDup (search_form_valid s d).
Proof.
  intros Hv. split; [|split; [|split]].
  - intros t a Ht Hnt Ha Hna.
    split; [apply (search_query_both_shape d t a Hv Ht Hnt Ha Hna)|].
    split; [apply (search_query_both d t a Hv Ht Hnt Ha Hna)|].
    intros x. rewrite search_form_valid_in.
    rewrite (both_fields_matches s d t a x Hv Ht Hnt Ha Hna). reflexivity.
  - intros t Ht Hnt Ha.
    pose proof (validated_text_scope d t Hv Ht Hnt) as Hs.
    destruct (text_query_plain d t Hs) as [Pt Et].
    assert (E : search_query d = get_text_query d t).
    { unfold search_query. rewrite Ht.
      apply truthy_true in Hnt. rewrite Hnt.
      unfold Q_and. rewrite Q_combine_empty_l by exact Pt.
      destruct (cd_author d) as [a|]; [|reflexivity].
      cbn in Ha. rewrite Ha. reflexivity. }
    split; [exact E|]. split; [intros r; rewrite E; apply Et|].
    intros x. rewrite search_form_valid_in, E, (text_query_matches s d t x Hs).
    reflexivity.
  - intros a Ht Ha Hna.
    pose proof (validated_author_scope d a Hv Ha Hna) as Hs.
    destruct (author_query_plain d a Hs) as [Pa Ea].
    assert (E : search_query d = get_author_query d a).
    { unfold search_query. rewrite Ha.
      apply truthy_true in Hna. rewrite Hna.
      destruct (cd_text d) as [t|].
      - cbn in Ht. rewrite Ht. unfold Q_and. apply Q_combine_empty_l. exact Pa.
      - unfold Q_and. apply Q_combine_empty_l. exact Pa. }
    split; [exact E|]. split; [intros r; rewrite E; apply Ea|].
    intros x. rewrite search_form_valid_in, E, (author_query_matches s d a x Hs).
    reflexivity.
  - apply NoDup_nodup.
Qed.

Lemma C6_witness :
  search_query d_foo_ann = (get_text_query d_foo_ann "foo" & get_author_query d_foo_ann "ANN")%Q
  /\ (In (art 1 "SeaFOOd" "fish" "ann" 10) (search_form_valid store_foo d_foo_ann)
      <-> In (art 1 "SeaFOOd" "fish" "ann" 10) (articles store_foo)
          /\ joint_matches store_foo d_foo_ann "foo" "ANN" (art 1 "SeaFOOd" "fish" "ann" 10))
  /\ NoDup (search_form_valid store_foo d_foo_ann).
Proof.
  pose proof (C6_final_filter store_foo d_foo_ann eq_refl) as (H1 & _ & _ & H4).
  destruct (H1 "foo" "ANN" eq_refl ltac:(discriminate) eq_refl ltac:(discriminate))
    as (E & _ & Hiff).
  split; [exact E|]. split; [apply Hiff | exact H4].
Defined.

(** C6, as the spec has it, fails: article 3 has a comment whose text
    contains "bar" and a comment whose author is "bob", so it matches the text
    predicate and the author predicate, each through some comment; the search
    for both does not return it, because no one comment matches both. *)
Lemma C6_counterexample :
  clean d_bar_bob = Cleaned d_bar_bob
  /\ In (art 3 "zzz" "yyy" "cy" 30) (articles store_foo)
  /\ text_matches store_foo d_bar_bob "bar" (art 3 "zzz" "yyy" "cy" 30)
  /\ author_matches store_foo d_bar_bob "bob" (art 3 "zzz" "yyy" "cy" 30)
  /\ ~ In (art 3 "zzz" "yyy" "cy" 30) (search_form_valid store_foo d_bar_bob).
Proof.
  split; [reflexivity|]. split; [right; right; left; reflexivity|].
  split; [|split].
  - right. right. right. split; [reflexivity|].
    exists (mkComment 4 3 "cy" "bar" 33). split; [cbn; auto | reflexivity].
  - right. split; [reflexivity|].
    exists (mkComment 3 3 "bob" "foo two" 32). split; [cbn; auto | reflexivity].
  - intros [].
Qed.
